(** * GSAC air-conditioner integration: availability-gated state synchronisation

    A shallow embedding of the Home Assistant integration [gsac]
    (const.py, base.py, __init__.py, config_flow.py, climate.py,
    number.py, sensor.py, select.py, switch.py) and the properties of its
    specification.

    Python objects become records, the [async] methods and MQTT callbacks
    become state-passing functions in a small state/trace/exception monad,
    and everything the code hands to Home Assistant or to the MQTT client
    (publish, subscribe, state write, task creation, logging) is recorded
    as an effect in the trace.

    What is taken from the collaborators:
    - the event loop is single-threaded and a callback or command runs to
      its end before the next one starts: an [await] on the transport
      (publish, subscribe) returns without another callback in between;
    - a coroutine given to [hass.async_create_task] is queued and run
      later, oldest first ([ClimateLoop], [System]);
    - the transport delivers: [mqtt.async_publish] and
      [mqtt.async_subscribe] return normally;
    - the builtin [float] is a parameter ([Builtins]); [round], [min],
      [max], [int] and [str] are modelled on exact values ([Py]);
    - of Home Assistant's entity classes only the [_attr_*] fields that
      the integration reads or assigns are kept;
    - strings are sequences of bytes: [str.strip], [len] and the device-id
      pattern are those of Python on ASCII text;
    - Home Assistant forwards an entry to the platforms in the order of
      [PLATFORMS], assigns an entity its id before it calls
      [async_added_to_hass], and unloads the platforms before
      [async_unload_entry] pops the entry;
    - of the configuration flow, [_check_mqtt_topic_exists] (which waits
      on the broker) is taken by its answer, and
      [_abort_if_unique_id_configured] aborts when an existing entry has
      the unique id.
    Log messages are the source's format strings, without their
    arguments. *)

From Stdlib Require Import String Ascii ZArith QArith Qround Qabs Qminmax.
From Stdlib Require Import List Bool Lia Lqa DecimalString.
Import ListNotations.

Local Open Scope string_scope.
Local Open Scope Z_scope.
Local Open Scope list_scope.

(* ===================================================================== *)
(** ** Python values used by the integration *)
(* ===================================================================== *)

Module Py.

(** A Python [float]: a finite value (every double is a rational) or one
    of the three special values. *)
Inductive pyfloat : Type :=
| Finite (q : Q)
| PosInf
| NegInf
| NaN.

(** A Python number as the temperature attributes hold it: an [int]
    ([TEMP_MIN], the result of [int(round(..))]) or a [float]
    (the result of [float(payload)]). *)
Inductive pynum : Type :=
| PInt (z : Z)
| PFloat (f : pyfloat).

(** The exceptions that the modelled code can meet. *)
Inductive exn : Type :=
| ValueError
| TypeError
| OverflowError.

Definition to_float (x : pynum) : pyfloat :=
  match x with
  | PInt z => Finite (inject_Z z)
  | PFloat f => f
  end.

(** [a < b] on Python numbers; comparisons with NaN are false, and an int
    is compared with a float by value. *)
Definition float_lt (a b : pyfloat) : bool :=
  match a, b with
  | NaN, _ | _, NaN => false
  | PosInf, _ => false
  | _, NegInf => false
  | NegInf, _ => true
  | _, PosInf => true
  | Finite p, Finite q => negb (Qle_bool q p)
  end.

Definition lt (a b : pynum) : bool := float_lt (to_float a) (to_float b).
Definition gt (a b : pynum) : bool := lt b a.

(** The builtins [min(a, b)] and [max(a, b)]: the first argument is kept
    unless the second is strictly smaller (resp. larger). *)
Definition min2 (a b : pynum) : pynum := if lt b a then b else a.
Definition max2 (a b : pynum) : pynum := if gt b a then b else a.

(** [round(x)] on a finite value: the nearest integer, a tie going to the
    even neighbour. *)
Definition round_half_even (q : Q) : Z :=
  let f := Qfloor q in
  match Qcompare (q - inject_Z f) (1 # 2) with
  | Lt => f
  | Gt => f + 1
  | Eq => if Z.even f then f else f + 1
  end.

(** [int(round(x))]: an int rounds to itself; NaN raises [ValueError] and
    an infinity raises [OverflowError]. *)
Definition int_round (x : pynum) : exn + Z :=
  match x with
  | PInt z => inr z
  | PFloat (Finite q) => inr (round_half_even q)
  | PFloat NaN => inl ValueError
  | PFloat _ => inl OverflowError
  end.

(** [str(n)] for an int. *)
Definition str (n : Z) : string := NilZero.string_of_int (Z.to_int n).

(** *** A reference reading of [float(s)] for ASCII payloads

    The handlers below take the builtin [float] as a parameter; this
    function is the instance used to run them.  It follows the grammar of
    the builtin on ASCII text: blanks are stripped, then an optional sign,
    then [inf], [infinity] or [nan] (any case) or a decimal number with
    optional fraction and exponent, with single underscores between
    digits.  The value is the exact decimal value; the builtin returns the
    double nearest to it. *)

Definition is_space (c : ascii) : bool :=
  let n := nat_of_ascii c in
  ((9 <=? n) && (n <=? 13) || (28 <=? n) && (n <=? 32))%nat.

Definition digit_val (c : ascii) : option Z :=
  let n := nat_of_ascii c in
  if ((48 <=? n) && (n <=? 57))%nat then Some (Z.of_nat n - 48) else None.

Definition lower (c : ascii) : ascii :=
  let n := nat_of_ascii c in
  if ((65 <=? n) && (n <=? 90))%nat then ascii_of_nat (n + 32) else c.

Fixpoint lstrip (s : string) : string :=
  match s with
  | String c s' => if is_space c then lstrip s' else s
  | EmptyString => EmptyString
  end.

Fixpoint rev_string (s acc : string) : string :=
  match s with
  | EmptyString => acc
  | String c s' => rev_string s' (String c acc)
  end.

Definition strip (s : string) : string :=
  rev_string (lstrip (rev_string (lstrip s) "")) "".

Fixpoint lower_string (s : string) : string :=
  match s with
  | EmptyString => EmptyString
  | String c s' => String (lower c) (lower_string s')
  end.

Definition is_digit (c : ascii) : bool :=
  match digit_val c with Some _ => true | None => false end.

(** A run of digits, [digit (["_"] digit)*]: the value read so far,
    whether a digit was read, and the rest. *)
Fixpoint read_digits (s : string) (acc : Z) (seen : bool) : Z * bool * string :=
  match s with
  | String c s' =>
      match digit_val c with
      | Some d => read_digits s' (10 * acc + d) true
      | None =>
          match s' with
          | String c' _ =>
              if (Ascii.eqb c "_" && seen && is_digit c')%bool
              then read_digits s' acc seen
              else (acc, seen, s)
          | EmptyString => (acc, seen, s)
          end
      end
  | EmptyString => (acc, seen, s)
  end.

(** The digits of a fraction: numerator and power of ten read so far. *)
Fixpoint read_fraction (s : string) (num : Z) (den : positive) (seen : bool)
  : Z * positive * bool * string :=
  match s with
  | String c s' =>
      match digit_val c with
      | Some d => read_fraction s' (10 * num + d) (10 * den)%positive true
      | None =>
          match s' with
          | String c' _ =>
              if (Ascii.eqb c "_" && seen && is_digit c')%bool
              then read_fraction s' num den seen
              else (num, den, seen, s)
          | EmptyString => (num, den, seen, s)
          end
      end
  | EmptyString => (num, den, seen, s)
  end.

(** [("e" | "E") ["+" | "-"] digitpart], up to the end of the text. *)
Definition read_exponent (s : string) : option Z :=
  match s with
  | EmptyString => Some 0
  | String c s' =>
      if (Ascii.eqb c "e" || Ascii.eqb c "E")%bool then
        let '(sign, digits) :=
          match s' with
          | String "-" r => (-1, r)
          | String "+" r => (1, r)
          | _ => (1, s')
          end in
        match read_digits digits 0 false with
        | (e, true, EmptyString) => Some (sign * e)
        | _ => None
        end
      else None
  end.

Definition read_unsigned (s : string) : option pyfloat :=
  let l := lower_string s in
  if (l =? "inf")%string || (l =? "infinity")%string then Some PosInf
  else if (l =? "nan")%string then Some NaN
  else
    let '(ip, seen_i, rest) := read_digits s 0 false in
    let '(num, den, seen_f, rest') :=
      match rest with
      | String "." r => read_fraction r 0 1%positive false
      | _ => (0, 1%positive, false, rest)
      end in
    if seen_i || seen_f then
      match read_exponent rest' with
      | Some e =>
          Some (Finite (Qred ((inject_Z ip + (num # den)) * Qpower (10 # 1) e)))
      | None => None
      end
    else None.

Definition negate (f : pyfloat) : pyfloat :=
  match f with
  | Finite q => Finite (Qred (- q))
  | PosInf => NegInf
  | NegInf => PosInf
  | NaN => NaN
  end.

Definition py_float (payload : string) : option pyfloat :=
  match strip payload with
  | String "-" s => option_map negate (read_unsigned s)
  | String "+" s => read_unsigned s
  | s => read_unsigned s
  end.

End Py.

(* ===================================================================== *)
(** ** Python dictionaries with string keys *)
(* ===================================================================== *)

Module Dict.

(** Insertion-ordered, as Python's [dict]: [items] is the list itself. *)
Definition dict (V : Type) : Type := list (string * V).

Fixpoint get {V} (d : dict V) (k : string) : option V :=
  match d with
  | [] => None
  | (k', v) :: d' => if (k' =? k)%string then Some v else get d' k
  end.

(** [k in d] *)
Definition mem {V} (d : dict V) (k : string) : bool :=
  match get d k with Some _ => true | None => false end.

(** [d[k] = v]: an existing key keeps its place, a new key goes last. *)
Fixpoint set {V} (d : dict V) (k : string) (v : V) : dict V :=
  match d with
  | [] => [(k, v)]
  | (k', v') :: d' =>
      if (k' =? k)%string then (k', v) :: d' else (k', v') :: set d' k v
  end.

Definition items {V} (d : dict V) : list (string * V) := d.
Definition values {V} (d : dict V) : list V := map snd d.

(** [{key(x): val(x) for x in xs}] *)
Definition comprehension {A V} (key : A -> string) (val : A -> V) (xs : list A)
  : dict V :=
  fold_left (fun acc x => set acc (key x) (val x)) xs [].

(** [d.get(k, default)] *)
Definition get_default {V} (d : dict V) (k : string) (default : V) : V :=
  match get d k with Some v => v | None => default end.

(** [d.pop(k, None)]: the binding of [k], if there is one, is removed. *)
Fixpoint pop {V} (d : dict V) (k : string) : dict V :=
  match d with
  | [] => []
  | (k', v) :: d' => if (k' =? k)%string then d' else (k', v) :: pop d' k
  end.

End Dict.

(* ===================================================================== *)
(** ** const.py *)
(* ===================================================================== *)

Module Const.

Definition DOMAIN : string := "gsac".

Definition TEMP_MIN : Z := 16.
Definition TEMP_MAX : Z := 30.
Definition TEMP_STEP : Z := 1.
Definition TEMP_DEFAULT : Z := 22.

(** The topic templates; [{device_id}] is replaced by [format_topic]. *)
Definition MQTT_TOPICS : Dict.dict string :=
  [ ("mode_in", "{device_id}/mode/in");
    ("mode_out", "{device_id}/mode/out");
    ("temp_out", "{device_id}/sensor/temperature/out");
    ("temp_comfort_out", "{device_id}/temperature_comfort/out");
    ("temp_comfort_in", "{device_id}/temperature_comfort/in");
    ("fan_speed_out", "{device_id}/power/out");
    ("fan_speed_in", "{device_id}/power/in");
    ("backlight_out", "{device_id}/backlight_auto/out");
    ("backlight_in", "{device_id}/backlight_auto/in");
    ("connected_out", "{device_id}/connected/out") ].

Definition CONNECTED_ONLINE : string := "1".
Definition CONNECTED_OFFLINE : string := "0".

(** A row of a codec table: [HA value, human name, icon]. *)
Definition row : Type := string * string * string.
Definition ha_of (r : row) : string := fst (fst r).
Definition human_of (r : row) : string := snd (fst r).
Definition icon_of (r : row) : string := snd r.

Definition MODE_MAPPING : Dict.dict row :=
  [ ("0", ("off", "Выключено", "mdi:power-off"));
    ("1", ("auto", "Авто", "mdi:auto-mode"));
    ("2", ("cool", "Холод", "mdi:snowflake"));
    ("3", ("dry", "Осушение", "mdi:water"));
    ("4", ("heat", "Тепло", "mdi:fire"));
    ("5", ("fan_only", "Вентиляция", "mdi:fan")) ].

Definition MODE_SELECT_OPTIONS : Dict.dict string :=
  Dict.comprehension fst (fun kv => human_of (snd kv)) (Dict.items MODE_MAPPING).
Definition MODE_SELECT_ICONS : Dict.dict string :=
  Dict.comprehension fst (fun kv => icon_of (snd kv)) (Dict.items MODE_MAPPING).
Definition HA_TO_MQTT_MODES : Dict.dict string :=
  Dict.comprehension (fun kv => ha_of (snd kv)) fst (Dict.items MODE_MAPPING).
Definition MQTT_TO_HA_MODES : Dict.dict string :=
  Dict.comprehension fst (fun kv => ha_of (snd kv)) (Dict.items MODE_MAPPING).

Definition FAN_SPEEDS : Dict.dict row :=
  [ ("0", ("auto", "Авто", "mdi:fan-auto"));
    ("1", ("low", "Низкая", "mdi:fan-speed-1"));
    ("2", ("medium", "Средняя", "mdi:fan-speed-2"));
    ("3", ("high", "Высокая", "mdi:fan-speed-3")) ].

Definition FAN_SELECT_OPTIONS : Dict.dict string :=
  Dict.comprehension fst (fun kv => human_of (snd kv)) (Dict.items FAN_SPEEDS).
Definition FAN_SELECT_ICONS : Dict.dict string :=
  Dict.comprehension fst (fun kv => icon_of (snd kv)) (Dict.items FAN_SPEEDS).
Definition HA_TO_MQTT_FAN : Dict.dict string :=
  Dict.comprehension (fun kv => ha_of (snd kv)) fst (Dict.items FAN_SPEEDS).
Definition MQTT_TO_HA_FAN : Dict.dict string :=
  Dict.comprehension fst (fun kv => ha_of (snd kv)) (Dict.items FAN_SPEEDS).

Definition FAN_AUTO : string := "auto".
Definition FAN_LOW : string := "low".
Definition FAN_MEDIUM : string := "medium".
Definition FAN_HIGH : string := "high".

Definition SWING_MODES : Dict.dict row :=
  [ ("1", ("on", "Включены", "mdi:blinds-horizontal"));
    ("0", ("off", "Выключены", "mdi:blinds-horizontal-closed")) ].

Definition HA_TO_MQTT_SWING : Dict.dict string :=
  Dict.comprehension (fun kv => ha_of (snd kv)) fst (Dict.items SWING_MODES).
Definition MQTT_TO_HA_SWING : Dict.dict string :=
  Dict.comprehension fst (fun kv => ha_of (snd kv)) (Dict.items SWING_MODES).

Definition SWING_ON : string := "on".
Definition SWING_OFF : string := "off".
Definition BLINDS_ON : string := "1".
Definition BLINDS_OFF : string := "0".

(** [template.format(device_id=device_id)] for the templates above: each
    [{device_id}] field is replaced, every other character is copied.
    [skip] counts the characters of a field still to be dropped. *)
Fixpoint format_from (template device_id : string) (skip : nat) : string :=
  match template with
  | EmptyString => EmptyString
  | String c rest =>
      match skip with
      | S n => format_from rest device_id n
      | O =>
          if String.prefix "{device_id}" template
          then (device_id ++ format_from rest device_id 10)%string
          else String c (format_from rest device_id 0)
      end
  end.

Definition format_topic (template device_id : string) : string :=
  format_from template device_id 0.

(** The [topics] dictionary every [async_setup_entry] builds. *)
Definition topics_for (device_id : string) : Dict.dict string :=
  fold_left
    (fun topics kt => Dict.set topics (fst kt) (format_topic (snd kt) device_id))
    (Dict.items MQTT_TOPICS) [].

(** [topics[key]] for the ten keys of [MQTT_TOPICS]; the keys the code
    indexes with are literals of that table, so the lookup never fails. *)
Definition topic (device_id key : string) : string :=
  Dict.get_default (topics_for device_id) key "".

(** The configuration key and the default of the form. *)
Definition CONF_DEVICE_ID : string := "device_id".
Definition DEFAULT_DEVICE_ID : string := "1cdbd4cbcc74".

End Const.

(* ===================================================================== *)
(** ** Effects and the monad of the handlers *)
(* ===================================================================== *)

Module Eff.

(** Levels of [_LOGGER]. *)
Inductive level : Type := DEBUG | INFO | WARNING | ERROR.

(** What [hass.async_create_task] is given: the climate entity's deferred
    fan correction, or one entity's [on_availability_changed]. *)
Inductive task : Type :=
| CorrectFanSpeed
| OnAvailabilityChanged (entity : nat) (available : bool).

(** What a handler hands to its collaborators, in program order. *)
Inductive effect : Type :=
| Publish (topic payload : string) (qos : Z) (retain : bool)
| Subscribe (topic : string) (qos : Z)
| Unsubscribe (topic : string)
| WriteHAState
| CreateTask (t : task)
| Log (l : level) (message : string).

Inductive outcome (A : Type) : Type :=
| Returned (a : A)
| Raised (e : Py.exn).
Arguments Returned {A} a.
Arguments Raised {A} e.

(** A computation over the object [S]: its outcome, the object after it,
    and the effects it emitted.  As in Python, what was assigned before an
    exception stays assigned. *)
Definition M (S A : Type) : Type := S -> outcome A * S * list effect.

Definition ret {S A} (a : A) : M S A := fun s => (Returned a, s, []).

Definition bind {S A B} (m : M S A) (k : A -> M S B) : M S B :=
  fun s =>
    let '(r, s1, t1) := m s in
    match r with
    | Returned a => let '(r2, s2, t2) := k a s1 in (r2, s2, t1 ++ t2)
    | Raised e => (Raised e, s1, t1)
    end.

Definition get {S} : M S S := fun s => (Returned s, s, []).
Definition modify {S} (f : S -> S) : M S unit := fun s => (Returned tt, f s, []).
Definition emit {S} (e : effect) : M S unit := fun s => (Returned tt, s, [e]).
Definition emit_all {S} (es : list effect) : M S unit := fun s => (Returned tt, s, es).
Definition raise {S A} (e : Py.exn) : M S A := fun s => (Raised e, s, []).
Definition log {S} (l : level) (message : string) : M S unit := emit (Log l message).

(** [try: body except (ValueError, TypeError): handler] *)
Definition try_except_value_type {S A} (body : M S A) (handler : Py.exn -> M S A)
  : M S A :=
  fun s =>
    let '(r, s1, t1) := body s in
    match r with
    | Raised Py.ValueError =>
        let '(r2, s2, t2) := handler Py.ValueError s1 in (r2, s2, t1 ++ t2)
    | Raised Py.TypeError =>
        let '(r2, s2, t2) := handler Py.TypeError s1 in (r2, s2, t1 ++ t2)
    | _ => (r, s1, t1)
    end.

(** [try: body except ValueError: handler] *)
Definition try_except_value {S A} (body : M S A) (handler : M S A) : M S A :=
  fun s =>
    let '(r, s1, t1) := body s in
    match r with
    | Raised Py.ValueError =>
        let '(r2, s2, t2) := handler s1 in (r2, s2, t1 ++ t2)
    | _ => (r, s1, t1)
    end.

(** [try: body except Exception as e: handler; raise] *)
Definition try_except_reraise {S A} (body : M S A) (handler : M S unit) : M S A :=
  fun s =>
    let '(r, s1, t1) := body s in
    match r with
    | Raised e =>
        let '(_, s2, t2) := handler s1 in (Raised e, s2, t1 ++ t2)
    | _ => (r, s1, t1)
    end.

(** [if c: body] *)
Definition when {S} (c : bool) (body : M S unit) : M S unit :=
  if c then body else ret tt.

(** [await mqtt.async_publish(hass, topic, payload, qos, retain)].  The
    transport is a collaborator assumed to deliver: the call returns. *)
Definition async_publish {S} (topic payload : string) (qos : Z) (retain : bool)
  : M S unit :=
  emit (Publish topic payload qos retain).

(** The state a computation ends in, its trace, and what it published. *)
Definition state_of {S A} (r : outcome A * S * list effect) : S := snd (fst r).
Definition trace_of {S A} (r : outcome A * S * list effect) : list effect := snd r.
Definition outcome_of {S A} (r : outcome A * S * list effect) : outcome A :=
  fst (fst r).

Fixpoint published (t : list effect) : list (string * string) :=
  match t with
  | [] => []
  | Publish topic payload _ _ :: t' => (topic, payload) :: published t'
  | _ :: t' => published t'
  end.

Fixpoint created_tasks (t : list effect) : list task :=
  match t with
  | [] => []
  | CreateTask k :: t' => k :: created_tasks t'
  | _ :: t' => created_tasks t'
  end.

Fixpoint unsubscribed (t : list effect) : list string :=
  match t with
  | [] => []
  | Unsubscribe topic :: t' => topic :: unsubscribed t'
  | _ :: t' => unsubscribed t'
  end.

Fixpoint subscribed (t : list effect) : list (string * Z) :=
  match t with
  | [] => []
  | Subscribe topic qos :: t' => (topic, qos) :: subscribed t'
  | _ :: t' => subscribed t'
  end.

End Eff.

Declare Scope monad_scope.
Delimit Scope monad_scope with monad.
Notation "x <- m ;; k" := (Eff.bind m (fun x => k))
  (at level 61, m at next level, right associativity) : monad_scope.
Notation "m ;; k" := (Eff.bind m (fun _ => k))
  (at level 61, right associativity) : monad_scope.

(** The builtin [float(payload)], a parameter of the handlers that parse:
    [None] stands for [ValueError]. *)
Class Builtins : Type := { float : string -> option Py.pyfloat }.

(** The instance used to run the handlers on concrete payloads. *)
Definition reference_builtins : Builtins := {| float := Py.py_float |}.

(* ===================================================================== *)
(** ** base.py: GSACBaseEntity *)
(* ===================================================================== *)

Module Base.
Import Eff.
Local Open Scope monad_scope.

(** The fields [__init__] sets, and [entity_id], which Home Assistant
    assigns when the entity is added ([None] before).  A subscription is
    recorded by the topic its [unsubscribe] callback cancels. *)
Record t : Type := mk {
  _device_id : string;
  _entry_id : string;
  _available : bool;
  _entity_ready : bool;
  _mqtt_subscriptions : list string;
  entity_id : option string
}.

Definition with_available (v : bool) (b : t) : t :=
  mk (_device_id b) (_entry_id b) v (_entity_ready b)
     (_mqtt_subscriptions b) (entity_id b).
Definition with_entity_ready (v : bool) (b : t) : t :=
  mk (_device_id b) (_entry_id b) (_available b) v
     (_mqtt_subscriptions b) (entity_id b).
Definition with_mqtt_subscriptions (v : list string) (b : t) : t :=
  mk (_device_id b) (_entry_id b) (_available b) (_entity_ready b)
     v (entity_id b).
Definition with_entity_id (v : option string) (b : t) : t :=
  mk (_device_id b) (_entry_id b) (_available b) (_entity_ready b)
     (_mqtt_subscriptions b) v.

(** [GSACBaseEntity.__init__], before registration with the manager. *)
Definition init (device_id entry_id : string) : t :=
  mk device_id entry_id false false [] None.

(** A subclass: where its base fields live ... *)
Class HasBase (E : Type) : Type := {
  base : E -> t;
  set_base : t -> E -> E
}.

(** ... and the two hooks it overrides. *)
Class Entity (E : Type) `{HasBase E} : Type := {
  _setup_mqtt_subscriptions : M E unit;
  _reset_state : M E unit
}.

Section Methods.
Context {E : Type} `{HasBase E}.

Definition available (self : E) : bool := _available (base self).

Definition modify_base (f : t -> t) : M E unit :=
  modify (fun self => set_base (f (base self)) self).

Definition safe_async_write_ha_state : M E unit :=
  self <- get ;;
  if _entity_ready (base self)
     && (match entity_id (base self) with Some _ => true | None => false end)
  then emit WriteHAState
  else log DEBUG "Попытка обновить состояние сущности, которая еще не готова: %s".

Definition _add_mqtt_subscription (unsubscribe_callback : string) : M E unit :=
  modify_base (fun b =>
    with_mqtt_subscriptions (_mqtt_subscriptions b ++ [unsubscribe_callback]) b).

(** [unsubscribe = await mqtt.async_subscribe(hass, topic, callback, qos)]
    followed by [self._add_mqtt_subscription(unsubscribe)]. *)
Definition subscribe (topic : string) (qos : Z) : M E unit :=
  emit (Subscribe topic qos) ;;
  _add_mqtt_subscription topic.

(** [for unsubscribe in self._mqtt_subscriptions: unsubscribe()], then
    [self._mqtt_subscriptions.clear()]. *)
Definition _unsubscribe_mqtt : M E unit :=
  self <- get ;;
  emit_all (map Unsubscribe (_mqtt_subscriptions (base self))) ;;
  modify_base (with_mqtt_subscriptions []).

End Methods.

Section Lifecycle.
Context {E : Type} `{Entity E}.

Definition on_availability_changed (available' : bool) : M E unit :=
  self <- get ;;
  if Bool.eqb (_available (base self)) available' then ret tt
  else
    modify_base (with_available available') ;;
    log DEBUG "Сущность %s: доступность изменена на %s" ;;
    (if available'
     then _setup_mqtt_subscriptions
     else (_unsubscribe_mqtt ;; _reset_state)) ;;
    safe_async_write_ha_state.

Definition async_added_to_hass : M E unit :=
  modify_base (with_entity_ready true) ;;
  log DEBUG "Сущность %s готова к работе" ;;
  self <- get ;;
  when (_available (base self)) _setup_mqtt_subscriptions.

(** The entity's part of [async_will_remove_from_hass]; the manager's
    part, [remove_entity], is in [Hass.remove_entity]. *)
Definition async_will_remove_from_hass : M E unit :=
  modify_base (with_entity_ready false) ;;
  _unsubscribe_mqtt.

End Lifecycle.

End Base.

(* ===================================================================== *)
(** ** Home Assistant's climate enumerations *)
(* ===================================================================== *)

Module HVACMode.

Inductive t : Type := OFF | HEAT | COOL | HEAT_COOL | AUTO | DRY | FAN_ONLY.

(** [hvac_mode.value] *)
Definition value (m : t) : string :=
  match m with
  | OFF => "off"
  | HEAT => "heat"
  | COOL => "cool"
  | HEAT_COOL => "heat_cool"
  | AUTO => "auto"
  | DRY => "dry"
  | FAN_ONLY => "fan_only"
  end.

Definition eqb (a b : t) : bool :=
  match a, b with
  | OFF, OFF | HEAT, HEAT | COOL, COOL | HEAT_COOL, HEAT_COOL
  | AUTO, AUTO | DRY, DRY | FAN_ONLY, FAN_ONLY => true
  | _, _ => false
  end.

End HVACMode.

Module HVACAction.

(** The members of [HVACAction] that the integration assigns. *)
Inductive t : Type := OFF | COOLING | HEATING | FAN | IDLE.

End HVACAction.

(* ===================================================================== *)
(** ** climate.py: PolarisClimateEntity *)
(* ===================================================================== *)

Module Climate.
Import Eff Const.
Local Open Scope monad_scope.

Definition MQTT_TO_HVAC_MODE : Dict.dict HVACMode.t :=
  [ ("0", HVACMode.OFF);
    ("1", HVACMode.AUTO);
    ("2", HVACMode.COOL);
    ("3", HVACMode.DRY);
    ("4", HVACMode.HEAT);
    ("5", HVACMode.FAN_ONLY) ].

(** Class attributes that never change. *)
Definition _attr_hvac_modes : list HVACMode.t :=
  [ HVACMode.OFF; HVACMode.AUTO; HVACMode.COOL; HVACMode.DRY;
    HVACMode.HEAT; HVACMode.FAN_ONLY ].
Definition _attr_swing_modes : list string := [SWING_ON; SWING_OFF].
Definition _attr_min_temp : Z := TEMP_MIN.
Definition _attr_max_temp : Z := TEMP_MAX.
Definition _attr_target_temperature_step : Z := TEMP_STEP.

(** The instance attributes.  The five [_..._callback] fields only keep
    the closures alive and are never read; [_topics] is fixed by
    [_device_id] (see [Const.topic]). *)
Record t : Type := mk {
  base : Base.t;
  _attr_hvac_mode : HVACMode.t;
  _attr_fan_mode : string;
  _attr_swing_mode : string;
  _attr_current_temperature : option Py.pynum;
  _attr_target_temperature : Py.pynum;
  _current_hvac_action : HVACAction.t;
  _previous_fan_mode : string;
  _need_fan_auto_correction : bool
}.

Definition with_base (v : Base.t) (s : t) : t :=
  mk v (_attr_hvac_mode s) (_attr_fan_mode s) (_attr_swing_mode s)
     (_attr_current_temperature s) (_attr_target_temperature s)
     (_current_hvac_action s) (_previous_fan_mode s) (_need_fan_auto_correction s).
Definition with_hvac_mode (v : HVACMode.t) (s : t) : t :=
  mk (base s) v (_attr_fan_mode s) (_attr_swing_mode s)
     (_attr_current_temperature s) (_attr_target_temperature s)
     (_current_hvac_action s) (_previous_fan_mode s) (_need_fan_auto_correction s).
Definition with_fan_mode (v : string) (s : t) : t :=
  mk (base s) (_attr_hvac_mode s) v (_attr_swing_mode s)
     (_attr_current_temperature s) (_attr_target_temperature s)
     (_current_hvac_action s) (_previous_fan_mode s) (_need_fan_auto_correction s).
Definition with_swing_mode (v : string) (s : t) : t :=
  mk (base s) (_attr_hvac_mode s) (_attr_fan_mode s) v
     (_attr_current_temperature s) (_attr_target_temperature s)
     (_current_hvac_action s) (_previous_fan_mode s) (_need_fan_auto_correction s).
Definition with_current_temperature (v : option Py.pynum) (s : t) : t :=
  mk (base s) (_attr_hvac_mode s) (_attr_fan_mode s) (_attr_swing_mode s)
     v (_attr_target_temperature s)
     (_current_hvac_action s) (_previous_fan_mode s) (_need_fan_auto_correction s).
Definition with_target_temperature (v : Py.pynum) (s : t) : t :=
  mk (base s) (_attr_hvac_mode s) (_attr_fan_mode s) (_attr_swing_mode s)
     (_attr_current_temperature s) v
     (_current_hvac_action s) (_previous_fan_mode s) (_need_fan_auto_correction s).
Definition with_hvac_action (v : HVACAction.t) (s : t) : t :=
  mk (base s) (_attr_hvac_mode s) (_attr_fan_mode s) (_attr_swing_mode s)
     (_attr_current_temperature s) (_attr_target_temperature s)
     v (_previous_fan_mode s) (_need_fan_auto_correction s).
Definition with_previous_fan_mode (v : string) (s : t) : t :=
  mk (base s) (_attr_hvac_mode s) (_attr_fan_mode s) (_attr_swing_mode s)
     (_attr_current_temperature s) (_attr_target_temperature s)
     (_current_hvac_action s) v (_need_fan_auto_correction s).
Definition with_need_fan_auto_correction (v : bool) (s : t) : t :=
  mk (base s) (_attr_hvac_mode s) (_attr_fan_mode s) (_attr_swing_mode s)
     (_attr_current_temperature s) (_attr_target_temperature s)
     (_current_hvac_action s) (_previous_fan_mode s) v.

(** The class defaults and [__init__]. *)
Definition init (device_id entry_id : string) : t :=
  mk (Base.init device_id entry_id)
     HVACMode.OFF FAN_AUTO SWING_OFF None (Py.PInt TEMP_MIN)
     HVACAction.OFF FAN_AUTO false.

Definition topics (self : t) (key : string) : string :=
  Const.topic (Base._device_id (base self)) key.

#[global] Instance has_base : Base.HasBase t := {|
  Base.base := base;
  Base.set_base := with_base
|}.

Definition _setup_mqtt_subscriptions_ : M t unit :=
  log DEBUG "Настраиваем MQTT подписки для климат-сущности" ;;
  self <- get ;;
  Base.subscribe (topics self "mode_out") 0 ;;
  Base.subscribe (topics self "temp_out") 0 ;;
  Base.subscribe (topics self "temp_comfort_out") 0 ;;
  Base.subscribe (topics self "fan_speed_out") 0 ;;
  Base.subscribe (topics self "backlight_out") 0.

Definition _reset_state_ : M t unit :=
  log DEBUG "Сбрасываем состояние климат-сущности" ;;
  modify (with_current_temperature None) ;;
  modify (with_hvac_action HVACAction.OFF) ;;
  modify (with_need_fan_auto_correction false).

#[global] Instance entity : Base.Entity t := {|
  Base._setup_mqtt_subscriptions := _setup_mqtt_subscriptions_;
  Base._reset_state := _reset_state_
|}.

(** The properties [hvac_mode], [hvac_action] and [fan_modes]. *)
Definition hvac_mode (self : t) : HVACMode.t := _attr_hvac_mode self.
Definition hvac_action (self : t) : HVACAction.t := _current_hvac_action self.
Definition fan_modes (self : t) : list string :=
  if negb (Base.available self) then []
  else if HVACMode.eqb (hvac_mode self) HVACMode.FAN_ONLY
       then [FAN_LOW; FAN_MEDIUM; FAN_HIGH]
       else [FAN_AUTO; FAN_LOW; FAN_MEDIUM; FAN_HIGH].

Definition str_in (x : string) (l : list string) : bool :=
  existsb (fun y => (y =? x)%string) l.
Definition mode_in (x : HVACMode.t) (l : list HVACMode.t) : bool :=
  existsb (fun y => HVACMode.eqb y x) l.

(** *** Outbound commands *)

Definition async_set_fan_mode (fan_mode : string) : M t unit :=
  self <- get ;;
  if negb (Base.available self) then
    log WARNING "Устройство недоступно, невозможно изменить скорость вентилятора"
  else if negb (str_in fan_mode (fan_modes self)) then
    log ERROR "Неподдерживаемая скорость: %s"
  else if HVACMode.eqb (_attr_hvac_mode self) HVACMode.FAN_ONLY
          && (fan_mode =? FAN_AUTO)%string then
    log WARNING "Скорость 'Авто' недоступна в режиме вентиляции"
  else
    match Dict.get HA_TO_MQTT_FAN fan_mode with
    | None => log ERROR "Не найден MQTT код для скорости: %s"
    | Some mqtt_value =>
        async_publish (topics self "fan_speed_in") mqtt_value 0 false ;;
        when (negb (fan_mode =? FAN_AUTO)%string)
             (modify (with_previous_fan_mode fan_mode)) ;;
        modify (with_fan_mode fan_mode) ;;
        Base.safe_async_write_ha_state ;;
        log INFO "Установлена скорость вентилятора: %s (MQTT: %s)"
    end.

Definition async_set_hvac_mode (hvac_mode : HVACMode.t) : M t unit :=
  self <- get ;;
  if negb (Base.available self) then
    log WARNING "Устройство недоступно, невозможно изменить режим"
  else if negb (mode_in hvac_mode _attr_hvac_modes) then
    log ERROR "Неподдерживаемый режим: %s"
  else
    let old_hvac_mode := _attr_hvac_mode self in
    match Dict.get HA_TO_MQTT_MODES (HVACMode.value hvac_mode) with
    | None => log ERROR "Не найден MQTT код для режима: %s"
    | Some mqtt_value =>
        when (HVACMode.eqb hvac_mode HVACMode.FAN_ONLY
              && negb (HVACMode.eqb old_hvac_mode HVACMode.FAN_ONLY))
             (when (_attr_fan_mode self =? FAN_AUTO)%string
                (when (negb (HVACMode.eqb old_hvac_mode HVACMode.FAN_ONLY)
                       && negb (_attr_fan_mode self =? FAN_AUTO)%string)
                      (modify (with_previous_fan_mode (_attr_fan_mode self))) ;;
                 async_set_fan_mode FAN_LOW)) ;;
        async_publish (topics self "mode_in") mqtt_value 0 false ;;
        modify (with_hvac_mode hvac_mode) ;;
        Base.safe_async_write_ha_state ;;
        log INFO "Установлен режим: %s (MQTT: %s)"
    end.

(** [kwargs.get(ATTR_TEMPERATURE)] is the argument. *)
Definition async_set_temperature (temperature : option Py.pynum) : M t unit :=
  self <- get ;;
  if negb (Base.available self) then
    log WARNING "Устройство недоступно, невозможно изменить температуру"
  else
    match temperature with
    | None => ret tt
    | Some temperature =>
        let temperature :=
          Py.max2 (Py.PInt _attr_min_temp) (Py.min2 (Py.PInt _attr_max_temp) temperature) in
        match Py.int_round temperature with
        | inl e => raise e
        | inr temperature_int =>
            async_publish (topics self "temp_comfort_in") (Py.str temperature_int) 0 false ;;
            modify (with_target_temperature (Py.PInt temperature_int)) ;;
            Base.safe_async_write_ha_state ;;
            log INFO "Установлена целевая температура: %s°C"
        end
    end.

Definition async_set_swing_mode (swing_mode : string) : M t unit :=
  self <- get ;;
  if negb (Base.available self) then
    log WARNING "Устройство недоступно, невозможно изменить положение жалюзи"
  else if negb (str_in swing_mode _attr_swing_modes) then
    log ERROR "Неподдерживаемый режим жалюзи: %s"
  else
    match Dict.get HA_TO_MQTT_SWING swing_mode with
    | None => log ERROR "Не найден MQTT код для жалюзи: %s"
    | Some mqtt_value =>
        async_publish (topics self "backlight_in") mqtt_value 0 false ;;
        modify (with_swing_mode swing_mode) ;;
        Base.safe_async_write_ha_state ;;
        log INFO "Жалюзи установлены в режим: %s (MQTT: %s)"
    end.

(** The coroutine that [mode_received] schedules. *)
Definition _correct_fan_speed_for_mode : M t unit :=
  self <- get ;;
  if negb (_need_fan_auto_correction self) || negb (Base.available self) then ret tt
  else
    when (HVACMode.eqb (_attr_hvac_mode self) HVACMode.FAN_ONLY
          && (_attr_fan_mode self =? FAN_AUTO)%string)
         (async_set_fan_mode FAN_LOW) ;;
    modify (with_need_fan_auto_correction false).

(** *** Inbound callbacks (the closures of [_setup_mqtt_subscriptions]) *)

Definition mode_received (payload : string) : M t unit :=
  self <- get ;;
  if negb (Base.available self) then ret tt
  else
    match Dict.get MQTT_TO_HVAC_MODE payload with
    | None => ret tt
    | Some new_hvac_mode =>
        let old_hvac_mode := _attr_hvac_mode self in
        modify (with_hvac_mode new_hvac_mode) ;;
        when (HVACMode.eqb new_hvac_mode HVACMode.FAN_ONLY
              && negb (HVACMode.eqb old_hvac_mode HVACMode.FAN_ONLY))
             (when (_attr_fan_mode self =? FAN_AUTO)%string
                   (modify (with_need_fan_auto_correction true))) ;;
        modify (with_hvac_action
                  (if (payload =? "0")%string then HVACAction.OFF
                   else if (payload =? "2")%string then HVACAction.COOLING
                   else if (payload =? "4")%string then HVACAction.HEATING
                   else if (payload =? "5")%string then HVACAction.FAN
                   else HVACAction.IDLE)) ;;
        Base.safe_async_write_ha_state ;;
        self <- get ;;
        when (_need_fan_auto_correction self) (emit (CreateTask CorrectFanSpeed))
    end.

Section Parsing.
Context {builtins : Builtins}.

Definition temperature_received (payload : string) : M t unit :=
  self <- get ;;
  if negb (Base.available self) then ret tt
  else
    try_except_value
      (match float payload with
       | None => raise Py.ValueError
       | Some temp =>
           modify (with_current_temperature (Some (Py.PFloat temp))) ;;
           Base.safe_async_write_ha_state
       end)
      (log WARNING "Некорректное значение температуры: %s").

Definition target_temperature_received (payload : string) : M t unit :=
  self <- get ;;
  if negb (Base.available self) then ret tt
  else
    try_except_value
      (match float payload with
       | None => raise Py.ValueError
       | Some temp =>
           modify (with_target_temperature (Py.PFloat temp)) ;;
           Base.safe_async_write_ha_state
       end)
      (log WARNING "Некорректное значение целевой температуры: %s").

End Parsing.

Definition fan_speed_received (payload : string) : M t unit :=
  self <- get ;;
  if negb (Base.available self) then ret tt
  else
    match Dict.get MQTT_TO_HA_FAN payload with
    | None => ret tt
    | Some new_fan_mode =>
        when (negb (_attr_fan_mode self =? FAN_AUTO)%string)
             (modify (with_previous_fan_mode (_attr_fan_mode self))) ;;
        when (_need_fan_auto_correction self
              && negb (new_fan_mode =? FAN_AUTO)%string)
             (modify (with_need_fan_auto_correction false)) ;;
        modify (with_fan_mode new_fan_mode) ;;
        Base.safe_async_write_ha_state
    end.

Definition swing_received (payload : string) : M t unit :=
  self <- get ;;
  if negb (Base.available self) then ret tt
  else
    match Dict.get MQTT_TO_HA_SWING payload with
    | None => ret tt
    | Some swing =>
        modify (with_swing_mode swing) ;;
        Base.safe_async_write_ha_state
    end.

End Climate.

(* ===================================================================== *)
(** ** number.py: TargetTemperatureNumber *)
(* ===================================================================== *)

Module Number.
Import Eff Const.
Local Open Scope monad_scope.

Record t : Type := mk {
  base : Base.t;
  _topic_read : string;
  _topic_write : string;
  _attr_native_value : Z
}.

Definition with_base (v : Base.t) (s : t) : t :=
  mk v (_topic_read s) (_topic_write s) (_attr_native_value s).
Definition with_native_value (v : Z) (s : t) : t :=
  mk (base s) (_topic_read s) (_topic_write s) v.

Definition init (device_id topic_read topic_write entry_id : string) : t :=
  mk (Base.init device_id entry_id) topic_read topic_write TEMP_DEFAULT.

(** The entity that [async_setup_entry] creates. *)
Definition setup_entry (device_id entry_id : string) : t :=
  init device_id (topic device_id "temp_comfort_out")
       (topic device_id "temp_comfort_in") entry_id.

#[global] Instance has_base : Base.HasBase t := {|
  Base.base := base;
  Base.set_base := with_base
|}.

Definition _setup_mqtt_subscriptions_ : M t unit :=
  log DEBUG "Настраиваем MQTT подписки для числовой сущности" ;;
  self <- get ;;
  Base.subscribe (_topic_read self) 1.

Definition _reset_state_ : M t unit :=
  log DEBUG "Сбрасываем состояние числовой сущности" ;;
  modify (with_native_value TEMP_DEFAULT).

#[global] Instance entity : Base.Entity t := {|
  Base._setup_mqtt_subscriptions := _setup_mqtt_subscriptions_;
  Base._reset_state := _reset_state_
|}.

Section Parsing.
Context {builtins : Builtins}.

Definition message_received (payload : string) : M t unit :=
  self <- get ;;
  if negb (Base.available self) then ret tt
  else
    log DEBUG "Числовая сущность получила сообщение: %s" ;;
    try_except_value_type
      (match float payload with
       | None => raise Py.ValueError
       | Some temperature =>
           match Py.int_round (Py.PFloat temperature) with
           | inl e => raise e
           | inr temperature_int =>
               if (TEMP_MIN <=? temperature_int) && (temperature_int <=? TEMP_MAX)
               then
                 modify (with_native_value temperature_int) ;;
                 Base.safe_async_write_ha_state
               else
                 log WARNING "Температура вне допустимого диапазона: %s"
           end
       end)
      (fun _ => log WARNING "Некорректное значение температуры: %s. Ошибка: %s").

End Parsing.

Definition async_set_native_value (value : Py.pynum) : M t unit :=
  self <- get ;;
  if negb (Base.available self) then
    log WARNING "Устройство недоступно, невозможно установить температуру"
  else
    try_except_reraise
      (match Py.int_round value with
       | inl e => raise e
       | inr temp_int =>
           if (temp_int <? TEMP_MIN) || (temp_int >? TEMP_MAX) then
             log ERROR "Температура %s вне допустимого диапазона [%s, %s]"
           else
             async_publish (_topic_write self) (Py.str temp_int) 1 false ;;
             log INFO "Установлена целевая температура: %s°C" ;;
             modify (with_native_value temp_int) ;;
             Base.safe_async_write_ha_state
       end)
      (log ERROR "Ошибка при установке температуры: %s").

End Number.

(* ===================================================================== *)
(** ** sensor.py: TemperatureSensor *)
(* ===================================================================== *)

Module Sensor.
Import Eff Const.
Local Open Scope monad_scope.

Record t : Type := mk {
  base : Base.t;
  _topic : string;
  _sensor_type : string;
  _is_target_temp : bool;
  _attr_native_value : option Py.pynum
}.

Definition with_base (v : Base.t) (s : t) : t :=
  mk v (_topic s) (_sensor_type s) (_is_target_temp s) (_attr_native_value s).
Definition with_native_value (v : option Py.pynum) (s : t) : t :=
  mk (base s) (_topic s) (_sensor_type s) (_is_target_temp s) v.

Definition init (device_id topic sensor_type entry_id : string)
  (is_target_temp : bool) : t :=
  mk (Base.init device_id entry_id) topic sensor_type is_target_temp None.

(** The two sensors that [async_setup_entry] creates. *)
Definition setup_entry (device_id entry_id : string) : list t :=
  [ init device_id (topic device_id "temp_out") "current_temperature" entry_id false;
    init device_id (topic device_id "temp_comfort_out") "target_temperature"
         entry_id true ].

#[global] Instance has_base : Base.HasBase t := {|
  Base.base := base;
  Base.set_base := with_base
|}.

Definition _setup_mqtt_subscriptions_ : M t unit :=
  log DEBUG "Настраиваем MQTT подписки для сенсора %s" ;;
  self <- get ;;
  Base.subscribe (_topic self) 1.

Definition _reset_state_ : M t unit :=
  log DEBUG "Сбрасываем состояние сенсора %s" ;;
  modify (with_native_value None).

#[global] Instance entity : Base.Entity t := {|
  Base._setup_mqtt_subscriptions := _setup_mqtt_subscriptions_;
  Base._reset_state := _reset_state_
|}.

Section Parsing.
Context {builtins : Builtins}.

Definition message_received (payload : string) : M t unit :=
  self <- get ;;
  if negb (Base.available self) then ret tt
  else
    log DEBUG "Сенсор '%s' получил сообщение: %s" ;;
    try_except_value_type
      (match float payload with
       | None => raise Py.ValueError
       | Some temperature =>
           temperature <-
             (if _is_target_temp self
              then match Py.int_round (Py.PFloat temperature) with
                   | inl e => raise e
                   | inr n => ret (Py.PInt n)
                   end
              else ret (Py.PFloat temperature)) ;;
           modify (with_native_value (Some temperature)) ;;
           Base.safe_async_write_ha_state
       end)
      (fun _ =>
         log WARNING "Некорректное значение температуры для '%s': %s. Ошибка: %s" ;;
         modify (with_native_value None) ;;
         Base.safe_async_write_ha_state).

End Parsing.

End Sensor.

(* ===================================================================== *)
(** ** switch.py: BlindsSwitch *)
(* ===================================================================== *)

Module Switch.
Import Eff Const.
Local Open Scope monad_scope.

Record t : Type := mk {
  base : Base.t;
  _topic_in : string;
  _topic_out : string;
  _state : bool
}.

Definition with_base (v : Base.t) (s : t) : t :=
  mk v (_topic_in s) (_topic_out s) (_state s).
Definition with_state (v : bool) (s : t) : t :=
  mk (base s) (_topic_in s) (_topic_out s) v.

Definition init (device_id topic_in topic_out entry_id : string) : t :=
  mk (Base.init device_id entry_id) topic_in topic_out false.

Definition setup_entry (device_id entry_id : string) : t :=
  init device_id (topic device_id "backlight_in") (topic device_id "backlight_out")
       entry_id.

#[global] Instance has_base : Base.HasBase t := {|
  Base.base := base;
  Base.set_base := with_base
|}.

Definition message_received (payload : string) : M t unit :=
  self <- get ;;
  if negb (Base.available self) then ret tt
  else
    log DEBUG "Переключатель '%s' получил сообщение: %s" ;;
    (if (payload =? BLINDS_ON)%string then
       modify (with_state true) ;; log DEBUG "Жалюзи включены"
     else if (payload =? BLINDS_OFF)%string then
       modify (with_state false) ;; log DEBUG "Жалюзи выключены"
     else
       log WARNING "Неизвестное состояние жалюзи: %s") ;;
    Base.safe_async_write_ha_state.

Definition _setup_mqtt_subscriptions_ : M t unit :=
  log DEBUG "Настраиваем MQTT подписки для переключателя жалюзи" ;;
  self <- get ;;
  Base.subscribe (_topic_out self) 0.

Definition _reset_state_ : M t unit :=
  log DEBUG "Сбрасываем состояние переключателя жалюзи" ;;
  modify (with_state false).

#[global] Instance entity : Base.Entity t := {|
  Base._setup_mqtt_subscriptions := _setup_mqtt_subscriptions_;
  Base._reset_state := _reset_state_
|}.

(** The property [is_on]. *)
Definition is_on (self : t) : bool := _state self.

Definition _publish_state (payload : string) : M t unit :=
  self <- get ;;
  try_except_reraise
    (async_publish (_topic_in self) payload 0 false ;;
     log DEBUG "Отправлено в MQTT: %s -> %s")
    (log ERROR "Ошибка отправки в MQTT: %s").

Definition async_turn_on : M t unit :=
  self <- get ;;
  if negb (Base.available self) then
    log WARNING "Устройство недоступно, невозможно включить жалюзи"
  else
    _publish_state BLINDS_ON ;;
    modify (with_state true) ;;
    Base.safe_async_write_ha_state ;;
    log INFO "Жалюзи включены".

Definition async_turn_off : M t unit :=
  self <- get ;;
  if negb (Base.available self) then
    log WARNING "Устройство недоступно, невозможно выключить жалюзи"
  else
    _publish_state BLINDS_OFF ;;
    modify (with_state false) ;;
    Base.safe_async_write_ha_state ;;
    log INFO "Жалюзи выключены".

End Switch.

(* ===================================================================== *)
(** ** select.py: ModeSelect and FanSpeedSelect *)
(* ===================================================================== *)

(** [for value, name in options.items(): if name == option: ...; break] *)
Fixpoint first_key_of (items : list (string * string)) (wanted : string)
  : option string :=
  match items with
  | [] => None
  | (value, name) :: rest =>
      if (name =? wanted)%string then Some value else first_key_of rest wanted
  end.

Module ModeSelect.
Import Eff Const.
Local Open Scope monad_scope.

Record t : Type := mk {
  base : Base.t;
  _topic_read : string;
  _topic_write : string;
  _attr_icon : string;
  _attr_current_option : string;
  _current_mode_mqtt : string
}.

Definition with_base (v : Base.t) (s : t) : t :=
  mk v (_topic_read s) (_topic_write s) (_attr_icon s)
     (_attr_current_option s) (_current_mode_mqtt s).
Definition with_icon (v : string) (s : t) : t :=
  mk (base s) (_topic_read s) (_topic_write s) v
     (_attr_current_option s) (_current_mode_mqtt s).
Definition with_current_option (v : string) (s : t) : t :=
  mk (base s) (_topic_read s) (_topic_write s) (_attr_icon s)
     v (_current_mode_mqtt s).
Definition with_current_mode_mqtt (v : string) (s : t) : t :=
  mk (base s) (_topic_read s) (_topic_write s) (_attr_icon s)
     (_attr_current_option s) v.

Definition _attr_options : list string := Dict.values MODE_SELECT_OPTIONS.

Definition init (device_id topic_read topic_write entry_id : string) : t :=
  mk (Base.init device_id entry_id) topic_read topic_write "mdi:air-conditioner"
     (Dict.get_default MODE_SELECT_OPTIONS "0" "Выключено") "0".

Definition setup_entry (device_id entry_id : string) : t :=
  init device_id (topic device_id "mode_out") (topic device_id "mode_in") entry_id.

#[global] Instance has_base : Base.HasBase t := {|
  Base.base := base;
  Base.set_base := with_base
|}.

Definition message_received (payload : string) : M t unit :=
  self <- get ;;
  if negb (Base.available self) then ret tt
  else
    log DEBUG "Селектор режима получил сообщение: %s" ;;
    match Dict.get MODE_SELECT_OPTIONS payload with
    | Some label =>
        modify (with_current_mode_mqtt payload) ;;
        modify (with_current_option label) ;;
        modify (with_icon (Dict.get_default MODE_SELECT_ICONS payload "mdi:air-conditioner")) ;;
        Base.safe_async_write_ha_state
    | None => log WARNING "Получено неизвестное значение режима: %s"
    end.

Definition _setup_mqtt_subscriptions_ : M t unit :=
  log DEBUG "Настраиваем MQTT подписки для селектора режима" ;;
  self <- get ;;
  Base.subscribe (_topic_read self) 1.

Definition _reset_state_ : M t unit :=
  log DEBUG "Сбрасываем состояние селектора режима" ;;
  modify (with_current_mode_mqtt "0") ;;
  modify (with_current_option (Dict.get_default MODE_SELECT_OPTIONS "0" "Выключено")).

#[global] Instance entity : Base.Entity t := {|
  Base._setup_mqtt_subscriptions := _setup_mqtt_subscriptions_;
  Base._reset_state := _reset_state_
|}.

Definition async_select_option (option : string) : M t unit :=
  self <- get ;;
  if negb (Base.available self) then
    log WARNING "Устройство недоступно, невозможно изменить режим"
  else
    match first_key_of (Dict.items MODE_SELECT_OPTIONS) option with
    | None => log ERROR "Некорректный режим: %s"
    | Some mqtt_value =>
        async_publish (_topic_write self) mqtt_value 1 false ;;
        modify (with_current_mode_mqtt mqtt_value) ;;
        modify (with_current_option option) ;;
        modify (with_icon (Dict.get_default MODE_SELECT_ICONS mqtt_value "mdi:air-conditioner")) ;;
        Base.safe_async_write_ha_state ;;
        log INFO "Установлен режим: %s (MQTT: %s)"
    end.

End ModeSelect.

Module FanSpeedSelect.
Import Eff Const.
Local Open Scope monad_scope.

Record t : Type := mk {
  base : Base.t;
  _topic_read : string;
  _topic_write : string;
  _attr_icon : string;
  _attr_current_option : string;
  _current_fan_speed_mqtt : string
}.

Definition with_base (v : Base.t) (s : t) : t :=
  mk v (_topic_read s) (_topic_write s) (_attr_icon s)
     (_attr_current_option s) (_current_fan_speed_mqtt s).
Definition with_icon (v : string) (s : t) : t :=
  mk (base s) (_topic_read s) (_topic_write s) v
     (_attr_current_option s) (_current_fan_speed_mqtt s).
Definition with_current_option (v : string) (s : t) : t :=
  mk (base s) (_topic_read s) (_topic_write s) (_attr_icon s)
     v (_current_fan_speed_mqtt s).
Definition with_current_fan_speed_mqtt (v : string) (s : t) : t :=
  mk (base s) (_topic_read s) (_topic_write s) (_attr_icon s)
     (_attr_current_option s) v.

Definition _attr_options : list string := Dict.values FAN_SELECT_OPTIONS.

Definition init (device_id topic_read topic_write entry_id : string) : t :=
  mk (Base.init device_id entry_id) topic_read topic_write "mdi:fan"
     (Dict.get_default FAN_SELECT_OPTIONS "0" "Авто") "0".

Definition setup_entry (device_id entry_id : string) : t :=
  init device_id (topic device_id "fan_speed_out") (topic device_id "fan_speed_in")
       entry_id.

#[global] Instance has_base : Base.HasBase t := {|
  Base.base := base;
  Base.set_base := with_base
|}.

Definition message_received (payload : string) : M t unit :=
  self <- get ;;
  if negb (Base.available self) then ret tt
  else
    log DEBUG "Селектор скорости получил сообщение: %s" ;;
    match Dict.get FAN_SELECT_OPTIONS payload with
    | Some label =>
        modify (with_current_fan_speed_mqtt payload) ;;
        modify (with_current_option label) ;;
        modify (with_icon (Dict.get_default FAN_SELECT_ICONS payload "mdi:fan")) ;;
        Base.safe_async_write_ha_state
    | None => log WARNING "Получено неизвестное значение скорости: %s"
    end.

Definition _setup_mqtt_subscriptions_ : M t unit :=
  log DEBUG "Настраиваем MQTT подписки для селектора скорости" ;;
  self <- get ;;
  Base.subscribe (_topic_read self) 1.

Definition _reset_state_ : M t unit :=
  log DEBUG "Сбрасываем состояние селектора скорости" ;;
  modify (with_current_fan_speed_mqtt "0") ;;
  modify (with_current_option (Dict.get_default FAN_SELECT_OPTIONS "0" "Авто")).

#[global] Instance entity : Base.Entity t := {|
  Base._setup_mqtt_subscriptions := _setup_mqtt_subscriptions_;
  Base._reset_state := _reset_state_
|}.

Definition async_select_option (option : string) : M t unit :=
  self <- get ;;
  if negb (Base.available self) then
    log WARNING "Устройство недоступно, невозможно изменить скорость"
  else
    match first_key_of (Dict.items FAN_SELECT_OPTIONS) option with
    | None => log ERROR "Некорректная скорость: %s"
    | Some mqtt_value =>
        async_publish (_topic_write self) mqtt_value 1 false ;;
        modify (with_current_fan_speed_mqtt mqtt_value) ;;
        modify (with_current_option option) ;;
        modify (with_icon (Dict.get_default FAN_SELECT_ICONS mqtt_value "mdi:fan")) ;;
        Base.safe_async_write_ha_state ;;
        log INFO "Установлена скорость: %s (MQTT: %s)"
    end.

End FanSpeedSelect.

(* ===================================================================== *)
(** ** __init__.py: DeviceAvailabilityManager *)
(* ===================================================================== *)

Module Manager.
Import Eff Const.
Local Open Scope monad_scope.

(** [_entities] holds the registered entities by their identity in the
    object store (see [System]). *)
Record t : Type := mk {
  device_id : string;
  entry_id : string;
  _available : bool;
  _entities : list nat;
  _availability_topic : string
}.

Definition with_available (v : bool) (m : t) : t :=
  mk (device_id m) (entry_id m) v (_entities m) (_availability_topic m).
Definition with_entities (v : list nat) (m : t) : t :=
  mk (device_id m) (entry_id m) (_available m) v (_availability_topic m).

Definition init (device_id entry_id : string) : t :=
  mk device_id entry_id false []
     (format_topic (Dict.get_default MQTT_TOPICS "connected_out" "") device_id).

(** The manager's half of [add_entity]; the entity's half (its flag is
    primed with the manager's) is in [System.register]. *)
Definition add_entity (entity : nat) (m : t) : t :=
  with_entities (_entities m ++ [entity]) m.

(** [list.remove]: the first occurrence. *)
Fixpoint remove_first (x : nat) (l : list nat) : list nat :=
  match l with
  | [] => []
  | y :: l' => if Nat.eqb y x then l' else y :: remove_first x l'
  end.

Definition remove_entity (entity : nat) (m : t) : t :=
  if existsb (Nat.eqb entity) (_entities m)
  then with_entities (remove_first entity (_entities m)) m
  else m.

(** [for entity in self._entities: hass.async_create_task(...)] *)
Fixpoint notify_all (entities : list nat) (new_available : bool) : M t unit :=
  match entities with
  | [] => ret tt
  | entity :: rest =>
      emit (CreateTask (OnAvailabilityChanged entity new_available)) ;;
      notify_all rest new_available
  end.

(** The callback of the connectivity topic. *)
Definition availability_received (payload : string) : M t unit :=
  log DEBUG "Устройство %s: получен статус доступности: %s" ;;
  self <- get ;;
  let new_available := (payload =? CONNECTED_ONLINE)%string in
  when (negb (Bool.eqb new_available (_available self)))
       (modify (with_available new_available) ;;
        log INFO "Устройство %s перешло в статус: %s" ;;
        notify_all (_entities self) new_available).

Definition setup : M t unit :=
  self <- get ;;
  emit (Subscribe (_availability_topic self) 1) ;;
  modify (with_available false).

(** The property [available]. *)
Definition available (self : t) : bool := _available self.

End Manager.

(* ===================================================================== *)
(** ** The event loop, as one climate entity sees it *)
(* ===================================================================== *)

(** [hass.async_create_task] does not run the coroutine: it queues it, and
    the loop runs it after the current callback has returned.  Other
    callbacks may be served in between. *)
Module ClimateLoop.
Import Eff.

Record t : Type := mk {
  entity : Climate.t;
  pending : list task;      (* created and not yet run, oldest first *)
  history : list effect     (* everything emitted so far *)
}.

Definition start (e : Climate.t) : t := mk e [] [].

(** One callback or command served by the loop. *)
Definition call (m : M Climate.t unit) (l : t) : t :=
  let '(_, e', tr) := m (entity l) in
  mk e' (pending l ++ created_tasks tr) (history l ++ tr).

(** The loop runs the oldest pending task. *)
Definition run_next (l : t) : t :=
  match pending l with
  | [] => l
  | CorrectFanSpeed :: rest =>
      call Climate._correct_fan_speed_for_mode (mk (entity l) rest (history l))
  | OnAvailabilityChanged _ available :: rest =>
      call (Base.on_availability_changed available) (mk (entity l) rest (history l))
  end.

End ClimateLoop.

(** ** Predicates used by the statements *)

(** A callback that returns at once: no assignment, no effect. *)
Definition returns_immediately {E : Type} (h : Eff.M E unit) (self : E) : Prop :=
  h self = (Eff.Returned tt, self, []).

(** A command that is dropped: the object is unchanged and the only effect
    is one warning in the log. *)
Definition dropped_with_warning {E : Type} (h : Eff.M E unit) (self : E) : Prop :=
  exists message, h self = (Eff.Returned tt, self, [Eff.Log Eff.WARNING message]).

(** Decoding then encoding, and encoding then decoding, through a pair of
    derived tables. *)
Definition decode_encode (enc dec : Dict.dict string) (wire : string) : option string :=
  match Dict.get dec wire with
  | Some ha => Dict.get enc ha
  | None => None
  end.

Definition encode_decode (enc dec : Dict.dict string) (ha : string) : option string :=
  match Dict.get enc ha with
  | Some wire => Dict.get dec wire
  | None => None
  end.

(** The three codec tables of const.py with their derived tables. *)
Definition codec_tables
  : list (Dict.dict Const.row * Dict.dict string * Dict.dict string) :=
  [ (Const.MODE_MAPPING, Const.HA_TO_MQTT_MODES, Const.MQTT_TO_HA_MODES);
    (Const.FAN_SPEEDS, Const.HA_TO_MQTT_FAN, Const.MQTT_TO_HA_FAN);
    (Const.SWING_MODES, Const.HA_TO_MQTT_SWING, Const.MQTT_TO_HA_SWING) ].

(** What [safe_async_write_ha_state] emits for an entity with base [b]:
    the state write when the entity is ready, a debug note otherwise. *)
Definition write_effect (b : Base.t) : Eff.effect :=
  if Base._entity_ready b
     && (match Base.entity_id b with Some _ => true | None => false end)
  then Eff.WriteHAState
  else Eff.Log Eff.DEBUG
         "Попытка обновить состояние сущности, которая еще не готова: %s".
Arguments write_effect : simpl never.

(** From the specification's words, "clamp to [16, 30] and round to the
    nearest integer": the clamped value, and what it is for an integer to
    be nearest to a value. *)
Definition clamp (q : Q) : Q :=
  Qmax (inject_Z Const.TEMP_MIN) (Qmin (inject_Z Const.TEMP_MAX) q).

Definition nearest_integer (n : Z) (q : Q) : Prop :=
  (Qabs (inject_Z n - q) <= 1 # 2)%Q.

(** A displayed target temperature that is an integer of [16, 30]; an
    integral float counts as an integer. *)
Definition integer_in_range (v : Py.pynum) : bool :=
  match Py.to_float v with
  | Py.Finite q =>
      Qeq_bool q (inject_Z (Qfloor q))
      && Qle_bool (inject_Z Const.TEMP_MIN) q && Qle_bool q (inject_Z Const.TEMP_MAX)
  | _ => false
  end.

(** ** Example objects

    The entities of the default device, added to Home Assistant; an
    entity that is available holds its subscriptions. *)

Definition example_device : string := "1cdbd4cbcc74".

Definition example_base (available : bool) (subscriptions : list string) : Base.t :=
  Base.mk example_device "entry" available true
          (if available then subscriptions else []) (Some "entity").

Definition example_climate (available : bool) (mode : HVACMode.t) (fan : string)
  : Climate.t :=
  Climate.mk
    (example_base available
       (map (Const.topic example_device)
            ["mode_out"; "temp_out"; "temp_comfort_out"; "fan_speed_out"; "backlight_out"]))
    mode fan Const.SWING_ON (Some (Py.PFloat (Py.Finite (47 # 2)))) (Py.PInt 24)
    HVACAction.IDLE Const.FAN_HIGH false.

Definition example_number (available : bool) : Number.t :=
  Number.mk (example_base available [Const.topic example_device "temp_comfort_out"])
            (Const.topic example_device "temp_comfort_out")
            (Const.topic example_device "temp_comfort_in") 24.

Definition example_sensor (available is_target_temp : bool) : Sensor.t :=
  Sensor.mk (example_base available [Const.topic example_device "temp_out"])
            (Const.topic example_device "temp_out") "current_temperature"
            is_target_temp (Some (Py.PFloat (Py.Finite (47 # 2)))).

Definition example_mode_select (available : bool) : ModeSelect.t :=
  ModeSelect.mk (example_base available [Const.topic example_device "mode_out"])
                (Const.topic example_device "mode_out")
                (Const.topic example_device "mode_in")
                "mdi:snowflake" "Холод" "2".

Definition example_fan_select (available : bool) : FanSpeedSelect.t :=
  FanSpeedSelect.mk (example_base available [Const.topic example_device "fan_speed_out"])
                    (Const.topic example_device "fan_speed_out")
                    (Const.topic example_device "fan_speed_in")
                    "mdi:fan-speed-3" "Высокая" "3".

Definition example_switch (available : bool) : Switch.t :=
  Switch.mk (example_base available [Const.topic example_device "backlight_out"])
            (Const.topic example_device "backlight_in")
            (Const.topic example_device "backlight_out") true.

(** The base fields of an entity that has just gone unavailable, and the
    trace of [on_availability_changed(False)]: the debug line, one
    [Unsubscribe] per recorded subscription, then the debug line that
    opens the subclass's [_reset_state], then the state write. *)
Definition went_offline (b : Base.t) : Base.t :=
  Base.with_mqtt_subscriptions [] (Base.with_available false b).

Definition unavailable_trace (reset_message : string) (b : Base.t) : list Eff.effect :=
  Eff.Log Eff.DEBUG "Сущность %s: доступность изменена на %s"
  :: map Eff.Unsubscribe (Base._mqtt_subscriptions b)
  ++ [Eff.Log Eff.DEBUG reset_message; write_effect (went_offline b)].

Definition example_manager (available : bool) : Manager.t :=
  Manager.mk "1cdbd4cbcc74" "entry" available [0; 1; 2]%nat
             "1cdbd4cbcc74/connected/out".

(* ===================================================================== *)
(** ** The manager and its entities: the availability fan-out *)
(* ===================================================================== *)

Module System.
Import Eff.

(** An object of the store: one of the six entity classes. *)
Inductive entity : Type :=
| OfClimate (c : Climate.t)
| OfNumber (n : Number.t)
| OfSensor (s : Sensor.t)
| OfModeSelect (m : ModeSelect.t)
| OfFanSpeedSelect (f : FanSpeedSelect.t)
| OfSwitch (w : Switch.t).

Definition base_of (e : entity) : Base.t :=
  match e with
  | OfClimate c => Climate.base c
  | OfNumber n => Number.base n
  | OfSensor s => Sensor.base s
  | OfModeSelect m => ModeSelect.base m
  | OfFanSpeedSelect f => FanSpeedSelect.base f
  | OfSwitch w => Switch.base w
  end.

Definition available (e : entity) : bool := Base._available (base_of e).

Definition inject {E : Type} (wrap : E -> entity) (r : outcome unit * E * list effect)
  : outcome unit * entity * list effect :=
  let '(o, e, t) := r in (o, wrap e, t).

(** The method is inherited: the call is dispatched on the class. *)
Definition on_availability_changed (available' : bool) : M entity unit :=
  fun e =>
    match e with
    | OfClimate c => inject OfClimate (Base.on_availability_changed available' c)
    | OfNumber n => inject OfNumber (Base.on_availability_changed available' n)
    | OfSensor s => inject OfSensor (Base.on_availability_changed available' s)
    | OfModeSelect m => inject OfModeSelect (Base.on_availability_changed available' m)
    | OfFanSpeedSelect f =>
        inject OfFanSpeedSelect (Base.on_availability_changed available' f)
    | OfSwitch w => inject OfSwitch (Base.on_availability_changed available' w)
    end.

(** [entity._available = availability_manager.available] *)
Definition prime (available' : bool) (e : entity) : entity :=
  match e with
  | OfClimate c => OfClimate (Base.set_base (Base.with_available available' (Climate.base c)) c)
  | OfNumber n => OfNumber (Base.set_base (Base.with_available available' (Number.base n)) n)
  | OfSensor s => OfSensor (Base.set_base (Base.with_available available' (Sensor.base s)) s)
  | OfModeSelect m =>
      OfModeSelect (Base.set_base (Base.with_available available' (ModeSelect.base m)) m)
  | OfFanSpeedSelect f =>
      OfFanSpeedSelect
        (Base.set_base (Base.with_available available' (FanSpeedSelect.base f)) f)
  | OfSwitch w => OfSwitch (Base.set_base (Base.with_available available' (Switch.base w)) w)
  end.

(** The manager, the entities it may hold a reference to (an entity's
    identity is its position in [store]), the [on_availability_changed]
    tasks created and not yet run, and the effects so far. *)
Record t : Type := mk {
  manager : Manager.t;
  store : list entity;
  pending : list (nat * bool);
  history : list effect
}.

(** [GSACBaseEntity.__init__] of a new entity: [add_entity] and the
    priming of its flag. *)
Definition register (e : entity) (sys : t) : t :=
  mk (Manager.add_entity (length (store sys)) (manager sys))
     (store sys ++ [prime (Manager._available (manager sys)) e])
     (pending sys) (history sys).

(** The [on_availability_changed] tasks among the effects of a trace. *)
Fixpoint notifications (tr : list effect) : list (nat * bool) :=
  match tr with
  | [] => []
  | CreateTask (OnAvailabilityChanged i b) :: tr' => (i, b) :: notifications tr'
  | _ :: tr' => notifications tr'
  end.

(** A message on the connectivity topic. *)
Definition connectivity_message (payload : string) (sys : t) : t :=
  let '(_, m', tr) := Manager.availability_received payload (manager sys) in
  mk m' (store sys) (pending sys ++ notifications tr) (history sys ++ tr).

Fixpoint replace (i : nat) (e : entity) (l : list entity) : list entity :=
  match l, i with
  | [], _ => []
  | _ :: l', O => e :: l'
  | x :: l', S i' => x :: replace i' e l'
  end.

(** The loop runs the oldest notification on the entity it is bound to. *)
Definition run_next (sys : t) : t :=
  match pending sys with
  | [] => sys
  | (i, available') :: rest =>
      match nth_error (store sys) i with
      | Some e =>
          let '(_, e', tr) := on_availability_changed available' e in
          mk (manager sys) (replace i e' (store sys)) rest (history sys ++ tr)
      | None => mk (manager sys) (store sys) rest (history sys)
      end
  end.

Fixpoint run (steps : nat) (sys : t) : t :=
  match steps with
  | O => sys
  | S n => run n (run_next sys)
  end.

(** Every pending notification has run. *)
Definition drain (sys : t) : t := run (length (pending sys)) sys.

(** Every registered entity's flag equals the manager's. *)
Definition mirrored (sys : t) : Prop :=
  forall i, In i (Manager._entities (manager sys)) ->
    exists e, nth_error (store sys) i = Some e /\
              available e = Manager._available (manager sys).

(** The displayed state after the reset of the entity's kind. *)
Definition reset_display (e : entity) : Prop :=
  match e with
  | OfClimate c =>
      Climate._attr_current_temperature c = None /\
      Climate._current_hvac_action c = HVACAction.OFF /\
      Climate._need_fan_auto_correction c = false
  | OfNumber n => Number._attr_native_value n = Const.TEMP_DEFAULT
  | OfSensor s => Sensor._attr_native_value s = None
  | OfModeSelect m =>
      ModeSelect._current_mode_mqtt m = "0" /\
      ModeSelect._attr_current_option m = "Выключено"
  | OfFanSpeedSelect f =>
      FanSpeedSelect._current_fan_speed_mqtt f = "0" /\
      FanSpeedSelect._attr_current_option f = "Авто"
  | OfSwitch w => Switch._state w = false
  end.

Definition offline_and_reset (e : entity) : Prop :=
  available e = false /\
  Base._mqtt_subscriptions (base_of e) = [] /\
  reset_display e.

End System.

(** The store after the pending notifications have run. *)
Definition apply_notification (st : list System.entity) (n : nat * bool)
  : list System.entity :=
  match nth_error st (fst n) with
  | Some e =>
      System.replace (fst n) (Eff.state_of (System.on_availability_changed (snd n) e)) st
  | None => st
  end.

(** The manager of the default device with a climate entity, a sensor
    and the switch registered while the device is still offline. *)
Definition example_system : System.t :=
  System.register (System.OfSwitch (example_switch false))
    (System.register (System.OfSensor (example_sensor false false))
       (System.register (System.OfClimate (example_climate false HVACMode.COOL "high"))
          (System.mk (Manager.init example_device "entry") [] [] []))).

(** The same system once the device has come online. *)
Definition example_system_online : System.t :=
  System.drain (System.connectivity_message "1" example_system).

(** The action that an inbound mode message displays for the mode it
    decodes to. *)
Definition action_of_mode (m : HVACMode.t) : HVACAction.t :=
  match m with
  | HVACMode.OFF => HVACAction.OFF
  | HVACMode.COOL => HVACAction.COOLING
  | HVACMode.HEAT => HVACAction.HEATING
  | HVACMode.FAN_ONLY => HVACAction.FAN
  | _ => HVACAction.IDLE
  end.

(* ===================================================================== *)
(** ** The methods of the entities, as their callers reach them *)
(* ===================================================================== *)

(** Home Assistant calls the commands and the lifecycle methods, the MQTT
    client calls the callbacks, the loop runs the scheduled coroutine.
    [Call.t] names one such call with its argument; [Call.invoke] runs it
    on an object of the store.  A method that the object's class does not
    have gives [None]. *)
Module Call.
Import Eff.

Inductive t : Type :=
| ModeReceived (payload : string)
| TemperatureReceived (payload : string)
| TargetTemperatureReceived (payload : string)
| FanSpeedReceived (payload : string)
| SwingReceived (payload : string)
| MessageReceived (payload : string)
| SetHvacMode (hvac_mode : HVACMode.t)
| SetTemperature (temperature : option Py.pynum)
| SetFanMode (fan_mode : string)
| SetSwingMode (swing_mode : string)
| SetNativeValue (value : Py.pynum)
| SelectOption (option' : string)
| TurnOn
| TurnOff
| CorrectFanSpeedForMode
| AvailabilityChanged (available : bool)
| AddedToHass
| WillRemoveFromHass.

Section Invoke.
Context {builtins : Builtins}.

(** What every class inherits from [GSACBaseEntity]. *)
Definition inherited {E : Type} `{Base.Entity E} (c : t) : option (M E unit) :=
  match c with
  | AvailabilityChanged available => Some (Base.on_availability_changed available)
  | AddedToHass => Some Base.async_added_to_hass
  | WillRemoveFromHass => Some Base.async_will_remove_from_hass
  | _ => None
  end.

Definition of_climate (c : t) : option (M Climate.t unit) :=
  match c with
  | ModeReceived payload => Some (Climate.mode_received payload)
  | TemperatureReceived payload => Some (Climate.temperature_received payload)
  | TargetTemperatureReceived payload =>
      Some (Climate.target_temperature_received payload)
  | FanSpeedReceived payload => Some (Climate.fan_speed_received payload)
  | SwingReceived payload => Some (Climate.swing_received payload)
  | SetHvacMode hvac_mode => Some (Climate.async_set_hvac_mode hvac_mode)
  | SetTemperature temperature => Some (Climate.async_set_temperature temperature)
  | SetFanMode fan_mode => Some (Climate.async_set_fan_mode fan_mode)
  | SetSwingMode swing_mode => Some (Climate.async_set_swing_mode swing_mode)
  | CorrectFanSpeedForMode => Some Climate._correct_fan_speed_for_mode
  | _ => inherited c
  end.

Definition of_number (c : t) : option (M Number.t unit) :=
  match c with
  | MessageReceived payload => Some (Number.message_received payload)
  | SetNativeValue value => Some (Number.async_set_native_value value)
  | _ => inherited c
  end.

Definition of_sensor (c : t) : option (M Sensor.t unit) :=
  match c with
  | MessageReceived payload => Some (Sensor.message_received payload)
  | _ => inherited c
  end.

Definition of_mode_select (c : t) : option (M ModeSelect.t unit) :=
  match c with
  | MessageReceived payload => Some (ModeSelect.message_received payload)
  | SelectOption option' => Some (ModeSelect.async_select_option option')
  | _ => inherited c
  end.

Definition of_fan_speed_select (c : t) : option (M FanSpeedSelect.t unit) :=
  match c with
  | MessageReceived payload => Some (FanSpeedSelect.message_received payload)
  | SelectOption option' => Some (FanSpeedSelect.async_select_option option')
  | _ => inherited c
  end.

Definition of_switch (c : t) : option (M Switch.t unit) :=
  match c with
  | MessageReceived payload => Some (Switch.message_received payload)
  | TurnOn => Some Switch.async_turn_on
  | TurnOff => Some Switch.async_turn_off
  | _ => inherited c
  end.

Definition invoke (c : t) (e : System.entity)
  : option (outcome unit * System.entity * list effect) :=
  match e with
  | System.OfClimate s =>
      option_map (fun m => System.inject System.OfClimate (m s)) (of_climate c)
  | System.OfNumber s =>
      option_map (fun m => System.inject System.OfNumber (m s)) (of_number c)
  | System.OfSensor s =>
      option_map (fun m => System.inject System.OfSensor (m s)) (of_sensor c)
  | System.OfModeSelect s =>
      option_map (fun m => System.inject System.OfModeSelect (m s)) (of_mode_select c)
  | System.OfFanSpeedSelect s =>
      option_map (fun m => System.inject System.OfFanSpeedSelect (m s))
                 (of_fan_speed_select c)
  | System.OfSwitch s =>
      option_map (fun m => System.inject System.OfSwitch (m s)) (of_switch c)
  end.

End Invoke.

End Call.

(* ===================================================================== *)
(** ** Home Assistant adds and removes the entities *)
(* ===================================================================== *)

Module Hass.
Import Eff.

Definition map_base (f : Base.t -> Base.t) (e : System.entity) : System.entity :=
  match e with
  | System.OfClimate c => System.OfClimate (Base.set_base (f (Climate.base c)) c)
  | System.OfNumber n => System.OfNumber (Base.set_base (f (Number.base n)) n)
  | System.OfSensor s => System.OfSensor (Base.set_base (f (Sensor.base s)) s)
  | System.OfModeSelect m =>
      System.OfModeSelect (Base.set_base (f (ModeSelect.base m)) m)
  | System.OfFanSpeedSelect s =>
      System.OfFanSpeedSelect (Base.set_base (f (FanSpeedSelect.base s)) s)
  | System.OfSwitch w => System.OfSwitch (Base.set_base (f (Switch.base w)) w)
  end.

Definition async_added_to_hass : M System.entity unit :=
  fun e =>
    match e with
    | System.OfClimate c => System.inject System.OfClimate (Base.async_added_to_hass c)
    | System.OfNumber n => System.inject System.OfNumber (Base.async_added_to_hass n)
    | System.OfSensor s => System.inject System.OfSensor (Base.async_added_to_hass s)
    | System.OfModeSelect m =>
        System.inject System.OfModeSelect (Base.async_added_to_hass m)
    | System.OfFanSpeedSelect s =>
        System.inject System.OfFanSpeedSelect (Base.async_added_to_hass s)
    | System.OfSwitch w => System.inject System.OfSwitch (Base.async_added_to_hass w)
    end.

Definition async_will_remove_from_hass : M System.entity unit :=
  fun e =>
    match e with
    | System.OfClimate c =>
        System.inject System.OfClimate (Base.async_will_remove_from_hass c)
    | System.OfNumber n =>
        System.inject System.OfNumber (Base.async_will_remove_from_hass n)
    | System.OfSensor s =>
        System.inject System.OfSensor (Base.async_will_remove_from_hass s)
    | System.OfModeSelect m =>
        System.inject System.OfModeSelect (Base.async_will_remove_from_hass m)
    | System.OfFanSpeedSelect s =>
        System.inject System.OfFanSpeedSelect (Base.async_will_remove_from_hass s)
    | System.OfSwitch w =>
        System.inject System.OfSwitch (Base.async_will_remove_from_hass w)
    end.

(** Home Assistant adds the object [i]: it assigns the entity id, then
    calls [async_added_to_hass]. *)
Definition add_entity (i : nat) (entity_id : string) (sys : System.t) : System.t :=
  match nth_error (System.store sys) i with
  | Some e =>
      let '(_, e', tr) :=
        async_added_to_hass (map_base (Base.with_entity_id (Some entity_id)) e) in
      System.mk (System.manager sys) (System.replace i e' (System.store sys))
                (System.pending sys) (System.history sys ++ tr)
  | None => sys
  end.

(** Home Assistant removes the object [i]:
    [async_will_remove_from_hass], whose second half takes the object out
    of the manager's list.  The entry is still in [hass.data]: the
    platforms are unloaded before [async_unload_entry] pops it. *)
Definition remove_entity (i : nat) (sys : System.t) : System.t :=
  match nth_error (System.store sys) i with
  | Some e =>
      let '(_, e', tr) := async_will_remove_from_hass e in
      System.mk (Manager.remove_entity i (System.manager sys))
                (System.replace i e' (System.store sys))
                (System.pending sys)
                (System.history sys ++ tr
                 ++ [Log DEBUG "Сущность %s удалена из менеджера доступности"])
  | None => sys
  end.

End Hass.

(* ===================================================================== *)
(** ** The device-id pattern of __init__.py and config_flow.py *)
(* ===================================================================== *)

Module Re.

(** The class [[a-fA-F0-9]]. *)
Definition hex_class (c : ascii) : bool :=
  let n := nat_of_ascii c in
  ((97 <=? n) && (n <=? 102) || (65 <=? n) && (n <=? 70)
   || (48 <=? n) && (n <=? 57))%nat.

(** [[a-fA-F0-9]{count}] at the head of [s]: what is left of [s]. *)
Fixpoint hex_run (count : nat) (s : string) : option string :=
  match count with
  | O => Some s
  | S count' =>
      match s with
      | String c rest => if hex_class c then hex_run count' rest else None
      | EmptyString => None
      end
  end.

(** [$]: the end of the text, or the newline that ends it. *)
Definition dollar (s : string) : bool :=
  match s with
  | EmptyString => true
  | String c EmptyString => Ascii.eqb c "010"
  | _ => false
  end.

(** [re.compile(r'^[a-fA-F0-9]{12}$').match(s)] is not [None]. *)
Definition hex12_match (s : string) : bool :=
  match hex_run 12 s with
  | Some rest => dollar rest
  | None => false
  end.

End Re.

(* ===================================================================== *)
(** ** __init__.py: loading and unloading a configuration entry *)
(* ===================================================================== *)

Module Integration.
Import Eff Const.

Definition PLATFORMS : list string := ["climate"; "select"; "sensor"; "number"; "switch"].

Definition DEVICE_ID_PATTERN_match : string -> bool := Re.hex12_match.

(** What [hass.data[DOMAIN][entry_id]] holds, apart from the manager
    (the object of [System.manager]) and the ["entities"] dictionary,
    which stays empty. *)
Record entry_record : Type := mk_record {
  config : Dict.dict string;
  device_id : string
}.

(** [hass.data.get(DOMAIN)] *)
Definition hass_data : Type := option (Dict.dict entry_record).

(** [config_entry.data.get(CONF_DEVICE_ID)] as the platforms format it
    into the topics (a missing key would be formatted as [None]; the
    platforms run only after the checks below, when the key is there). *)
Definition platform_device_id (entry_data : Dict.dict string) : string :=
  match Dict.get entry_data CONF_DEVICE_ID with
  | Some device_id => device_id
  | None => "None"
  end.

(** The entities that the [async_setup_entry] of the five platforms
    construct, platform by platform in the order of [PLATFORMS]. *)
Definition platform_entities (device_id entry_id : string) : list System.entity :=
  [System.OfClimate (Climate.init device_id entry_id)]
  ++ [System.OfModeSelect (ModeSelect.setup_entry device_id entry_id);
      System.OfFanSpeedSelect (FanSpeedSelect.setup_entry device_id entry_id)]
  ++ map System.OfSensor (Sensor.setup_entry device_id entry_id)
  ++ [System.OfNumber (Number.setup_entry device_id entry_id)]
  ++ [System.OfSwitch (Switch.setup_entry device_id entry_id)].

(** Each constructor registers its object with the manager found in
    [hass.data]. *)
Definition async_forward_entry_setups (entry_id : string)
  (entry_data : Dict.dict string) (sys : System.t) : System.t :=
  fold_left (fun sys e => System.register e sys)
            (platform_entities (platform_device_id entry_data) entry_id) sys.

Definition manager_setup (sys : System.t) : System.t :=
  let '(_, m', tr) := Manager.setup (System.manager sys) in
  System.mk m' (System.store sys) (System.pending sys) (System.history sys ++ tr).

Inductive setup_result : Type :=
| Raised_ConfigEntryNotReady (message : string) (log : list effect)
| Returned_True (data : hass_data) (sys : System.t).

Definition async_setup_entry (entry_id : string) (entry_data : Dict.dict string)
  (data : hass_data) : setup_result :=
  let device_id := Py.strip (Dict.get_default entry_data CONF_DEVICE_ID "") in
  if (device_id =? "")%string then
    Raised_ConfigEntryNotReady "Отсутствует Device ID"
      [Log ERROR "Отсутствует Device ID в конфигурации"]
  else if negb (String.length device_id =? 12)%nat then
    Raised_ConfigEntryNotReady "Некорректная длина Device ID"
      [Log ERROR "Некорректная длина Device ID: %s (ожидается 12 символов)"]
  else if negb (DEVICE_ID_PATTERN_match device_id) then
    Raised_ConfigEntryNotReady "Некорректный формат Device ID"
      [Log ERROR "Некорректный формат Device ID: %s"]
  else
    let availability_manager := Manager.init device_id entry_id in
    let data' :=
      Dict.set (match data with Some d => d | None => [] end) entry_id
               (mk_record entry_data device_id) in
    let sys :=
      manager_setup
        (async_forward_entry_setups entry_id entry_data
           (System.mk availability_manager [] [] [])) in
    Returned_True
      (Some data')
      (System.mk (System.manager sys) (System.store sys) (System.pending sys)
         (System.history sys
          ++ [Log INFO "Интеграция '%s' успешно загружена для устройства %s"])).

Inductive unload_result : Type :=
| Raised_KeyError
| Returned_bool (unload_ok : bool) (data : hass_data) (log : list effect).

(** [unload_ok] is what [async_unload_platforms] returned. *)
Definition async_unload_entry (entry_id : string) (unload_ok : bool)
  (data : hass_data) : unload_result :=
  if unload_ok then
    match data with
    | None => Raised_KeyError
    | Some d =>
        match Dict.pop d entry_id with
        | [] => Returned_bool true None [Log INFO "Интеграция '%s' выгружена. Статус: %s"]
        | d' => Returned_bool true (Some d') [Log INFO "Интеграция '%s' выгружена. Статус: %s"]
        end
    end
  else Returned_bool false data [Log INFO "Интеграция '%s' выгружена. Статус: %s"].

End Integration.

(* ===================================================================== *)
(** ** config_flow.py: the user step *)
(* ===================================================================== *)

Module ConfigFlow.
Import Const.

Definition VERSION : Z := 1.

Definition DEVICE_ID_PATTERN_match : string -> bool := Re.hex12_match.

(** A configuration entry as the flow reads it. *)
Record config_entry : Type := mk_entry {
  unique_id : option string;
  data : Dict.dict string
}.

Inductive flow_result : Type :=
| ShowForm (step_id : string) (errors : Dict.dict string)
| CreateEntry (title : string) (unique_id : string) (data : Dict.dict string)
| AbortFlow (reason : string).

(** [s.endswith(suffix)] *)
Definition endswith (s suffix : string) : bool :=
  String.prefix (Py.rev_string suffix "") (Py.rev_string s "").

(** The callback of the wild-card subscription in
    [_check_mqtt_topic_exists]: whether it sets [topic_found]. *)
Definition on_message_received (device_id topic : string) : bool :=
  if String.prefix (device_id ++ "/") topic
  then negb (endswith topic "/test_discovery") && negb (endswith topic "/ping")
  else false.

Section Flow.

(** [self._async_current_entries()], and the answer of
    [_check_mqtt_topic_exists], which waits on the broker. *)
Variable current_entries : list config_entry.
Variable _check_mqtt_topic_exists : string -> bool.

Definition _is_device_id_already_configured (device_id : string) : bool :=
  existsb
    (fun entry =>
       match Dict.get (data entry) CONF_DEVICE_ID with
       | Some configured => (configured =? device_id)%string
       | None => false
       end)
    current_entries.

(** [_abort_if_unique_id_configured] after [async_set_unique_id]: the
    flow is aborted when an entry already has this unique id. *)
Definition unique_id_configured (device_id : string) : bool :=
  existsb
    (fun entry =>
       match unique_id entry with
       | Some configured => (configured =? device_id)%string
       | None => false
       end)
    current_entries.

(** [data = {CONF_DEVICE_ID: device_id}], then one key per topic. *)
Definition entry_data (device_id : string) : Dict.dict string :=
  fold_left
    (fun data kt => Dict.set data (fst kt) (format_topic (snd kt) device_id))
    (Dict.items MQTT_TOPICS) [(CONF_DEVICE_ID, device_id)].

Definition async_step_user (user_input : option (Dict.dict string)) : flow_result :=
  match user_input with
  | None => ShowForm "user" []
  | Some user_input =>
      let device_id := Py.strip (Dict.get_default user_input CONF_DEVICE_ID "") in
      let errors : Dict.dict string :=
        if (device_id =? "")%string then
          [(CONF_DEVICE_ID, "device_id_required")]
        else if negb (String.length device_id =? 12)%nat then
          [(CONF_DEVICE_ID, "device_id_length")]
        else if negb (DEVICE_ID_PATTERN_match device_id) then
          [(CONF_DEVICE_ID, "device_id_format")]
        else if _is_device_id_already_configured device_id then
          [(CONF_DEVICE_ID, "device_id_already_configured")]
        else if negb (_check_mqtt_topic_exists device_id) then
          [("base", "mqtt_topic_not_found")]
        else [] in
      match errors with
      | [] =>
          if unique_id_configured device_id then AbortFlow "already_configured"
          else
            CreateEntry
              ("Кондиционер GoldStar GSAC/GSACI (" ++ device_id ++ ")")%string
              device_id (entry_data device_id)
      | _ => ShowForm "user" errors
      end
  end.

End Flow.

End ConfigFlow.

(** ** Predicates of the further properties *)

(** Twelve characters, each a hexadecimal digit. *)
Definition twelve_hex_digits (s : string) : Prop :=
  String.length s = 12%nat /\
  forall c, In c (list_ascii_of_string s) -> Re.hex_class c = true.

(** An entity that is unavailable holds no subscription. *)
Definition idle_when_unavailable (e : System.entity) : bool :=
  System.available e
  || match Base._mqtt_subscriptions (System.base_of e) with
     | [] => true
     | _ => false
     end.

(** What each entity displays is a value of its domain: the climate
    entity a supported mode, one of the four fan speeds and a louvre
    state; the number an integer of [16, 30]; the target-temperature
    sensor an integer or unknown; a selector the label of its wire
    code. *)
Definition displays_valid (e : System.entity) : bool :=
  match e with
  | System.OfClimate c =>
      Climate.mode_in (Climate._attr_hvac_mode c) Climate._attr_hvac_modes
      && Climate.str_in (Climate._attr_fan_mode c)
           [Const.FAN_AUTO; Const.FAN_LOW; Const.FAN_MEDIUM; Const.FAN_HIGH]
      && Climate.str_in (Climate._attr_swing_mode c) Climate._attr_swing_modes
  | System.OfNumber n =>
      (Const.TEMP_MIN <=? Number._attr_native_value n)
      && (Number._attr_native_value n <=? Const.TEMP_MAX)
  | System.OfSensor s =>
      if Sensor._is_target_temp s
      then match Sensor._attr_native_value s with
           | Some (Py.PFloat _) => false
           | _ => true
           end
      else true
  | System.OfModeSelect m =>
      match Dict.get Const.MODE_SELECT_OPTIONS (ModeSelect._current_mode_mqtt m) with
      | Some label => (label =? ModeSelect._attr_current_option m)%string
      | None => false
      end
  | System.OfFanSpeedSelect f =>
      match Dict.get Const.FAN_SELECT_OPTIONS
                     (FanSpeedSelect._current_fan_speed_mqtt f) with
      | Some label => (label =? FanSpeedSelect._attr_current_option f)%string
      | None => false
      end
  | System.OfSwitch _ => true
  end.

(** The manager's list names each object once, and only objects of the
    store. *)
Definition registered_once (sys : System.t) : Prop :=
  NoDup (Manager._entities (System.manager sys)) /\
  forall i, In i (Manager._entities (System.manager sys)) ->
            (i < length (System.store sys))%nat.

(** A computation that keeps [I] of the object it runs on and emits only
    effects of [Q], whether it returns or raises. *)
Definition keeps {S A : Type} (I : S -> Prop) (Q : Eff.effect -> Prop) (m : Eff.M S A)
  : Prop :=
  forall s, I s -> I (Eff.state_of (m s)) /\ Forall Q (Eff.trace_of (m s)).

(** An entity that cannot write its state: Home Assistant has not added
    it yet, or has removed it. *)
Definition cannot_write {E : Type} `{Base.HasBase E} (x : E) : Prop :=
  Base._entity_ready (Base.base x) = false \/ Base.entity_id (Base.base x) = None.

(** Who calls: the MQTT client a callback, the user a command, the loop
    the scheduled correction, Home Assistant and the manager the
    lifecycle methods. *)
Inductive call_kind : Type := Callback | Command | Scheduled | Lifecycle.

Definition kind_of_call (c : Call.t) : call_kind :=
  match c with
  | Call.ModeReceived _ | Call.TemperatureReceived _
  | Call.TargetTemperatureReceived _ | Call.FanSpeedReceived _
  | Call.SwingReceived _ | Call.MessageReceived _ => Callback
  | Call.SetHvacMode _ | Call.SetTemperature _ | Call.SetFanMode _
  | Call.SetSwingMode _ | Call.SetNativeValue _ | Call.SelectOption _
  | Call.TurnOn | Call.TurnOff => Command
  | Call.CorrectFanSpeedForMode => Scheduled
  | Call.AvailabilityChanged _ | Call.AddedToHass | Call.WillRemoveFromHass => Lifecycle
  end.

(** The effects of each kind of call: all may log and write the state;
    only a callback schedules (the fan correction), only a command and
    the correction publish (never retained), only the lifecycle methods
    subscribe and unsubscribe. *)
Definition allowed_effect (k : call_kind) (ef : Eff.effect) : bool :=
  match ef, k with
  | Eff.Log _ _, _ | Eff.WriteHAState, _ => true
  | Eff.CreateTask Eff.CorrectFanSpeed, Callback => true
  | Eff.Publish _ _ _ retain, (Command | Scheduled) => negb retain
  | (Eff.Subscribe _ _ | Eff.Unsubscribe _), Lifecycle => true
  | _, _ => false
  end.

(** The device settings that the climate entity displays; the target
    temperature by its value, so that 30 and 30.0 are the same. *)
Definition displayed_settings (c : Climate.t)
  : HVACMode.t * string * string * Py.pyfloat :=
  (Climate._attr_hvac_mode c, Climate._attr_fan_mode c, Climate._attr_swing_mode c,
   Py.to_float (Climate._attr_target_temperature c)).

(** The climate entity, the two selectors and the louvre switch show the
    same mode, fan speed and louvre state: the wire code of what the
    climate entity displays is the code the other entity holds. *)
Definition same_device_state (c : Climate.t) (m : ModeSelect.t)
  (f : FanSpeedSelect.t) (w : Switch.t) : Prop :=
  Dict.get Const.HA_TO_MQTT_MODES (HVACMode.value (Climate._attr_hvac_mode c))
  = Some (ModeSelect._current_mode_mqtt m) /\
  Dict.get Const.HA_TO_MQTT_FAN (Climate._attr_fan_mode c)
  = Some (FanSpeedSelect._current_fan_speed_mqtt f) /\
  Dict.get Const.HA_TO_MQTT_SWING (Climate._attr_swing_mode c)
  = Some (if Switch.is_on w then Const.BLINDS_ON else Const.BLINDS_OFF).

(** A computation that raises only exceptions of [P]. *)
Definition raises_only {S A : Type} (P : Py.exn -> Prop) (m : Eff.M S A) : Prop :=
  forall s, match Eff.outcome_of (m s) with
            | Eff.Returned _ => True
            | Eff.Raised e => P e
            end.

(** The exception that leaves a call.  Only [int(round(...))] on a
    number that is not finite raises: in the callbacks of the number and
    of the target-temperature sensor the handler catches the
    [ValueError] of a NaN and lets the [OverflowError] of an infinity
    pass; the number's command logs the exception and raises it again. *)
Definition uncaught_exception {builtins : Builtins} (c : Call.t) (e : System.entity)
  : option Py.exn :=
  let of_payload payload :=
    match float payload with
    | Some Py.PosInf | Some Py.NegInf => Some Py.OverflowError
    | _ => None
    end in
  if System.available e then
    match c, e with
    | Call.MessageReceived payload, System.OfNumber _ => of_payload payload
    | Call.MessageReceived payload, System.OfSensor s =>
        if Sensor._is_target_temp s then of_payload payload else None
    | Call.SetNativeValue value, System.OfNumber _ =>
        match Py.int_round value with
        | inl exception => Some exception
        | inr _ => None
        end
    | _, _ => None
    end
  else None.

(* ===================================================================== *)
(** * Properties *)
(* ===================================================================== *)

Import Eff.

(** ** Sanity checks of the builtins and of the topic templates *)

Example format_topic_mode_in dev :
  Const.topic dev "mode_in" = (dev ++ "/mode/in")%string.
Proof. reflexivity. Qed.

Example py_float_examples :
  Py.py_float "35" = Some (Py.Finite (35 # 1)) /\
  Py.py_float " 21.5 " = Some (Py.Finite (43 # 2)) /\
  Py.py_float "-3" = Some (Py.Finite (-3 # 1)) /\
  Py.py_float "abc" = None /\
  Py.py_float "" = None /\
  Py.py_float "." = None /\
  Py.py_float "NaN" = Some Py.NaN /\
  Py.py_float "-inf" = Some Py.NegInf /\
  Py.py_float "1_6.5e1" = Some (Py.Finite (165 # 1)) /\
  Py.py_float "25e-1" = Some (Py.Finite (5 # 2)) /\
  Py.py_float ".5" = Some (Py.Finite (1 # 2)) /\
  Py.py_float "1." = Some (Py.Finite (1 # 1)) /\
  Py.py_float "1__0" = None /\
  Py.py_float "1e" = None /\
  Py.py_float "2 1" = None.
Proof. repeat split; reflexivity. Qed.

Example round_examples :
  Py.round_half_even (33 # 2) = 16 /\ Py.round_half_even (35 # 2) = 18 /\
  Py.round_half_even (-5 # 2) = -2 /\ Py.round_half_even (1649 # 100) = 16 /\
  Py.str 30 = "30".
Proof. repeat split; reflexivity. Qed.

(** ** Dictionaries *)

Section DictFacts.
Context {V : Type}.

Lemma get_set_same (d : Dict.dict V) k v : Dict.get (Dict.set d k v) k = Some v.
Proof.
  induction d as [|[k' v'] d IH]; simpl.
  - now rewrite String.eqb_refl.
  - destruct (String.eqb_spec k' k) as [->|Hne]; simpl.
    + now rewrite String.eqb_refl.
    + destruct (String.eqb_spec k' k); [contradiction | exact IH].
Qed.

Lemma get_set_other (d : Dict.dict V) k k' v :
  k <> k' -> Dict.get (Dict.set d k v) k' = Dict.get d k'.
Proof.
  intros Hne.
  induction d as [|[k0 v0] d IH]; simpl.
  - destruct (String.eqb_spec k k'); [contradiction | reflexivity].
  - destruct (String.eqb_spec k0 k) as [->|Hk]; simpl.
    + destruct (String.eqb_spec k k'); [contradiction | reflexivity].
    + destruct (String.eqb_spec k0 k'); [reflexivity | exact IH].
Qed.

Lemma get_In (d : Dict.dict V) k v : Dict.get d k = Some v -> In (k, v) d.
Proof.
  induction d as [|[k' v'] d IH]; simpl; [discriminate|].
  destruct (String.eqb_spec k' k) as [->|_].
  - intros [= ->]. now left.
  - intros H. right. now apply IH.
Qed.

Section Comprehension.
Context {A : Type} (key : A -> string) (val : A -> V).

Let add (acc : Dict.dict V) (x : A) := Dict.set acc (key x) (val x).

Lemma get_fold_other (xs : list A) (acc : Dict.dict V) k :
  (forall x, In x xs -> key x <> k) ->
  Dict.get (fold_left add xs acc) k = Dict.get acc k.
Proof.
  revert acc.
  induction xs as [|x xs IH]; intros acc Hk; simpl; [reflexivity|].
  rewrite IH by (intros y Hy; apply Hk; now right).
  apply get_set_other, Hk. now left.
Qed.

Lemma get_fold_member (xs : list A) (acc : Dict.dict V) x :
  NoDup (map key xs) -> In x xs ->
  Dict.get (fold_left add xs acc) (key x) = Some (val x).
Proof.
  revert acc.
  induction xs as [|y xs IH]; intros acc Hnd Hin; simpl; [destruct Hin|].
  inversion Hnd as [|? ? Hnotin Hnd']; subst.
  destruct Hin as [->|Hin].
  - rewrite get_fold_other.
    + apply get_set_same.
    + intros z Hz Heq. apply Hnotin. rewrite <- Heq. now apply in_map.
  - now apply IH.
Qed.

(** A comprehension over items with distinct keys maps each key to
    its value. *)
Lemma get_comprehension (xs : list A) x :
  NoDup (map key xs) -> In x xs ->
  Dict.get (Dict.comprehension key val xs) (key x) = Some (val x).
Proof. apply get_fold_member. Qed.
End Comprehension.
End DictFacts.

(** A codec table whose wire codes are distinct and whose domain values
    are distinct is inverted by its two derived tables. *)
Lemma derived_tables_inverse (table : Dict.dict Const.row) wire r :
  NoDup (map fst table) ->
  NoDup (map (fun kv => Const.ha_of (snd kv)) table) ->
  In (wire, r) table ->
  Dict.get (Dict.comprehension (fun kv => Const.ha_of (snd kv)) fst table)
           (Const.ha_of r) = Some wire /\
  Dict.get (Dict.comprehension fst (fun kv => Const.ha_of (snd kv)) table)
           wire = Some (Const.ha_of r).
Proof.
  intros Hcodes Hvalues Hin. split.
  - exact (get_comprehension (fun kv => Const.ha_of (snd kv)) fst table (wire, r)
             Hvalues Hin).
  - exact (get_comprehension fst (fun kv => Const.ha_of (snd kv)) table (wire, r)
             Hcodes Hin).
Qed.

Lemma string_list_nodup (l : list string) :
  (fix distinct (l : list string) : bool :=
     match l with
     | [] => true
     | x :: l' => negb (existsb (String.eqb x) l') && distinct l'
     end) l = true -> NoDup l.
Proof.
  induction l as [|x l IH]; intros H; constructor.
  - apply andb_prop in H as [H _].
    intros Hin. apply negb_true_iff in H.
    assert (existsb (String.eqb x) l = true) as E
      by (apply existsb_exists; exists x; split; [exact Hin | apply String.eqb_refl]).
    congruence.
  - apply andb_prop in H as [_ H]. now apply IH.
Qed.

Lemma codec_tables_distinct table enc dec :
  In (table, enc, dec) codec_tables ->
  NoDup (map fst table) /\
  NoDup (map (fun kv => Const.ha_of (snd kv)) table) /\
  enc = Dict.comprehension (fun kv => Const.ha_of (snd kv)) fst table /\
  dec = Dict.comprehension fst (fun kv => Const.ha_of (snd kv)) table.
Proof.
  intros Hin.
  repeat (destruct Hin as [Heq | Hin]; [inversion Heq; subst; clear Heq|]);
    [ | | | destruct Hin];
    (split; [apply string_list_nodup; reflexivity|]);
    (split; [apply string_list_nodup; reflexivity|]);
    split; reflexivity.
Qed.

(** C9. For every (wire code, domain value) pair of the mode, fan-speed
    and louvre tables of const.py: the encoding table sends the domain
    value to the wire code and the decoding table sends the wire code to
    the domain value, so that decoding then encoding gives back the wire
    code and encoding then decoding gives back the domain value. *)
Theorem codec_round_trip :
  forall table enc dec wire r,
    In (table, enc, dec) codec_tables ->
    In (wire, r) table ->
    Dict.get enc (Const.ha_of r) = Some wire /\
    Dict.get dec wire = Some (Const.ha_of r) /\
    decode_encode enc dec wire = Some wire /\
    encode_decode enc dec (Const.ha_of r) = Some (Const.ha_of r).
Proof.
  intros table enc dec wire r Htable Hin.
  destruct (codec_tables_distinct table enc dec Htable) as (Hc & Hv & -> & ->).
  destruct (derived_tables_inverse table wire r Hc Hv Hin) as [Henc Hdec].
  unfold decode_encode, encode_decode.
  rewrite Henc, Hdec. repeat split; assumption.
Qed.

Lemma codec_round_trip_witness :
  In (Const.FAN_SPEEDS, Const.HA_TO_MQTT_FAN, Const.MQTT_TO_HA_FAN) codec_tables /\
  In ("1", ("low", "Низкая", "mdi:fan-speed-1")) Const.FAN_SPEEDS /\
  Dict.get Const.HA_TO_MQTT_FAN "low" = Some "1" /\
  Dict.get Const.MQTT_TO_HA_FAN "1" = Some "low" /\
  decode_encode Const.HA_TO_MQTT_FAN Const.MQTT_TO_HA_FAN "1" = Some "1" /\
  encode_decode Const.HA_TO_MQTT_FAN Const.MQTT_TO_HA_FAN "low" = Some "low".
Proof.
  assert (In (Const.FAN_SPEEDS, Const.HA_TO_MQTT_FAN, Const.MQTT_TO_HA_FAN)
             codec_tables) as Ht by (right; left; reflexivity).
  assert (In ("1", ("low", "Низкая", "mdi:fan-speed-1")) Const.FAN_SPEEDS) as Hr
    by (right; left; reflexivity).
  split; [exact Ht|]. split; [exact Hr|].
  exact (codec_round_trip _ _ _ "1" ("low", "Низкая", "mdi:fan-speed-1") Ht Hr).
Defined.

(** ** The availability guard *)

Section Guard.
Context {E : Type} `{Base.HasBase E}.
Import Eff.
Local Open Scope monad_scope.

(** A callback that starts with [if not self._available: return]. *)
Lemma guarded_callback (body : E -> M E unit) (self : E) :
  Base.available self = false ->
  returns_immediately
    (s <- get ;; if negb (Base.available s) then ret tt else body s) self.
Proof.
  intros Hoff. unfold returns_immediately, bind, get.
  cbv beta iota zeta. rewrite Hoff. reflexivity.
Qed.

(** A command that starts with
    [if not self._available: _LOGGER.warning(..); return]. *)
Lemma guarded_command (message : string) (body : E -> M E unit) (self : E) :
  Base.available self = false ->
  dropped_with_warning
    (s <- get ;; if negb (Base.available s) then log WARNING message else body s)
    self.
Proof.
  intros Hoff. exists message. unfold bind, get, log, emit.
  cbv beta iota zeta. rewrite Hoff. reflexivity.
Qed.

End Guard.

(** C10. While an entity's availability flag is false, every inbound MQTT
    callback (the five of the climate entity, and those of the number,
    the sensor, the two selectors and the switch) returns immediately:
    the entity is unchanged and nothing is emitted, whatever the payload. *)
Theorem inbound_callbacks_guarded :
  forall (builtins : Builtins) (payload : string)
         (c : Climate.t) (n : Number.t) (s : Sensor.t)
         (m : ModeSelect.t) (f : FanSpeedSelect.t) (w : Switch.t),
    Base.available c = false ->
    Base.available n = false ->
    Base.available s = false ->
    Base.available m = false ->
    Base.available f = false ->
    Base.available w = false ->
    returns_immediately (Climate.mode_received payload) c /\
    returns_immediately (Climate.temperature_received payload) c /\
    returns_immediately (Climate.target_temperature_received payload) c /\
    returns_immediately (Climate.fan_speed_received payload) c /\
    returns_immediately (Climate.swing_received payload) c /\
    returns_immediately (Number.message_received payload) n /\
    returns_immediately (Sensor.message_received payload) s /\
    returns_immediately (ModeSelect.message_received payload) m /\
    returns_immediately (FanSpeedSelect.message_received payload) f /\
    returns_immediately (Switch.message_received payload) w.
Proof.
  intros builtins payload c n s m f w Hc Hn Hs Hm Hf Hw.
  repeat split.
  - unfold Climate.mode_received. now apply guarded_callback.
  - unfold Climate.temperature_received. now apply guarded_callback.
  - unfold Climate.target_temperature_received. now apply guarded_callback.
  - unfold Climate.fan_speed_received. now apply guarded_callback.
  - unfold Climate.swing_received. now apply guarded_callback.
  - unfold Number.message_received. now apply guarded_callback.
  - unfold Sensor.message_received. now apply guarded_callback.
  - unfold ModeSelect.message_received. now apply guarded_callback.
  - unfold FanSpeedSelect.message_received. now apply guarded_callback.
  - unfold Switch.message_received. now apply guarded_callback.
Qed.

Lemma inbound_callbacks_guarded_witness :
  let c := example_climate false HVACMode.COOL "high" in
  let n := example_number false in
  let s := example_sensor false true in
  let m := example_mode_select false in
  let f := example_fan_select false in
  let w := example_switch false in
  returns_immediately (Climate.mode_received "0") c /\
  returns_immediately (Climate.temperature_received (builtins := reference_builtins) "0") c /\
  returns_immediately (Climate.target_temperature_received (builtins := reference_builtins) "0") c /\
  returns_immediately (Climate.fan_speed_received "0") c /\
  returns_immediately (Climate.swing_received "0") c /\
  returns_immediately (Number.message_received (builtins := reference_builtins) "0") n /\
  returns_immediately (Sensor.message_received (builtins := reference_builtins) "0") s /\
  returns_immediately (ModeSelect.message_received "0") m /\
  returns_immediately (FanSpeedSelect.message_received "0") f /\
  returns_immediately (Switch.message_received "0") w.
Proof.
  exact (inbound_callbacks_guarded reference_builtins "0"
           (example_climate false HVACMode.COOL "high") (example_number false)
           (example_sensor false true) (example_mode_select false)
           (example_fan_select false) (example_switch false)
           eq_refl eq_refl eq_refl eq_refl eq_refl eq_refl).
Defined.

(** ** Outbound commands while the device is unavailable *)

(** C6. For every entity and every outbound user command (the climate
    entity's set-mode, set-temperature, set-fan and set-swing, the number's
    set-value, the two selectors' select-option, the switch's turn-on and
    turn-off): if the entity's availability flag is false the command is a
    no-op; the entity is unchanged, nothing is published and no state is
    written; the only effect is one warning in the log. *)
Theorem commands_dropped_when_unavailable :
  forall (c : Climate.t) (n : Number.t)
         (m : ModeSelect.t) (f : FanSpeedSelect.t) (w : Switch.t)
         (hvac_mode : HVACMode.t) (temperature : option Py.pynum)
         (fan_mode swing_mode option' : string) (value : Py.pynum),
    Base.available c = false ->
    Base.available n = false ->
    Base.available m = false ->
    Base.available f = false ->
    Base.available w = false ->
    dropped_with_warning (Climate.async_set_hvac_mode hvac_mode) c /\
    dropped_with_warning (Climate.async_set_temperature temperature) c /\
    dropped_with_warning (Climate.async_set_fan_mode fan_mode) c /\
    dropped_with_warning (Climate.async_set_swing_mode swing_mode) c /\
    dropped_with_warning (Number.async_set_native_value value) n /\
    dropped_with_warning (ModeSelect.async_select_option option') m /\
    dropped_with_warning (FanSpeedSelect.async_select_option option') f /\
    dropped_with_warning Switch.async_turn_on w /\
    dropped_with_warning Switch.async_turn_off w.
Proof.
  intros c n m f w hvac_mode temperature fan_mode swing_mode option' value
         Hc Hn Hm Hf Hw.
  repeat split.
  - unfold Climate.async_set_hvac_mode. now apply guarded_command.
  - unfold Climate.async_set_temperature. now apply guarded_command.
  - unfold Climate.async_set_fan_mode. now apply guarded_command.
  - unfold Climate.async_set_swing_mode. now apply guarded_command.
  - unfold Number.async_set_native_value. now apply guarded_command.
  - unfold ModeSelect.async_select_option. now apply guarded_command.
  - unfold FanSpeedSelect.async_select_option. now apply guarded_command.
  - unfold Switch.async_turn_on. now apply guarded_command.
  - unfold Switch.async_turn_off. now apply guarded_command.
Qed.

(** What [dropped_with_warning] excludes. *)
Lemma dropped_publishes_nothing {E : Type} (h : Eff.M E unit) (self : E) :
  dropped_with_warning h self ->
  Eff.state_of (h self) = self /\
  Eff.published (Eff.trace_of (h self)) = [] /\
  ~ In Eff.WriteHAState (Eff.trace_of (h self)) /\
  Eff.created_tasks (Eff.trace_of (h self)) = [].
Proof.
  intros [message ->]. cbn. repeat split.
  intros [Hin | []]. discriminate Hin.
Qed.

Lemma commands_dropped_when_unavailable_witness :
  let c := example_climate false HVACMode.COOL "high" in
  let n := example_number false in
  let m := example_mode_select false in
  let f := example_fan_select false in
  let w := example_switch false in
  dropped_with_warning (Climate.async_set_hvac_mode HVACMode.HEAT) c /\
  dropped_with_warning (Climate.async_set_temperature (Some (Py.PInt 21))) c /\
  dropped_with_warning (Climate.async_set_fan_mode "low") c /\
  dropped_with_warning (Climate.async_set_swing_mode "off") c /\
  dropped_with_warning (Number.async_set_native_value (Py.PInt 21)) n /\
  dropped_with_warning (ModeSelect.async_select_option "Тепло") m /\
  dropped_with_warning (FanSpeedSelect.async_select_option "Тепло") f /\
  dropped_with_warning Switch.async_turn_on w /\
  dropped_with_warning Switch.async_turn_off w.
Proof.
  exact (commands_dropped_when_unavailable
           (example_climate false HVACMode.COOL "high") (example_number false)
           (example_mode_select false) (example_fan_select false)
           (example_switch false)
           HVACMode.HEAT (Some (Py.PInt 21)) "low" "off" "Тепло" (Py.PInt 21)
           eq_refl eq_refl eq_refl eq_refl eq_refl).
Defined.

(** ** The climate entity: what each step does *)

Section ClimateSteps.
Import Eff.

Ltac climate_cases e :=
  destruct e as [[dev entry avail ready subs eid] mode fan swing cur tgt act prev need];
  cbn in *; subst;
  try (destruct mode; try contradiction; try discriminate);
  destruct ready, eid; try reflexivity.

(** Inbound mode ["5"] from another mode with the fan on auto. *)
Lemma mode_received_enters_fan_only (e : Climate.t) :
  Base.available e = true ->
  Climate._attr_hvac_mode e <> HVACMode.FAN_ONLY ->
  Climate._attr_fan_mode e = Const.FAN_AUTO ->
  Climate.mode_received "5" e =
    (Returned tt,
     Climate.with_hvac_action HVACAction.FAN
       (Climate.with_need_fan_auto_correction true
          (Climate.with_hvac_mode HVACMode.FAN_ONLY e)),
     [write_effect (Climate.base e); CreateTask CorrectFanSpeed]).
Proof. intros Ha Hm Hf. climate_cases e. Qed.

(** The deferred correction, when it is still due. *)
Lemma correct_fan_speed_applies (e : Climate.t) :
  Base.available e = true ->
  Climate._need_fan_auto_correction e = true ->
  Climate._attr_hvac_mode e = HVACMode.FAN_ONLY ->
  Climate._attr_fan_mode e = Const.FAN_AUTO ->
  Climate._correct_fan_speed_for_mode e =
    (Returned tt,
     Climate.with_need_fan_auto_correction false
       (Climate.with_fan_mode Const.FAN_LOW
          (Climate.with_previous_fan_mode Const.FAN_LOW e)),
     [Publish (Climate.topics e "fan_speed_in") "1" 0 false;
      write_effect (Climate.base e);
      Log INFO "Установлена скорость вентилятора: %s (MQTT: %s)"]).
Proof. intros Ha Hn Hm Hf. climate_cases e. Qed.

(** The deferred correction, once the flag has been cleared. *)
Lemma correct_fan_speed_cancelled (e : Climate.t) :
  Climate._need_fan_auto_correction e = false ->
  Climate._correct_fan_speed_for_mode e = (Returned tt, e, []).
Proof.
  intros Hn. unfold Climate._correct_fan_speed_for_mode, bind, get.
  cbv beta iota zeta. rewrite Hn. reflexivity.
Qed.

(** An inbound fan speed that the table knows. *)
Lemma fan_speed_received_known (e : Climate.t) payload fan :
  Base.available e = true ->
  Dict.get Const.MQTT_TO_HA_FAN payload = Some fan ->
  Climate.fan_speed_received payload e =
    (Returned tt,
     Climate.with_fan_mode fan
       ((if Climate._need_fan_auto_correction e && negb (fan =? Const.FAN_AUTO)%string
         then Climate.with_need_fan_auto_correction false else (fun s => s))
          ((if negb (Climate._attr_fan_mode e =? Const.FAN_AUTO)%string
            then Climate.with_previous_fan_mode (Climate._attr_fan_mode e)
            else (fun s => s)) e)),
     [write_effect (Climate.base e)]).
Proof.
  intros Ha Hget.
  unfold Climate.fan_speed_received, bind, get. cbv beta iota zeta.
  rewrite Ha, Hget. cbn [negb].
  destruct e as [[dev entry avail ready subs eid] mode fan0 swing cur tgt act prev need].
  cbn -[String.eqb Const.FAN_AUTO].
  destruct (fan0 =? Const.FAN_AUTO)%string, need, (fan =? Const.FAN_AUTO)%string;
    destruct ready, eid; reflexivity.
Qed.

(** The set-mode command to fan-only from another mode with the fan on
    auto: the fan command goes first, inside the same call. *)
Lemma set_hvac_mode_enters_fan_only (e : Climate.t) :
  Base.available e = true ->
  Climate._attr_hvac_mode e <> HVACMode.FAN_ONLY ->
  Climate._attr_fan_mode e = Const.FAN_AUTO ->
  Climate.async_set_hvac_mode HVACMode.FAN_ONLY e =
    (Returned tt,
     Climate.with_hvac_mode HVACMode.FAN_ONLY
       (Climate.with_fan_mode Const.FAN_LOW
          (Climate.with_previous_fan_mode Const.FAN_LOW e)),
     [Publish (Climate.topics e "fan_speed_in") "1" 0 false;
      write_effect (Climate.base e);
      Log INFO "Установлена скорость вентилятора: %s (MQTT: %s)";
      Publish (Climate.topics e "mode_in") "5" 0 false;
      write_effect (Climate.base e);
      Log INFO "Установлен режим: %s (MQTT: %s)"]).
Proof. intros Ha Hm Hf. climate_cases e. Qed.

End ClimateSteps.

Lemma write_effect_cases b :
  write_effect b = Eff.WriteHAState \/
  write_effect b =
    Eff.Log Eff.DEBUG "Попытка обновить состояние сущности, которая еще не готова: %s".
Proof. unfold write_effect. destruct (_ && _); [now left | now right]. Qed.

Lemma published_write_effect b rest :
  Eff.published (write_effect b :: rest) = Eff.published rest.
Proof. unfold write_effect. now destruct (_ && _). Qed.

Lemma created_tasks_write_effect b rest :
  Eff.created_tasks (write_effect b :: rest) = Eff.created_tasks rest.
Proof. unfold write_effect. now destruct (_ && _). Qed.

(** ** Fan-auto correction *)

(** The loop after the mode callback: the correction is queued. *)
Lemma loop_mode_received_enters_fan_only (e : Climate.t) :
  Base.available e = true ->
  Climate._attr_hvac_mode e <> HVACMode.FAN_ONLY ->
  Climate._attr_fan_mode e = Const.FAN_AUTO ->
  ClimateLoop.call (Climate.mode_received "5") (ClimateLoop.start e) =
    ClimateLoop.mk
      (Climate.with_hvac_action HVACAction.FAN
         (Climate.with_need_fan_auto_correction true
            (Climate.with_hvac_mode HVACMode.FAN_ONLY e)))
      [CorrectFanSpeed]
      [write_effect (Climate.base e); CreateTask CorrectFanSpeed].
Proof.
  intros Ha Hm Hf.
  unfold ClimateLoop.call, ClimateLoop.start. cbn [ClimateLoop.entity].
  rewrite (mode_received_enters_fan_only e Ha Hm Hf).
  cbn [ClimateLoop.pending ClimateLoop.history app].
  now rewrite created_tasks_write_effect.
Qed.

(** The loop after the queued correction has run. *)
Lemma loop_correction_applied (e : Climate.t) :
  Base.available e = true ->
  Climate._attr_hvac_mode e <> HVACMode.FAN_ONLY ->
  Climate._attr_fan_mode e = Const.FAN_AUTO ->
  let l2 := ClimateLoop.run_next
              (ClimateLoop.call (Climate.mode_received "5") (ClimateLoop.start e)) in
  published (ClimateLoop.history l2) = [(Climate.topics e "fan_speed_in", "1")] /\
  Climate._attr_hvac_mode (ClimateLoop.entity l2) = HVACMode.FAN_ONLY /\
  Climate._attr_fan_mode (ClimateLoop.entity l2) = Const.FAN_LOW /\
  Climate._need_fan_auto_correction (ClimateLoop.entity l2) = false /\
  ClimateLoop.pending l2 = [].
Proof.
  intros Ha Hm Hf l2. subst l2.
  rewrite (loop_mode_received_enters_fan_only e Ha Hm Hf).
  unfold ClimateLoop.run_next, ClimateLoop.call.
  cbn -[Climate._correct_fan_speed_for_mode].
  rewrite correct_fan_speed_applies by (try reflexivity; assumption).
  cbn. destruct (write_effect_cases (Climate.base e)) as [-> | ->];
    repeat split.
Qed.

(** C2, as the code has it.  An inbound mode message ["5"] that arrives
    while the entity is available, in another mode, with the displayed fan
    speed on auto: the displayed mode becomes fan-only and the correction
    is queued (nothing is published yet); when the loop runs it, ["1"] is
    published on [fan_speed_in] and the displayed fan speed becomes low.
    An inbound fan-speed message that is not auto (["1"], ["2"], ["3"])
    arriving before the correction runs cancels it: the correction then
    publishes nothing. *)
Theorem inbound_fan_only_correction :
  forall e : Climate.t,
    Base.available e = true ->
    Climate._attr_hvac_mode e <> HVACMode.FAN_ONLY ->
    Climate._attr_fan_mode e = Const.FAN_AUTO ->
    let l1 := ClimateLoop.call (Climate.mode_received "5") (ClimateLoop.start e) in
    let l2 := ClimateLoop.run_next l1 in
    (Climate._attr_hvac_mode (ClimateLoop.entity l1) = HVACMode.FAN_ONLY /\
     Climate._attr_fan_mode (ClimateLoop.entity l1) = Const.FAN_AUTO /\
     ClimateLoop.pending l1 = [Eff.CorrectFanSpeed] /\
     Eff.published (ClimateLoop.history l1) = []) /\
    (Eff.published (ClimateLoop.history l2) = [(Climate.topics e "fan_speed_in", "1")] /\
     Climate._attr_hvac_mode (ClimateLoop.entity l2) = HVACMode.FAN_ONLY /\
     Climate._attr_fan_mode (ClimateLoop.entity l2) = Const.FAN_LOW /\
     Climate._need_fan_auto_correction (ClimateLoop.entity l2) = false /\
     ClimateLoop.pending l2 = []) /\
    (forall payload fan,
        Dict.get Const.MQTT_TO_HA_FAN payload = Some fan ->
        fan <> Const.FAN_AUTO ->
        let l3 := ClimateLoop.run_next
                    (ClimateLoop.call (Climate.fan_speed_received payload) l1) in
        Eff.published (ClimateLoop.history l3) = [] /\
        Climate._attr_fan_mode (ClimateLoop.entity l3) = fan /\
        Climate._need_fan_auto_correction (ClimateLoop.entity l3) = false /\
        ClimateLoop.pending l3 = []).
Proof.
  intros e Ha Hm Hf l1 l2.
  pose proof (loop_mode_received_enters_fan_only e Ha Hm Hf) as Hl1.
  fold l1 in Hl1.
  split; [|split].
  - rewrite Hl1. cbn.
    destruct (write_effect_cases (Climate.base e)) as [-> | ->];
      repeat split; assumption.
  - exact (loop_correction_applied e Ha Hm Hf).
  - intros payload fan Hget Hfan l3. subst l3. rewrite Hl1.
    unfold ClimateLoop.run_next, ClimateLoop.call.
    cbn -[Climate._correct_fan_speed_for_mode Climate.fan_speed_received].
    rewrite (fan_speed_received_known _ payload fan) by assumption.
    destruct (String.eqb_spec fan Const.FAN_AUTO) as [Heq|_]; [contradiction|].
    cbn -[Climate._correct_fan_speed_for_mode].
    destruct (write_effect_cases (Climate.base e)) as [-> | ->];
      cbn -[Climate._correct_fan_speed_for_mode];
      (rewrite correct_fan_speed_cancelled by reflexivity);
      cbn; repeat split.
Qed.

Lemma inbound_fan_only_correction_witness :
  let e := example_climate true HVACMode.AUTO "auto" in
  let l1 := ClimateLoop.call (Climate.mode_received "5") (ClimateLoop.start e) in
  let l2 := ClimateLoop.run_next l1 in
  (Climate._attr_hvac_mode (ClimateLoop.entity l1) = HVACMode.FAN_ONLY /\
   Climate._attr_fan_mode (ClimateLoop.entity l1) = Const.FAN_AUTO /\
   ClimateLoop.pending l1 = [Eff.CorrectFanSpeed] /\
   Eff.published (ClimateLoop.history l1) = []) /\
  (Eff.published (ClimateLoop.history l2) = [(Climate.topics e "fan_speed_in", "1")] /\
   Climate._attr_hvac_mode (ClimateLoop.entity l2) = HVACMode.FAN_ONLY /\
   Climate._attr_fan_mode (ClimateLoop.entity l2) = Const.FAN_LOW /\
   Climate._need_fan_auto_correction (ClimateLoop.entity l2) = false /\
   ClimateLoop.pending l2 = []) /\
  (forall payload fan,
      Dict.get Const.MQTT_TO_HA_FAN payload = Some fan ->
      fan <> Const.FAN_AUTO ->
      let l3 := ClimateLoop.run_next
                  (ClimateLoop.call (Climate.fan_speed_received payload) l1) in
      Eff.published (ClimateLoop.history l3) = [] /\
      Climate._attr_fan_mode (ClimateLoop.entity l3) = fan /\
      Climate._need_fan_auto_correction (ClimateLoop.entity l3) = false /\
      ClimateLoop.pending l3 = []).
Proof.
  apply (inbound_fan_only_correction (example_climate true HVACMode.AUTO "auto")).
  - reflexivity.
  - simpl. discriminate.
  - reflexivity.
Defined.

(** C2, as the specification's scenario states it, fails: an inbound
    fan-speed message ["0"] (auto) that arrives after the mode message
    ["5"] and before the queued correction runs does not cancel it.  The
    flag is only cleared by a fan speed other than auto, so the correction
    still publishes ["1"] on [fan_speed_in]. *)
Lemma inbound_auto_does_not_cancel_correction :
  let e := example_climate true HVACMode.AUTO "auto" in
  let l1 := ClimateLoop.call (Climate.mode_received "5") (ClimateLoop.start e) in
  let l1' := ClimateLoop.call (Climate.fan_speed_received "0") l1 in
  let l2 := ClimateLoop.run_next l1' in
  ClimateLoop.pending l1' = [Eff.CorrectFanSpeed] /\
  Climate._need_fan_auto_correction (ClimateLoop.entity l1') = true /\
  Eff.published (ClimateLoop.history l1') = [] /\
  Eff.published (ClimateLoop.history l2) = [("1cdbd4cbcc74/power/in", "1")] /\
  Climate._attr_fan_mode (ClimateLoop.entity l2) = "low".
Proof. vm_compute. repeat split. Qed.

(** The same for every entity in that situation. *)
Lemma inbound_auto_keeps_correction (e : Climate.t) :
  Base.available e = true ->
  Climate._attr_hvac_mode e <> HVACMode.FAN_ONLY ->
  Climate._attr_fan_mode e = Const.FAN_AUTO ->
  let l1 := ClimateLoop.call (Climate.mode_received "5") (ClimateLoop.start e) in
  let l2 := ClimateLoop.run_next
              (ClimateLoop.call (Climate.fan_speed_received "0") l1) in
  Eff.published (ClimateLoop.history l2) = [(Climate.topics e "fan_speed_in", "1")] /\
  Climate._attr_fan_mode (ClimateLoop.entity l2) = Const.FAN_LOW.
Proof.
  intros Ha Hm Hf.
  destruct e as [[dev entry avail ready subs eid] mode fan swing cur tgt act prev need].
  cbn in Ha, Hm, Hf. subst avail fan.
  destruct mode; try contradiction; destruct ready, eid; split; reflexivity.
Qed.

(** Why the entity must come from another mode: a mode message ["5"]
    received while the displayed mode already is fan-only queues nothing,
    and a displayed fan speed auto (here set by an inbound ["0"] after the
    correction) stays. *)
Example fan_only_again_queues_nothing :
  let e := example_climate true HVACMode.AUTO "auto" in
  let corrected :=
    ClimateLoop.run_next (ClimateLoop.call (Climate.mode_received "5")
                                           (ClimateLoop.start e)) in
  let l := ClimateLoop.call (Climate.mode_received "5")
             (ClimateLoop.call (Climate.fan_speed_received "0") corrected) in
  Climate._attr_hvac_mode (ClimateLoop.entity l) = HVACMode.FAN_ONLY /\
  Climate._attr_fan_mode (ClimateLoop.entity l) = "auto" /\
  ClimateLoop.pending l = [].
Proof. vm_compute. repeat split. Qed.

(** C3. A set-mode command to fan-only, issued while the entity is
    available, in another mode, with the fan speed on auto, sets the fan
    speed to low inside the same call: ["1"] is published on
    [fan_speed_in] before ["5"] is published on [mode_in], and the
    displayed state ends with mode fan-only and fan low.  On the inbound
    path the displayed state is the same once the queued correction has
    run: on both paths the fan speed ends low, not auto. *)
Theorem fan_only_ends_with_fan_low :
  forall e : Climate.t,
    Base.available e = true ->
    Climate._attr_hvac_mode e <> HVACMode.FAN_ONLY ->
    Climate._attr_fan_mode e = Const.FAN_AUTO ->
    let outbound := Climate.async_set_hvac_mode HVACMode.FAN_ONLY e in
    let inbound :=
      ClimateLoop.run_next
        (ClimateLoop.call (Climate.mode_received "5") (ClimateLoop.start e)) in
    (Eff.outcome_of outbound = Eff.Returned tt /\
     Eff.published (Eff.trace_of outbound) =
       [(Climate.topics e "fan_speed_in", "1"); (Climate.topics e "mode_in", "5")] /\
     Climate._attr_hvac_mode (Eff.state_of outbound) = HVACMode.FAN_ONLY /\
     Climate._attr_fan_mode (Eff.state_of outbound) = Const.FAN_LOW) /\
    (Climate._attr_hvac_mode (ClimateLoop.entity inbound) = HVACMode.FAN_ONLY /\
     Climate._attr_fan_mode (ClimateLoop.entity inbound) = Const.FAN_LOW /\
     ClimateLoop.pending inbound = []) /\
    Const.FAN_LOW <> Const.FAN_AUTO.
Proof.
  intros e Ha Hm Hf outbound inbound. split; [|split].
  - subst outbound. rewrite set_hvac_mode_enters_fan_only by assumption.
    cbn. destruct (write_effect_cases (Climate.base e)) as [-> | ->];
      repeat split.
  - destruct (loop_correction_applied e Ha Hm Hf) as (_ & H2 & H3 & _ & H5).
    subst inbound. repeat split; assumption.
  - discriminate.
Qed.

Lemma fan_only_ends_with_fan_low_witness :
  let e := example_climate true HVACMode.COOL "auto" in
  let outbound := Climate.async_set_hvac_mode HVACMode.FAN_ONLY e in
  let inbound :=
    ClimateLoop.run_next
      (ClimateLoop.call (Climate.mode_received "5") (ClimateLoop.start e)) in
  (Eff.outcome_of outbound = Eff.Returned tt /\
   Eff.published (Eff.trace_of outbound) =
     [(Climate.topics e "fan_speed_in", "1"); (Climate.topics e "mode_in", "5")] /\
   Climate._attr_hvac_mode (Eff.state_of outbound) = HVACMode.FAN_ONLY /\
   Climate._attr_fan_mode (Eff.state_of outbound) = Const.FAN_LOW) /\
  (Climate._attr_hvac_mode (ClimateLoop.entity inbound) = HVACMode.FAN_ONLY /\
   Climate._attr_fan_mode (ClimateLoop.entity inbound) = Const.FAN_LOW /\
   ClimateLoop.pending inbound = []) /\
  Const.FAN_LOW <> Const.FAN_AUTO.
Proof.
  apply (fan_only_ends_with_fan_low (example_climate true HVACMode.COOL "auto")).
  - reflexivity.
  - simpl. discriminate.
  - reflexivity.
Defined.

(** ** Target temperature *)

Lemma round_half_even_cases q :
  (Py.round_half_even q = Qfloor q /\ (q - inject_Z (Qfloor q) <= 1 # 2)%Q) \/
  (Py.round_half_even q = Qfloor q + 1 /\ (1 # 2 <= q - inject_Z (Qfloor q))%Q).
Proof.
  unfold Py.round_half_even.
  destruct (Qcompare (q - inject_Z (Qfloor q)) (1 # 2)) eqn:Hc.
  - apply Qeq_alt in Hc.
    destruct (Z.even (Qfloor q)); [left | right]; split; try reflexivity;
      rewrite Hc; apply Qle_refl.
  - apply Qlt_alt in Hc. left. split; [reflexivity | now apply Qlt_le_weak].
  - apply Qgt_alt in Hc. right. split; [reflexivity | now apply Qlt_le_weak].
Qed.

Lemma round_half_even_nearest q : nearest_integer (Py.round_half_even q) q.
Proof.
  unfold nearest_integer.
  pose proof (Qfloor_le q) as Hlo.
  pose proof (Qlt_floor q) as Hhi.
  rewrite inject_Z_plus in Hhi.
  apply Qabs_Qle_condition.
  destruct (round_half_even_cases q) as [[-> H] | [-> H]].
  - split; lra.
  - rewrite inject_Z_plus. change (inject_Z 1) with 1%Q in *. split; lra.
Qed.

Lemma round_half_even_between q (lo hi : Z) :
  (inject_Z lo <= q)%Q -> (q <= inject_Z hi)%Q ->
  lo <= Py.round_half_even q <= hi.
Proof.
  intros Hlo Hhi.
  pose proof (Qfloor_le q) as Hf.
  pose proof (Qlt_floor q) as Hf'.
  assert (lo <= Qfloor q) as H1.
  { rewrite <- (Qfloor_Z lo). now apply Qfloor_resp_le. }
  assert (Qfloor q <= hi) as H2.
  { rewrite Zle_Qle. lra. }
  rewrite inject_Z_plus in Hf'. change (inject_Z 1) with 1%Q in Hf'.
  destruct (round_half_even_cases q) as [[-> H] | [-> H]]; [lia|].
  split; [lia|].
  destruct (Z.eq_dec (Qfloor q) hi) as [Heq|Hne]; [|lia].
  exfalso. rewrite Heq in H. lra.
Qed.

Lemma nearest_integer_clamp (n : Z) (q c : Q) :
  (c == clamp q)%Q -> (- (1 # 2) <= inject_Z n - c <= 1 # 2)%Q ->
  nearest_integer n (clamp q).
Proof.
  intros Hc H. unfold nearest_integer. apply Qabs_Qle_condition.
  rewrite <- Hc. exact H.
Qed.

Lemma clamp_cases q :
  ((q <= 16)%Q /\ (clamp q == 16)%Q) \/
  ((16 <= q <= 30)%Q /\ (clamp q == q)%Q) \/
  ((30 <= q)%Q /\ (clamp q == 30)%Q).
Proof.
  unfold clamp, Const.TEMP_MIN, Const.TEMP_MAX.
  change (inject_Z 16) with 16%Q. change (inject_Z 30) with 30%Q.
  destruct (Q.min_spec 30 q) as [[H1 E1] | [H1 E1]];
    destruct (Q.max_spec 16 (Qmin 30 q)) as [[H2 E2] | [H2 E2]];
    rewrite E2; rewrite ?E1 in *.
  - right. right. split; [lra | reflexivity].
  - exfalso. lra.
  - right. left. split; [lra | reflexivity].
  - left. split; [lra | reflexivity].
Qed.

Lemma clamp_round (requested : Py.pynum) (q : Q) :
  Py.to_float requested = Py.Finite q ->
  exists n : Z,
    Py.int_round
      (Py.max2 (Py.PInt Climate._attr_min_temp)
               (Py.min2 (Py.PInt Climate._attr_max_temp) requested)) = inr n /\
    nearest_integer n (clamp q) /\
    Const.TEMP_MIN <= n <= Const.TEMP_MAX.
Proof.
  intros Hq.
  unfold Py.max2, Py.min2, Py.gt, Py.lt, Climate._attr_max_temp, Climate._attr_min_temp,
    Const.TEMP_MIN, Const.TEMP_MAX.
  rewrite Hq. cbn [Py.to_float Py.float_lt].
  change (inject_Z 16) with 16%Q. change (inject_Z 30) with 30%Q.
  destruct (Qle_bool 30 q) eqn:Hmax; cbn [negb].
  - (* at or above the maximum: the int 30 *)
    apply Qle_bool_iff in Hmax.
    exists 30. split; [reflexivity|]. split; [|lia].
    destruct (clamp_cases q) as [[H E] | [[H E] | [H E]]];
      apply (nearest_integer_clamp 30 q _ (Qeq_sym _ _ E));
      change (inject_Z 30) with 30%Q; lra.
  - assert (q < 30)%Q as Hlt.
    { apply Qnot_le_lt. intros H. apply Qle_bool_iff in H. congruence. }
    rewrite Hq. cbn [Py.float_lt].
    destruct (Qle_bool q 16) eqn:Hmin; cbn [negb].
    + (* at or below the minimum: the int 16 *)
      apply Qle_bool_iff in Hmin.
      exists 16. split; [reflexivity|]. split; [|lia].
      destruct (clamp_cases q) as [[H E] | [[H E] | [H E]]];
        apply (nearest_integer_clamp 16 q _ (Qeq_sym _ _ E));
        change (inject_Z 16) with 16%Q; lra.
    + (* strictly inside: the requested value, rounded *)
      assert (16 < q)%Q as Hgt.
      { apply Qnot_le_lt. intros H. apply Qle_bool_iff in H. congruence. }
      assert (clamp q == q)%Q as E.
      { destruct (clamp_cases q) as [[H E] | [[H E] | [H E]]];
          [exfalso; lra | exact E | exfalso; lra]. }
      destruct requested as [z | f]; cbn in Hq.
      * injection Hq as <-. exists z. split; [reflexivity|]. split.
        -- apply (nearest_integer_clamp z _ _ (Qeq_sym _ _ E)). lra.
        -- change 16%Q with (inject_Z 16) in Hgt. change 30%Q with (inject_Z 30) in Hlt.
           rewrite <- Zlt_Qlt in Hlt, Hgt. lia.
      * subst f. exists (Py.round_half_even q). split; [reflexivity|]. split.
        -- apply (nearest_integer_clamp _ _ _ (Qeq_sym _ _ E)).
           apply Qabs_Qle_condition. apply round_half_even_nearest.
        -- apply round_half_even_between;
             [change (inject_Z 16) with 16%Q | change (inject_Z 30) with 30%Q]; lra.
Qed.

(** What the set-temperature command does once the value is rounded. *)
Lemma set_temperature_step (e : Climate.t) (requested : Py.pynum) (n : Z) :
  Base.available e = true ->
  Py.int_round
    (Py.max2 (Py.PInt Climate._attr_min_temp)
             (Py.min2 (Py.PInt Climate._attr_max_temp) requested)) = inr n ->
  Climate.async_set_temperature (Some requested) e =
    (Eff.Returned tt,
     Climate.with_target_temperature (Py.PInt n) e,
     [Eff.Publish (Climate.topics e "temp_comfort_in") (Py.str n) 0 false;
      write_effect (Climate.base e);
      Eff.Log Eff.INFO "Установлена целевая температура: %s°C"]).
Proof.
  intros Ha Hround.
  unfold Climate.async_set_temperature, Eff.bind, Eff.get. cbv beta iota zeta.
  rewrite Ha. cbn [negb]. rewrite Hround.
  destruct e as [[dev entry avail ready subs eid] mode fan swing cur tgt act prev need].
  destruct ready, eid; reflexivity.
Qed.

(** C7. For every requested target temperature (an int or a finite
    float), the set-temperature command of an available climate entity
    publishes, on [temp_comfort_in], the decimal string of an integer that
    lies in [16, 30] and is nearest to the requested value clamped to
    [16, 30]; the displayed target becomes that integer, not the raw
    request.  In particular a request of 35 publishes ["30"] and
    displays 30. *)
Theorem set_temperature_clamps_and_rounds :
  forall e : Climate.t,
    Base.available e = true ->
    (forall (requested : Py.pynum) (q : Q),
        Py.to_float requested = Py.Finite q ->
        exists n : Z,
          nearest_integer n (clamp q) /\
          Const.TEMP_MIN <= n <= Const.TEMP_MAX /\
          Climate.async_set_temperature (Some requested) e =
            (Eff.Returned tt,
             Climate.with_target_temperature (Py.PInt n) e,
             [Eff.Publish (Climate.topics e "temp_comfort_in") (Py.str n) 0 false;
              write_effect (Climate.base e);
              Eff.Log Eff.INFO "Установлена целевая температура: %s°C"])) /\
    (forall requested,
        requested = Py.PInt 35 \/ requested = Py.PFloat (Py.Finite 35) ->
        let r := Climate.async_set_temperature (Some requested) e in
        Eff.published (Eff.trace_of r) = [(Climate.topics e "temp_comfort_in", "30")] /\
        Climate._attr_target_temperature (Eff.state_of r) = Py.PInt 30).
Proof.
  intros e Ha. split.
  - intros requested q Hq.
    destruct (clamp_round requested q Hq) as (n & Hround & Hnear & Hrange).
    exists n. repeat split; try assumption; try lia.
    now apply set_temperature_step.
  - intros requested Hreq r. subst r.
    rewrite (set_temperature_step e requested 30 Ha)
      by (destruct Hreq as [-> | ->]; reflexivity).
    cbn. destruct (write_effect_cases (Climate.base e)) as [-> | ->];
      split; reflexivity.
Qed.

Lemma set_temperature_clamps_and_rounds_witness :
  let e := example_climate true HVACMode.COOL "auto" in
  (forall (requested : Py.pynum) (q : Q),
      Py.to_float requested = Py.Finite q ->
      exists n : Z,
        nearest_integer n (clamp q) /\
        Const.TEMP_MIN <= n <= Const.TEMP_MAX /\
        Climate.async_set_temperature (Some requested) e =
          (Eff.Returned tt,
           Climate.with_target_temperature (Py.PInt n) e,
           [Eff.Publish (Climate.topics e "temp_comfort_in") (Py.str n) 0 false;
            write_effect (Climate.base e);
            Eff.Log Eff.INFO "Установлена целевая температура: %s°C"])) /\
  (forall requested,
      requested = Py.PInt 35 \/ requested = Py.PFloat (Py.Finite 35) ->
      let r := Climate.async_set_temperature (Some requested) e in
      Eff.published (Eff.trace_of r) = [(Climate.topics e "temp_comfort_in", "30")] /\
      Climate._attr_target_temperature (Eff.state_of r) = Py.PInt 30).
Proof.
  exact (set_temperature_clamps_and_rounds
           (example_climate true HVACMode.COOL "auto") eq_refl).
Defined.

(** The scenario of the specification, run: a request of 35, and one of
    20.5 (a tie, which goes to the even neighbour). *)
Example set_temperature_35 :
  let r := Climate.async_set_temperature (Some (Py.PInt 35))
             (example_climate true HVACMode.COOL "auto") in
  Eff.published (Eff.trace_of r) = [("1cdbd4cbcc74/temperature_comfort/in", "30")] /\
  Climate._attr_target_temperature (Eff.state_of r) = Py.PInt 30.
Proof. vm_compute. split; reflexivity. Qed.

Example set_temperature_tie :
  let r := Climate.async_set_temperature (Some (Py.PFloat (Py.Finite (41 # 2))))
             (example_climate true HVACMode.COOL "auto") in
  Eff.published (Eff.trace_of r) = [("1cdbd4cbcc74/temperature_comfort/in", "20")] /\
  Climate._attr_target_temperature (Eff.state_of r) = Py.PInt 20.
Proof. vm_compute. split; reflexivity. Qed.

(** A request that is not finite is clamped too: NaN and +inf give 30,
    -inf gives 16; the command never raises. *)
Lemma set_temperature_not_finite (e : Climate.t) :
  Base.available e = true ->
  Climate._attr_target_temperature
    (Eff.state_of (Climate.async_set_temperature (Some (Py.PFloat Py.NaN)) e))
    = Py.PInt 30 /\
  Climate._attr_target_temperature
    (Eff.state_of (Climate.async_set_temperature (Some (Py.PFloat Py.PosInf)) e))
    = Py.PInt 30 /\
  Climate._attr_target_temperature
    (Eff.state_of (Climate.async_set_temperature (Some (Py.PFloat Py.NegInf)) e))
    = Py.PInt 16.
Proof.
  intros Ha.
  rewrite !(set_temperature_step e _ 30 Ha) by reflexivity.
  rewrite (set_temperature_step e _ 16 Ha) by reflexivity.
  repeat split.
Qed.

(** ** Malformed inbound payloads *)

(** The sensor, on a payload that [float] rejects. *)
Lemma sensor_unparseable (builtins : Builtins) (payload : string) (s : Sensor.t) :
  Base.available s = true ->
  float payload = None ->
  Sensor.message_received payload s =
    (Returned tt,
     Sensor.with_native_value None s,
     [Log DEBUG "Сенсор '%s' получил сообщение: %s";
      Log WARNING "Некорректное значение температуры для '%s': %s. Ошибка: %s";
      write_effect (Sensor.base s)]).
Proof.
  intros Ha Hf.
  unfold Sensor.message_received, bind, get. cbv beta iota zeta.
  rewrite Ha. cbn [negb].
  unfold try_except_value_type, log, emit. rewrite Hf.
  destruct s as [[dev entry avail ready subs eid] topic kind is_target value].
  destruct ready, eid; reflexivity.
Qed.

(** The selectors and the switch, on a payload outside their tables. *)
Lemma mode_select_unknown (payload : string) (m : ModeSelect.t) :
  Dict.get Const.MODE_SELECT_OPTIONS payload = None ->
  Eff.outcome_of (ModeSelect.message_received payload m) = Returned tt /\
  Eff.state_of (ModeSelect.message_received payload m) = m.
Proof.
  intros Hget.
  unfold ModeSelect.message_received, bind, get. cbv beta iota zeta.
  destruct (negb (Base.available m)); [split; reflexivity|].
  unfold log, emit. rewrite Hget. split; reflexivity.
Qed.

Lemma switch_unknown (payload : string) (w : Switch.t) :
  payload <> Const.BLINDS_ON -> payload <> Const.BLINDS_OFF ->
  Eff.outcome_of (Switch.message_received payload w) = Returned tt /\
  Eff.state_of (Switch.message_received payload w) = w.
Proof.
  intros Hon Hoff.
  unfold Switch.message_received, bind, get. cbv beta iota zeta.
  destruct (negb (Base.available w)); [split; reflexivity|].
  destruct (String.eqb_spec payload Const.BLINDS_ON); [contradiction|].
  destruct (String.eqb_spec payload Const.BLINDS_OFF); [contradiction|].
  destruct w as [[dev entry avail ready subs eid] tin tout st].
  destruct ready, eid; split; reflexivity.
Qed.

Lemma fan_select_unknown (payload : string) (f : FanSpeedSelect.t) :
  Dict.get Const.FAN_SELECT_OPTIONS payload = None ->
  Eff.outcome_of (FanSpeedSelect.message_received payload f) = Returned tt /\
  Eff.state_of (FanSpeedSelect.message_received payload f) = f.
Proof.
  intros Hget.
  unfold FanSpeedSelect.message_received, bind, get. cbv beta iota zeta.
  destruct (negb (Base.available f)); [split; reflexivity|].
  unfold log, emit. rewrite Hget. split; reflexivity.
Qed.

(** C8. On an inbound payload that cannot be parsed, a temperature sensor
    that is available sets its displayed value to unknown, returns
    normally (no exception) and logs a warning; a mode selector, a
    fan-speed selector and the louvre switch given a payload outside their
    tables keep the prior displayed value (the entity is unchanged). *)
Theorem malformed_payload_policy :
  forall (builtins : Builtins)
         (payload_s payload_m payload_f payload_w : string)
         (s : Sensor.t) (m : ModeSelect.t) (f : FanSpeedSelect.t) (w : Switch.t),
    Base.available s = true ->
    float payload_s = None ->
    Dict.get Const.MODE_SELECT_OPTIONS payload_m = None ->
    Dict.get Const.FAN_SELECT_OPTIONS payload_f = None ->
    payload_w <> Const.BLINDS_ON ->
    payload_w <> Const.BLINDS_OFF ->
    (Eff.outcome_of (Sensor.message_received payload_s s) = Returned tt /\
     Sensor._attr_native_value (Eff.state_of (Sensor.message_received payload_s s))
       = None /\
     (exists message,
         In (Log WARNING message)
            (Eff.trace_of (Sensor.message_received payload_s s)))) /\
    (Eff.outcome_of (ModeSelect.message_received payload_m m) = Returned tt /\
     Eff.state_of (ModeSelect.message_received payload_m m) = m) /\
    (Eff.outcome_of (FanSpeedSelect.message_received payload_f f) = Returned tt /\
     Eff.state_of (FanSpeedSelect.message_received payload_f f) = f) /\
    (Eff.outcome_of (Switch.message_received payload_w w) = Returned tt /\
     Eff.state_of (Switch.message_received payload_w w) = w).
Proof.
  intros builtins payload_s payload_m payload_f payload_w s m f w
         Ha Hfloat Hmode Hfan Hon Hoff.
  split; [|split; [|split]].
  - rewrite (sensor_unparseable builtins payload_s s Ha Hfloat). cbn.
    repeat split. eexists. right. left. reflexivity.
  - now apply mode_select_unknown.
  - now apply fan_select_unknown.
  - now apply switch_unknown.
Qed.

(** The scenario of the specification: payload ["abc"] on [temp_out]. *)
Lemma malformed_payload_policy_witness :
  let s := example_sensor true false in
  let m := example_mode_select true in
  let f := example_fan_select true in
  let w := example_switch true in
  (Eff.outcome_of
     (Sensor.message_received (builtins := reference_builtins) "abc" s) = Returned tt /\
   Sensor._attr_native_value
     (Eff.state_of (Sensor.message_received (builtins := reference_builtins) "abc" s))
     = None /\
   (exists message,
       In (Log WARNING message)
          (Eff.trace_of (Sensor.message_received (builtins := reference_builtins) "abc" s)))) /\
  (Eff.outcome_of (ModeSelect.message_received "abc" m) = Returned tt /\
   Eff.state_of (ModeSelect.message_received "abc" m) = m) /\
  (Eff.outcome_of (FanSpeedSelect.message_received "abc" f) = Returned tt /\
   Eff.state_of (FanSpeedSelect.message_received "abc" f) = f) /\
  (Eff.outcome_of (Switch.message_received "abc" w) = Returned tt /\
   Eff.state_of (Switch.message_received "abc" w) = w).
Proof.
  apply (malformed_payload_policy reference_builtins "abc" "abc" "abc" "abc"
           (example_sensor true false) (example_mode_select true)
           (example_fan_select true) (example_switch true)).
  - reflexivity.
  - reflexivity.
  - reflexivity.
  - reflexivity.
  - discriminate.
  - discriminate.
Defined.

(** The climate entity is not a sensor: on a payload that [float] rejects
    its two temperature callbacks only log a warning. *)
Lemma climate_temperature_unparseable (builtins : Builtins) payload (c : Climate.t) :
  Base.available c = true ->
  float payload = None ->
  Climate.temperature_received payload c =
    (Returned tt, c, [Log WARNING "Некорректное значение температуры: %s"]) /\
  Climate.target_temperature_received payload c =
    (Returned tt, c, [Log WARNING "Некорректное значение целевой температуры: %s"]).
Proof.
  intros Ha Hf.
  unfold Climate.temperature_received, Climate.target_temperature_received,
    bind, get, try_except_value, log, emit.
  cbv beta iota zeta. rewrite Ha, Hf. split; reflexivity.
Qed.

(** A payload that parses but cannot be rounded: NaN is a [ValueError]
    (the target sensor shows unknown), an infinity is an [OverflowError]
    that the callback does not catch. *)
Example sensor_target_not_a_number :
  let s := example_sensor true true in
  Sensor._attr_native_value
    (Eff.state_of (Sensor.message_received (builtins := reference_builtins) "nan" s))
    = None /\
  Eff.outcome_of (Sensor.message_received (builtins := reference_builtins) "inf" s)
    = Raised Py.OverflowError /\
  Sensor._attr_native_value
    (Eff.state_of (Sensor.message_received (builtins := reference_builtins) "21.5" s))
    = Some (Py.PInt 22).
Proof. vm_compute. repeat split. Qed.

(** ** The range of the displayed target temperature *)

Lemma integer_in_range_int (n : Z) :
  Const.TEMP_MIN <= n <= Const.TEMP_MAX -> integer_in_range (Py.PInt n) = true.
Proof.
  intros [Hlo Hhi]. unfold integer_in_range. cbn [Py.to_float].
  rewrite Qfloor_Z.
  rewrite !andb_true_iff. repeat split.
  - apply Qeq_bool_iff. reflexivity.
  - apply Qle_bool_iff. now rewrite <- Zle_Qle.
  - apply Qle_bool_iff. now rewrite <- Zle_Qle.
Qed.

Lemma set_temperature_in_range (c : Climate.t) (requested : option Py.pynum) :
  integer_in_range (Climate._attr_target_temperature c) = true ->
  integer_in_range
    (Climate._attr_target_temperature
       (Eff.state_of (Climate.async_set_temperature requested c))) = true.
Proof.
  intros Hok.
  destruct (Base.available c) eqn:Ha.
  - destruct requested as [t|].
    + destruct (Py.to_float t) as [q| | |] eqn:Hq.
      * destruct (clamp_round t q Hq) as (n & Hround & _ & Hrange).
        rewrite (set_temperature_step c t n Ha Hround). cbn.
        now apply integer_in_range_int.
      * destruct t as [z|f]; [discriminate|]. cbn in Hq. subst f.
        rewrite (set_temperature_step c _ 30 Ha) by reflexivity. reflexivity.
      * destruct t as [z|f]; [discriminate|]. cbn in Hq. subst f.
        rewrite (set_temperature_step c _ 16 Ha) by reflexivity. reflexivity.
      * destruct t as [z|f]; [discriminate|]. cbn in Hq. subst f.
        rewrite (set_temperature_step c _ 30 Ha) by reflexivity. reflexivity.
    + unfold Climate.async_set_temperature, bind, get. cbv beta iota zeta.
      rewrite Ha. exact Hok.
  - assert (dropped_with_warning (Climate.async_set_temperature requested) c) as [msg ->].
    { unfold Climate.async_set_temperature. now apply guarded_command. }
    exact Hok.
Qed.

Lemma number_set_native_value_in_range (n : Number.t) (value : Py.pynum) :
  Const.TEMP_MIN <= Number._attr_native_value n <= Const.TEMP_MAX ->
  Const.TEMP_MIN
  <= Number._attr_native_value (Eff.state_of (Number.async_set_native_value value n))
  <= Const.TEMP_MAX.
Proof.
  intros Hok.
  unfold Number.async_set_native_value, bind, get, try_except_reraise.
  cbv beta iota zeta.
  destruct n as [[dev entry avail ready subs eid] tr tw v]. cbn in Hok |- *.
  destruct avail; cbn; [|exact Hok].
  destruct (Py.int_round value) as [e | k]; cbn; [exact Hok|].
  destruct (k <? Const.TEMP_MIN) eqn:Hlo; cbn; [exact Hok|].
  destruct (k >? Const.TEMP_MAX) eqn:Hhi; cbn; [exact Hok|].
  apply Z.ltb_ge in Hlo. rewrite Z.gtb_ltb in Hhi. apply Z.ltb_ge in Hhi.
  destruct ready, eid; cbn; lia.
Qed.

Lemma number_message_received_in_range (builtins : Builtins) (n : Number.t) payload :
  Const.TEMP_MIN <= Number._attr_native_value n <= Const.TEMP_MAX ->
  Const.TEMP_MIN
  <= Number._attr_native_value (Eff.state_of (Number.message_received payload n))
  <= Const.TEMP_MAX.
Proof.
  intros Hok.
  unfold Number.message_received, bind, get, try_except_value_type.
  cbv beta iota zeta.
  destruct n as [[dev entry avail ready subs eid] tr tw v]. cbn in Hok |- *.
  destruct avail; cbn; [|exact Hok].
  destruct (float payload) as [t|]; cbn; [|exact Hok].
  destruct t as [q| | |]; cbn; try exact Hok.
  destruct (Const.TEMP_MIN <=? Py.round_half_even q) eqn:Hlo; cbn; [|exact Hok].
  destruct (Py.round_half_even q <=? Const.TEMP_MAX) eqn:Hhi; cbn; [|exact Hok].
  apply Z.leb_le in Hlo, Hhi.
  destruct ready, eid; cbn; lia.
Qed.

(** What the climate entity's inbound callback stores. *)
Lemma climate_target_received_stores (builtins : Builtins) payload t (c : Climate.t) :
  Base.available c = true ->
  float payload = Some t ->
  Climate._attr_target_temperature
    (Eff.state_of (Climate.target_temperature_received payload c)) = Py.PFloat t.
Proof.
  intros Ha Hf.
  unfold Climate.target_temperature_received, bind, get, try_except_value.
  cbv beta iota zeta. rewrite Ha, Hf.
  destruct c as [[dev entry avail ready subs eid] mode fan swing cur tgt act prev need].
  destruct ready, eid; reflexivity.
Qed.

(** C5, as the code has it.  The displayed target temperature is an
    integer of [16, 30] when the climate and the number entity are
    created, it stays one across every outbound target-temperature command
    (the climate entity's set-temperature, the number's set-value) and
    across every inbound update handled by the number entity. *)
Theorem target_temperature_in_range :
  forall (builtins : Builtins) (c : Climate.t) (n : Number.t)
         (requested : option Py.pynum) (value : Py.pynum) (payload : string),
    integer_in_range (Climate._attr_target_temperature c) = true ->
    Const.TEMP_MIN <= Number._attr_native_value n <= Const.TEMP_MAX ->
    integer_in_range
      (Climate._attr_target_temperature
         (Eff.state_of (Climate.async_set_temperature requested c))) = true /\
    Const.TEMP_MIN
    <= Number._attr_native_value (Eff.state_of (Number.async_set_native_value value n))
    <= Const.TEMP_MAX /\
    Const.TEMP_MIN
    <= Number._attr_native_value (Eff.state_of (Number.message_received payload n))
    <= Const.TEMP_MAX /\
    (forall device_id entry_id,
        integer_in_range
          (Climate._attr_target_temperature (Climate.init device_id entry_id)) = true /\
        Const.TEMP_MIN
        <= Number._attr_native_value (Number.setup_entry device_id entry_id)
        <= Const.TEMP_MAX).
Proof.
  intros builtins c n requested value payload Hc Hn.
  split; [|split; [|split]].
  - now apply set_temperature_in_range.
  - now apply number_set_native_value_in_range.
  - now apply number_message_received_in_range.
  - intros device_id entry_id. split; [reflexivity|].
    unfold Number.setup_entry, Number.init, Const.TEMP_MIN, Const.TEMP_MAX.
    cbn. unfold Const.TEMP_DEFAULT. lia.
Qed.

Lemma target_temperature_in_range_witness :
  let c := example_climate true HVACMode.COOL "auto" in
  let n := example_number true in
  integer_in_range
    (Climate._attr_target_temperature
       (Eff.state_of
          (Climate.async_set_temperature (Some (Py.PFloat (Py.Finite (71 # 2)))) c)))
    = true /\
  Const.TEMP_MIN
  <= Number._attr_native_value
       (Eff.state_of (Number.async_set_native_value (Py.PInt 35) n))
  <= Const.TEMP_MAX /\
  Const.TEMP_MIN
  <= Number._attr_native_value
       (Eff.state_of (Number.message_received (builtins := reference_builtins) "35" n))
  <= Const.TEMP_MAX /\
  (forall device_id entry_id,
      integer_in_range
        (Climate._attr_target_temperature (Climate.init device_id entry_id)) = true /\
      Const.TEMP_MIN
      <= Number._attr_native_value (Number.setup_entry device_id entry_id)
      <= Const.TEMP_MAX).
Proof.
  apply (target_temperature_in_range reference_builtins
           (example_climate true HVACMode.COOL "auto") (example_number true)
           (Some (Py.PFloat (Py.Finite (71 # 2)))) (Py.PInt 35) "35").
  - reflexivity.
  - unfold Const.TEMP_MIN, Const.TEMP_MAX. simpl. lia.
Defined.

(** C5, as stated, fails on the inbound path of the climate entity and
    of the target-temperature sensor.  [target_temperature_received]
    stores [float(payload)] as it is, so an inbound ["35"] displays 35.0
    (outside [16, 30]) and an inbound ["20.5"] displays 20.5 (not an
    integer), from a state that was in range; the sensor rounds but does
    not check the range, and displays 35. *)
Lemma climate_inbound_target_out_of_range :
  let c := example_climate true HVACMode.COOL "auto" in
  let after payload :=
    Climate._attr_target_temperature
      (Eff.state_of
         (Climate.target_temperature_received (builtins := reference_builtins) payload c)) in
  let sensor_after payload :=
    Sensor._attr_native_value
      (Eff.state_of
         (Sensor.message_received (builtins := reference_builtins) payload
            (example_sensor true true))) in
  integer_in_range (Climate._attr_target_temperature c) = true /\
  after "35" = Py.PFloat (Py.Finite (35 # 1)) /\
  integer_in_range (after "35") = false /\
  after "20.5" = Py.PFloat (Py.Finite (41 # 2)) /\
  integer_in_range (after "20.5") = false /\
  sensor_after "35" = Some (Py.PInt 35) /\
  integer_in_range (Py.PInt 35) = false.
Proof. vm_compute. repeat split. Qed.

(** ** The availability manager *)

Lemma notify_all_trace (entities : list nat) (new_available : bool) (m : Manager.t) :
  Manager.notify_all entities new_available m =
    (Returned tt, m,
     map (fun entity => CreateTask (OnAvailabilityChanged entity new_available)) entities).
Proof.
  induction entities as [|entity rest IH]; [reflexivity|].
  cbn [Manager.notify_all map]. unfold bind, emit. rewrite IH. reflexivity.
Qed.

Lemma created_tasks_map (entities : list nat) (b : bool) :
  created_tasks (map (fun entity => CreateTask (OnAvailabilityChanged entity b)) entities)
  = map (fun entity => OnAvailabilityChanged entity b) entities.
Proof. induction entities as [|x l IH]; [reflexivity|]. cbn. now rewrite IH. Qed.

(** One connectivity message: nothing but a debug line when the payload
    agrees with the flag, otherwise the flag is set and one task per
    registered entity is created. *)
Lemma availability_received_step (payload : string) (m : Manager.t) :
  Manager.availability_received payload m =
    let new_available := (payload =? Const.CONNECTED_ONLINE)%string in
    if Bool.eqb new_available (Manager._available m)
    then (Returned tt, m, [Log DEBUG "Устройство %s: получен статус доступности: %s"])
    else (Returned tt, Manager.with_available new_available m,
          Log DEBUG "Устройство %s: получен статус доступности: %s"
          :: Log INFO "Устройство %s перешло в статус: %s"
          :: map (fun entity => CreateTask (OnAvailabilityChanged entity new_available))
                 (Manager._entities m)).
Proof.
  unfold Manager.availability_received, bind, get, log, emit, when, modify.
  cbv beta iota zeta.
  destruct (Bool.eqb _ _); cbn [negb]; [reflexivity|].
  rewrite notify_all_trace. reflexivity.
Qed.

(** C1, as the code has it.  A connectivity message whose payload is not
    the online sentinel ["1"] is handled as the offline sentinel is: the
    flag ends false; if it was true every registered entity is notified
    once (one [on_availability_changed(False)] task each, in registration
    order); if it was already false the manager is unchanged and nobody is
    notified. *)
Theorem payload_other_than_online_is_offline :
  forall (payload : string) (m : Manager.t),
    payload <> Const.CONNECTED_ONLINE ->
    let r := Manager.availability_received payload m in
    Eff.outcome_of r = Returned tt /\
    Manager._available (Eff.state_of r) = false /\
    Manager._entities (Eff.state_of r) = Manager._entities m /\
    created_tasks (Eff.trace_of r) =
      (if Manager._available m
       then map (fun entity => OnAvailabilityChanged entity false) (Manager._entities m)
       else []) /\
    (Manager._available m = false -> Eff.state_of r = m).
Proof.
  intros payload m Hne r. subst r.
  rewrite availability_received_step. cbv zeta.
  destruct (String.eqb_spec payload Const.CONNECTED_ONLINE) as [Heq|_];
    [contradiction|].
  destruct m as [dev entry avail entities topic].
  destruct avail; cbn; rewrite ?created_tasks_map; repeat split.
  intros Habs. discriminate Habs.
Qed.

Lemma payload_other_than_online_is_offline_witness :
  let m := example_manager true in
  let r := Manager.availability_received "0" m in
  Eff.outcome_of r = Returned tt /\
  Manager._available (Eff.state_of r) = false /\
  Manager._entities (Eff.state_of r) = Manager._entities m /\
  created_tasks (Eff.trace_of r) =
    (if Manager._available m
     then map (fun entity => OnAvailabilityChanged entity false) (Manager._entities m)
     else []) /\
  (Manager._available m = false -> Eff.state_of r = m).
Proof.
  apply (payload_other_than_online_is_offline "0" (example_manager true)).
  discriminate.
Defined.

(** C1, as stated, fails: a payload that is neither ["1"] nor ["0"] is not
    ignored by a manager whose flag is true.  The flag goes to false and
    every registered entity is notified; the climate entity that runs the
    notification loses its subscriptions and its measured temperature. *)
Lemma unknown_payload_marks_device_offline :
  let m := example_manager true in
  let r := Manager.availability_received "abc" m in
  let c := example_climate true HVACMode.COOL "high" in
  let l := ClimateLoop.run_next (ClimateLoop.mk c (created_tasks (Eff.trace_of r)) []) in
  Manager._available m = true /\
  Manager._available (Eff.state_of r) = false /\
  created_tasks (Eff.trace_of r) =
    [OnAvailabilityChanged 0 false; OnAvailabilityChanged 1 false;
     OnAvailabilityChanged 2 false] /\
  Base.available c = true /\
  Base.available (ClimateLoop.entity l) = false /\
  Climate._attr_current_temperature c = Some (Py.PFloat (Py.Finite (47 # 2))) /\
  Climate._attr_current_temperature (ClimateLoop.entity l) = None /\
  length (unsubscribed (ClimateLoop.history l)) = 5%nat.
Proof. vm_compute. repeat split. Qed.

(** X3. The same connectivity payload delivered twice in a row: the
    second delivery changes nothing and notifies nobody. *)
Lemma repeated_sentinel_is_idempotent (payload : string) (m : Manager.t) :
  let r1 := Manager.availability_received payload m in
  let r2 := Manager.availability_received payload (Eff.state_of r1) in
  Eff.state_of r2 = Eff.state_of r1 /\ created_tasks (Eff.trace_of r2) = [].
Proof.
  cbv zeta. rewrite !availability_received_step. cbv zeta.
  destruct m as [dev entry avail entities topic].
  destruct (payload =? Const.CONNECTED_ONLINE)%string, avail; cbn; split; reflexivity.
Qed.

(** The online sentinel on a false flag sets it and notifies every
    registered entity once. *)
Lemma online_sentinel_notifies_once (m : Manager.t) :
  Manager._available m = false ->
  let r := Manager.availability_received Const.CONNECTED_ONLINE m in
  Manager._available (Eff.state_of r) = true /\
  created_tasks (Eff.trace_of r) =
    map (fun entity => OnAvailabilityChanged entity true) (Manager._entities m).
Proof.
  intros Hoff. cbv zeta. rewrite availability_received_step. cbv zeta.
  destruct m as [dev entry avail entities topic]. cbn in Hoff. subst avail.
  cbn. rewrite created_tasks_map. split; reflexivity.
Qed.

(** ** Going unavailable *)

(** After the record is opened: the flag was true, the two cases of
    [safe_async_write_ha_state], and the trace put in the shape of
    [unavailable_trace]. *)
Ltac run_unavailable Ha ready eid :=
  cbn in Ha; subst; unfold unavailable_trace, went_offline;
  destruct ready, eid; cbn; rewrite ?app_nil_r, <- ?app_assoc; repeat split.

Lemma climate_goes_unavailable (c : Climate.t) :
  Base.available c = true ->
  let r := Base.on_availability_changed false c in
  Eff.outcome_of r = Returned tt /\
  Eff.trace_of r =
    unavailable_trace "Сбрасываем состояние климат-сущности" (Climate.base c) /\
  Climate.base (Eff.state_of r) = went_offline (Climate.base c) /\
  Climate._attr_current_temperature (Eff.state_of r) = None /\
  Climate._current_hvac_action (Eff.state_of r) = HVACAction.OFF /\
  Climate._need_fan_auto_correction (Eff.state_of r) = false.
Proof.
  intros Ha.
  destruct c as [[dev entry avail ready subs eid] mode fan swing cur tgt act prev need].
  run_unavailable Ha ready eid.
Qed.

Lemma number_goes_unavailable (n : Number.t) :
  Base.available n = true ->
  let r := Base.on_availability_changed false n in
  Eff.outcome_of r = Returned tt /\
  Eff.trace_of r =
    unavailable_trace "Сбрасываем состояние числовой сущности" (Number.base n) /\
  Number.base (Eff.state_of r) = went_offline (Number.base n) /\
  Number._attr_native_value (Eff.state_of r) = Const.TEMP_DEFAULT.
Proof.
  intros Ha.
  destruct n as [[dev entry avail ready subs eid] tr tw v].
  run_unavailable Ha ready eid.
Qed.

Lemma sensor_goes_unavailable (s : Sensor.t) :
  Base.available s = true ->
  let r := Base.on_availability_changed false s in
  Eff.outcome_of r = Returned tt /\
  Eff.trace_of r =
    unavailable_trace "Сбрасываем состояние сенсора %s" (Sensor.base s) /\
  Sensor.base (Eff.state_of r) = went_offline (Sensor.base s) /\
  Sensor._attr_native_value (Eff.state_of r) = None.
Proof.
  intros Ha.
  destruct s as [[dev entry avail ready subs eid] topic kind is_target value].
  run_unavailable Ha ready eid.
Qed.

Lemma mode_select_goes_unavailable (m : ModeSelect.t) :
  Base.available m = true ->
  let r := Base.on_availability_changed false m in
  Eff.outcome_of r = Returned tt /\
  Eff.trace_of r =
    unavailable_trace "Сбрасываем состояние селектора режима" (ModeSelect.base m) /\
  ModeSelect.base (Eff.state_of r) = went_offline (ModeSelect.base m) /\
  ModeSelect._current_mode_mqtt (Eff.state_of r) = "0" /\
  ModeSelect._attr_current_option (Eff.state_of r) = "Выключено".
Proof.
  intros Ha.
  destruct m as [[dev entry avail ready subs eid] tr tw icon opt code].
  run_unavailable Ha ready eid.
Qed.

Lemma fan_select_goes_unavailable (f : FanSpeedSelect.t) :
  Base.available f = true ->
  let r := Base.on_availability_changed false f in
  Eff.outcome_of r = Returned tt /\
  Eff.trace_of r =
    unavailable_trace "Сбрасываем состояние селектора скорости" (FanSpeedSelect.base f) /\
  FanSpeedSelect.base (Eff.state_of r) = went_offline (FanSpeedSelect.base f) /\
  FanSpeedSelect._current_fan_speed_mqtt (Eff.state_of r) = "0" /\
  FanSpeedSelect._attr_current_option (Eff.state_of r) = "Авто".
Proof.
  intros Ha.
  destruct f as [[dev entry avail ready subs eid] tr tw icon opt code].
  run_unavailable Ha ready eid.
Qed.

Lemma switch_goes_unavailable (w : Switch.t) :
  Base.available w = true ->
  let r := Base.on_availability_changed false w in
  Eff.outcome_of r = Returned tt /\
  Eff.trace_of r =
    unavailable_trace "Сбрасываем состояние переключателя жалюзи" (Switch.base w) /\
  Switch.base (Eff.state_of r) = went_offline (Switch.base w) /\
  Switch._state (Eff.state_of r) = false.
Proof.
  intros Ha.
  destruct w as [[dev entry avail ready subs eid] tin tout st].
  run_unavailable Ha ready eid.
Qed.

(** C4, as the code has it.  An entity whose availability flag goes from
    true to false first cancels every recorded subscription and clears
    the record, then runs the reset of its kind, then attempts a state
    write.  The reset gives: temperature sensor, unknown; climate entity,
    measured temperature unknown, action off and no correction pending;
    mode selector, off; fan-speed selector, auto; louvre switch, off;
    target-temperature number, the default 22. *)
Theorem unavailable_tears_down_then_resets :
  forall (c : Climate.t) (n : Number.t) (s : Sensor.t)
         (m : ModeSelect.t) (f : FanSpeedSelect.t) (w : Switch.t),
    Base.available c = true ->
    Base.available n = true ->
    Base.available s = true ->
    Base.available m = true ->
    Base.available f = true ->
    Base.available w = true ->
    (let r := Base.on_availability_changed false c in
     Eff.outcome_of r = Returned tt /\
     Eff.trace_of r =
       unavailable_trace "Сбрасываем состояние климат-сущности" (Climate.base c) /\
     Climate.base (Eff.state_of r) = went_offline (Climate.base c) /\
     Climate._attr_current_temperature (Eff.state_of r) = None /\
     Climate._current_hvac_action (Eff.state_of r) = HVACAction.OFF /\
     Climate._need_fan_auto_correction (Eff.state_of r) = false) /\
    (let r := Base.on_availability_changed false n in
     Eff.outcome_of r = Returned tt /\
     Eff.trace_of r =
       unavailable_trace "Сбрасываем состояние числовой сущности" (Number.base n) /\
     Number.base (Eff.state_of r) = went_offline (Number.base n) /\
     Number._attr_native_value (Eff.state_of r) = Const.TEMP_DEFAULT) /\
    (let r := Base.on_availability_changed false s in
     Eff.outcome_of r = Returned tt /\
     Eff.trace_of r =
       unavailable_trace "Сбрасываем состояние сенсора %s" (Sensor.base s) /\
     Sensor.base (Eff.state_of r) = went_offline (Sensor.base s) /\
     Sensor._attr_native_value (Eff.state_of r) = None) /\
    (let r := Base.on_availability_changed false m in
     Eff.outcome_of r = Returned tt /\
     Eff.trace_of r =
       unavailable_trace "Сбрасываем состояние селектора режима" (ModeSelect.base m) /\
     ModeSelect.base (Eff.state_of r) = went_offline (ModeSelect.base m) /\
     ModeSelect._current_mode_mqtt (Eff.state_of r) = "0" /\
     ModeSelect._attr_current_option (Eff.state_of r) = "Выключено") /\
    (let r := Base.on_availability_changed false f in
     Eff.outcome_of r = Returned tt /\
     Eff.trace_of r =
       unavailable_trace "Сбрасываем состояние селектора скорости"
                         (FanSpeedSelect.base f) /\
     FanSpeedSelect.base (Eff.state_of r) = went_offline (FanSpeedSelect.base f) /\
     FanSpeedSelect._current_fan_speed_mqtt (Eff.state_of r) = "0" /\
     FanSpeedSelect._attr_current_option (Eff.state_of r) = "Авто") /\
    (let r := Base.on_availability_changed false w in
     Eff.outcome_of r = Returned tt /\
     Eff.trace_of r =
       unavailable_trace "Сбрасываем состояние переключателя жалюзи" (Switch.base w) /\
     Switch.base (Eff.state_of r) = went_offline (Switch.base w) /\
     Switch._state (Eff.state_of r) = false).
Proof.
  intros c n s m f w Hc Hn Hs Hm Hf Hw.
  split; [now apply climate_goes_unavailable|].
  split; [now apply number_goes_unavailable|].
  split; [now apply sensor_goes_unavailable|].
  split; [now apply mode_select_goes_unavailable|].
  split; [now apply fan_select_goes_unavailable|].
  now apply switch_goes_unavailable.
Qed.

Lemma unavailable_tears_down_then_resets_witness :
  let c := example_climate true HVACMode.COOL "high" in
  let s := example_sensor true false in
  (let r := Base.on_availability_changed false c in
   Eff.outcome_of r = Returned tt /\
   Eff.trace_of r =
     unavailable_trace "Сбрасываем состояние климат-сущности" (Climate.base c) /\
   Climate.base (Eff.state_of r) = went_offline (Climate.base c) /\
   Climate._attr_current_temperature (Eff.state_of r) = None /\
   Climate._current_hvac_action (Eff.state_of r) = HVACAction.OFF /\
   Climate._need_fan_auto_correction (Eff.state_of r) = false) /\
  (let r := Base.on_availability_changed false s in
   Eff.outcome_of r = Returned tt /\
   Eff.trace_of r =
     unavailable_trace "Сбрасываем состояние сенсора %s" (Sensor.base s) /\
   Sensor.base (Eff.state_of r) = went_offline (Sensor.base s) /\
   Sensor._attr_native_value (Eff.state_of r) = None).
Proof.
  destruct (unavailable_tears_down_then_resets
              (example_climate true HVACMode.COOL "high") (example_number true)
              (example_sensor true false) (example_mode_select true)
              (example_fan_select true) (example_switch true)
              eq_refl eq_refl eq_refl eq_refl eq_refl eq_refl)
    as (Hc & _ & Hs & _).
  split; [exact Hc | exact Hs].
Defined.

(** C4, as stated, fails on the climate entity: its reset leaves the
    displayed mode, fan speed and louvre state as they were, so a climate
    entity in mode cool with fan high and louvre on still shows them after
    going unavailable; only the measured temperature became unknown.  The
    number entity does not show unknown either, but the default 22. *)
Lemma climate_unavailable_keeps_mode_fan_louvre :
  let c := example_climate true HVACMode.COOL "high" in
  let c' := Eff.state_of (Base.on_availability_changed false c) in
  let n' := Eff.state_of (Base.on_availability_changed false (example_number true)) in
  Base.available c = true /\
  Base.available c' = false /\
  Base._mqtt_subscriptions (Climate.base c') = [] /\
  Climate._attr_current_temperature c' = None /\
  Climate._attr_hvac_mode c' = HVACMode.COOL /\
  Climate._attr_fan_mode c' = "high" /\
  Climate._attr_swing_mode c' = "on" /\
  Number._attr_native_value n' = 22.
Proof. vm_compute. repeat split. Qed.

(** The same for every climate entity: an availability change never
    touches the displayed mode, fan speed, louvre state or target. *)
Lemma climate_availability_change_keeps_settings (c : Climate.t) (available : bool) :
  let c' := Eff.state_of (Base.on_availability_changed available c) in
  Climate._attr_hvac_mode c' = Climate._attr_hvac_mode c /\
  Climate._attr_fan_mode c' = Climate._attr_fan_mode c /\
  Climate._attr_swing_mode c' = Climate._attr_swing_mode c /\
  Climate._attr_target_temperature c' = Climate._attr_target_temperature c.
Proof.
  destruct c as [[dev entry avail ready subs eid] mode fan swing cur tgt act prev need].
  destruct available, avail, ready, eid; cbn; repeat split.
Qed.

(** ** The fan-out across the registered entities *)

Lemma nth_error_replace_same i e l x :
  nth_error l i = Some x -> nth_error (System.replace i e l) i = Some e.
Proof.
  revert i. induction l as [|y l IH]; intros [|i] H; cbn in *; try discriminate.
  - reflexivity.
  - now apply IH.
Qed.

Lemma nth_error_replace_other i j e l :
  i <> j -> nth_error (System.replace i e l) j = nth_error l j.
Proof.
  revert i j. induction l as [|y l IH]; intros [|i] [|j] H; cbn; try reflexivity.
  - contradiction.
  - apply IH. congruence.
Qed.

(** One entity, one notification. *)
Lemma entity_flag_follows (b : bool) (e : System.entity) :
  System.available (state_of (System.on_availability_changed b e)) = b.
Proof.
  destruct e as [c|n|s|m|f|w].
  - destruct c as [[dev entry avail ready subs eid] mode fan swing cur tgt act prev need].
    destruct b, avail, ready, eid; reflexivity.
  - destruct n as [[dev entry avail ready subs eid] tr tw v].
    destruct b, avail, ready, eid; reflexivity.
  - destruct s as [[dev entry avail ready subs eid] topic kind is_target value].
    destruct b, avail, ready, eid; reflexivity.
  - destruct m as [[dev entry avail ready subs eid] tr tw icon opt code].
    destruct b, avail, ready, eid; reflexivity.
  - destruct f as [[dev entry avail ready subs eid] tr tw icon opt code].
    destruct b, avail, ready, eid; reflexivity.
  - destruct w as [[dev entry avail ready subs eid] tin tout st].
    destruct b, avail, ready, eid; reflexivity.
Qed.

Lemma entity_goes_offline (e : System.entity) :
  System.available e = true ->
  System.offline_and_reset (state_of (System.on_availability_changed false e)).
Proof.
  intros Ha. unfold System.offline_and_reset.
  destruct e as [c|n|s|m|f|w]; cbn in Ha.
  - destruct (climate_goes_unavailable c Ha) as (_ & _ & Hb & Hr).
    cbv zeta in Hb, Hr. unfold System.on_availability_changed, System.inject.
    destruct (Base.on_availability_changed false c) as [[o c'] tr]. cbn in *.
    unfold System.available. cbn. rewrite Hb. repeat split; apply Hr.
  - destruct (number_goes_unavailable n Ha) as (_ & _ & Hb & Hr).
    cbv zeta in Hb, Hr. unfold System.on_availability_changed, System.inject.
    destruct (Base.on_availability_changed false n) as [[o n'] tr]. cbn in *.
    unfold System.available. cbn. rewrite Hb. repeat split; apply Hr.
  - destruct (sensor_goes_unavailable s Ha) as (_ & _ & Hb & Hr).
    cbv zeta in Hb, Hr. unfold System.on_availability_changed, System.inject.
    destruct (Base.on_availability_changed false s) as [[o s'] tr]. cbn in *.
    unfold System.available. cbn. rewrite Hb. repeat split; apply Hr.
  - destruct (mode_select_goes_unavailable m Ha) as (_ & _ & Hb & Hr).
    cbv zeta in Hb, Hr. unfold System.on_availability_changed, System.inject.
    destruct (Base.on_availability_changed false m) as [[o m'] tr]. cbn in *.
    unfold System.available. cbn. rewrite Hb. repeat split; apply Hr.
  - destruct (fan_select_goes_unavailable f Ha) as (_ & _ & Hb & Hr).
    cbv zeta in Hb, Hr. unfold System.on_availability_changed, System.inject.
    destruct (Base.on_availability_changed false f) as [[o f'] tr]. cbn in *.
    unfold System.available. cbn. rewrite Hb. repeat split; apply Hr.
  - destruct (switch_goes_unavailable w Ha) as (_ & _ & Hb & Hr).
    cbv zeta in Hb, Hr. unfold System.on_availability_changed, System.inject.
    destruct (Base.on_availability_changed false w) as [[o w'] tr]. cbn in *.
    unfold System.available. cbn. rewrite Hb. repeat split; apply Hr.
Qed.

Lemma entity_notification_repeated (b : bool) (e : System.entity) :
  System.available e = b ->
  System.on_availability_changed b e = (Returned tt, e, []).
Proof.
  intros Ha.
  destruct e as [c|n|s|m|f|w].
  - destruct c as [[dev entry avail ready subs eid] mode fan swing cur tgt act prev need].
    cbn in Ha. subst b. destruct avail; reflexivity.
  - destruct n as [[dev entry avail ready subs eid] tr tw v].
    cbn in Ha. subst b. destruct avail; reflexivity.
  - destruct s as [[dev entry avail ready subs eid] topic kind is_target value].
    cbn in Ha. subst b. destruct avail; reflexivity.
  - destruct m as [[dev entry avail ready subs eid] tr tw icon opt code].
    cbn in Ha. subst b. destruct avail; reflexivity.
  - destruct f as [[dev entry avail ready subs eid] tr tw icon opt code].
    cbn in Ha. subst b. destruct avail; reflexivity.
  - destruct w as [[dev entry avail ready subs eid] tin tout st].
    cbn in Ha. subst b. destruct avail; reflexivity.
Qed.

Lemma run_store (sys : System.t) :
  System.store (System.drain sys) =
    fold_left apply_notification (System.pending sys) (System.store sys) /\
  System.manager (System.drain sys) = System.manager sys /\
  System.pending (System.drain sys) = [].
Proof.
  unfold System.drain.
  destruct sys as [m st pend hist]. cbn [System.pending System.store System.manager].
  revert st hist.
  induction pend as [|[i b] pend IH]; intros st hist; [repeat split|].
  cbn [length System.run fold_left].
  unfold System.run_next, apply_notification.
  cbn [System.pending System.store System.manager System.history fst snd].
  destruct (nth_error st i) as [e|]; [|apply IH].
  destruct (System.on_availability_changed b e) as [[o e'] tr].
  apply IH.
Qed.

Lemma apply_notification_other st i b j :
  i <> j -> nth_error (apply_notification st (i, b)) j = nth_error st j.
Proof.
  intros Hne. unfold apply_notification. cbn [fst snd].
  destruct (nth_error st i); [now apply nth_error_replace_other | reflexivity].
Qed.

Lemma apply_notification_same st i b e :
  nth_error st i = Some e ->
  nth_error (apply_notification st (i, b)) i =
    Some (state_of (System.on_availability_changed b e)).
Proof.
  intros He. unfold apply_notification. cbn [fst snd]. rewrite He.
  now apply nth_error_replace_same with (x := e).
Qed.

(** Notifications that all carry the flag [b], run on a store: an entity
    that is [Good] stays so, and every notified entity becomes [Good],
    provided one notification makes an entity that is [Pre] or [Good]
    into a [Good] one. *)
Section Fanout.
Variable b : bool.
Variables Pre Good : System.entity -> Prop.
Hypothesis touch :
  forall e, Pre e \/ Good e -> Good (state_of (System.on_availability_changed b e)).

Lemma fanout_stable (pend : list (nat * bool)) (st : list System.entity) j e :
  (forall n, In n pend -> snd n = b) ->
  nth_error st j = Some e -> Good e ->
  exists e', nth_error (fold_left apply_notification pend st) j = Some e' /\ Good e'.
Proof.
  revert st e.
  induction pend as [|[i bi] pend IH]; intros st e Hall He Hgood; [now exists e|].
  cbn [fold_left].
  assert (bi = b) as -> by (apply (Hall (i, bi)); now left).
  assert (forall n, In n pend -> snd n = b) as Hall' by (intros n Hn; apply Hall; now right).
  destruct (Nat.eq_dec i j) as [->|Hne].
  - apply (IH _ (state_of (System.on_availability_changed b e)) Hall').
    + now apply apply_notification_same.
    + apply touch. now right.
  - apply (IH _ e Hall'); [|exact Hgood].
    now rewrite apply_notification_other.
Qed.

Lemma fanout_reaches (pend : list (nat * bool)) (st : list System.entity) :
  (forall n, In n pend -> snd n = b) ->
  (forall j, In j (map fst pend) ->
     exists e, nth_error st j = Some e /\ (Pre e \/ Good e)) ->
  forall j, In j (map fst pend) ->
    exists e', nth_error (fold_left apply_notification pend st) j = Some e' /\ Good e'.
Proof.
  revert st.
  induction pend as [|[i bi] pend IH]; intros st Hall Hst j Hj; [destruct Hj|].
  cbn [fold_left].
  assert (bi = b) as -> by (apply (Hall (i, bi)); now left).
  assert (forall n, In n pend -> snd n = b) as Hall' by (intros n Hn; apply Hall; now right).
  destruct (Hst i (or_introl eq_refl)) as (ei & Hei & Hpre).
  pose proof (apply_notification_same st i b ei Hei) as Hi1.
  pose proof (touch ei Hpre) as Hgood1.
  destruct (in_dec Nat.eq_dec j (map fst pend)) as [Hin|Hnotin].
  - apply (IH _ Hall'); [|exact Hin].
    intros k Hk. destruct (Nat.eq_dec i k) as [<-|Hne].
    + eexists. split; [exact Hi1 | now right].
    + rewrite apply_notification_other by exact Hne.
      apply Hst. now right.
  - destruct Hj as [Hj|Hj]; [|contradiction]. cbn in Hj. subst j.
    now apply (fanout_stable pend _ i _ Hall' Hi1).
Qed.

End Fanout.

Lemma notifications_map (entities : list nat) (b : bool) :
  System.notifications
    (map (fun entity => CreateTask (OnAvailabilityChanged entity b)) entities)
  = map (fun entity => (entity, b)) entities.
Proof. induction entities as [|x l IH]; [reflexivity|]. cbn. now rewrite IH. Qed.

(** The system after one connectivity message, before the loop turns. *)
Lemma connectivity_message_step (payload : string) (sys : System.t) :
  System.pending sys = [] ->
  let new_available := (payload =? Const.CONNECTED_ONLINE)%string in
  let sys' := System.connectivity_message payload sys in
  System.store sys' = System.store sys /\
  if Bool.eqb new_available (Manager._available (System.manager sys))
  then System.manager sys' = System.manager sys /\ System.pending sys' = []
  else System.manager sys' = Manager.with_available new_available (System.manager sys) /\
       System.pending sys' =
         map (fun entity => (entity, new_available))
             (Manager._entities (System.manager sys)).
Proof.
  intros Hpend. cbv zeta. unfold System.connectivity_message.
  rewrite availability_received_step. cbv zeta. rewrite Hpend.
  destruct (Bool.eqb _ _); cbn; rewrite ?notifications_map; repeat split.
Qed.

(** X1. Once the notifications of a connectivity message have run, the flag
    of every registered entity equals the manager's again. *)
Theorem fanout_keeps_flags_mirrored :
  forall (payload : string) (sys : System.t),
    System.mirrored sys ->
    System.pending sys = [] ->
    System.mirrored (System.drain (System.connectivity_message payload sys)).
Proof.
  intros payload sys Hmir Hpend.
  destruct (connectivity_message_step payload sys Hpend) as [Hstore Hcase].
  cbv zeta in Hstore, Hcase.
  set (sys' := System.connectivity_message payload sys) in *.
  destruct (run_store sys') as (Hst & Hman & _).
  unfold System.mirrored. rewrite Hst, Hman, Hstore.
  destruct (Bool.eqb _ _) eqn:Heqb; destruct Hcase as [Hm Hp]; rewrite Hm, Hp.
  - exact Hmir.
  - cbn [Manager._entities Manager.with_available Manager._available fold_left].
    set (new := (payload =? Const.CONNECTED_ONLINE)%string) in *.
    intros i Hi.
    apply (fanout_reaches new (fun _ => True)
             (fun e => System.available e = new)).
    + intros e _. apply entity_flag_follows.
    + intros n Hn. apply in_map_iff in Hn as (x & <- & _). reflexivity.
    + intros j Hj. rewrite map_map, map_id in Hj.
      destruct (Hmir j Hj) as (e & He & _). exists e. split; [exact He | now left].
    + now rewrite map_map, map_id.
Qed.

(** X2. Whenever the device becomes unavailable (the flag is true and a
    payload other than ["1"] arrives), every registered entity ends
    unavailable, without subscriptions, with the display of its kind
    reset. *)
Theorem device_unavailable_resets_every_entity :
  forall (payload : string) (sys : System.t),
    System.mirrored sys ->
    System.pending sys = [] ->
    Manager._available (System.manager sys) = true ->
    payload <> Const.CONNECTED_ONLINE ->
    forall i, In i (Manager._entities (System.manager sys)) ->
      exists e',
        nth_error (System.store (System.drain (System.connectivity_message payload sys))) i
          = Some e' /\
        System.offline_and_reset e'.
Proof.
  intros payload sys Hmir Hpend Hon Hne i Hi.
  destruct (connectivity_message_step payload sys Hpend) as [Hstore Hcase].
  cbv zeta in Hstore, Hcase.
  set (sys' := System.connectivity_message payload sys) in *.
  destruct (run_store sys') as (Hst & _ & _).
  rewrite Hst, Hstore.
  destruct (String.eqb_spec payload Const.CONNECTED_ONLINE) as [Heq|_];
    [contradiction|].
  rewrite Hon in Hcase. cbn in Hcase. destruct Hcase as [_ Hp]. rewrite Hp.
  apply (fanout_reaches false (fun e => System.available e = true)
           System.offline_and_reset).
  - intros e [Ha | Hr].
    + now apply entity_goes_offline.
    + destruct Hr as (Ha & Hr).
      rewrite (entity_notification_repeated false e Ha). cbn. now split.
  - intros n Hn. apply in_map_iff in Hn as (x & <- & _). reflexivity.
  - intros j Hj. rewrite map_map, map_id in Hj.
    destruct (Hmir j Hj) as (e & He & Ha). exists e. split; [exact He|].
    left. now rewrite Ha.
  - now rewrite map_map, map_id.
Qed.

(** Registration primes the new entity's flag, so the flags stay
    mirrored. *)
Lemma register_keeps_flags_mirrored (e : System.entity) (sys : System.t) :
  System.mirrored sys -> System.mirrored (System.register e sys).
Proof.
  intros Hmir i Hi.
  unfold System.register in *.
  cbn [System.manager System.store Manager.add_entity Manager.with_entities
       Manager._entities Manager._available] in *.
  apply in_app_or in Hi as [Hi | [<- | []]].
  - destruct (Hmir i Hi) as (x & Hx & Ha). exists x. split; [|exact Ha].
    rewrite nth_error_app1; [exact Hx|].
    apply nth_error_Some. congruence.
  - eexists. split.
    + rewrite nth_error_app2 by lia. rewrite Nat.sub_diag. reflexivity.
    + destruct e as [c|n|s|m|f|w]; reflexivity.
Qed.

Example example_system_run :
  let online := System.drain (System.connectivity_message "1" example_system) in
  let again := System.drain (System.connectivity_message "1" online) in
  let offline := System.drain (System.connectivity_message "abc" again) in
  map System.available (System.store example_system) = [false; false; false] /\
  map System.available (System.store online) = [true; true; true] /\
  length (created_tasks (System.history online)) = 3%nat /\
  length (created_tasks (System.history again)) = 3%nat /\
  map System.available (System.store offline) = [false; false; false] /\
  length (created_tasks (System.history offline)) = 6%nat /\
  length (unsubscribed (System.history offline)) = 7%nat.
Proof. vm_compute. repeat split. Qed.

Lemma example_system_mirrored : System.mirrored example_system.
Proof.
  repeat apply register_keeps_flags_mirrored.
  intros i [].
Qed.

Lemma fanout_keeps_flags_mirrored_witness :
  System.mirrored example_system /\
  System.pending example_system = [] /\
  System.mirrored (System.drain (System.connectivity_message "1" example_system)).
Proof.
  split; [exact example_system_mirrored|]. split; [reflexivity|].
  exact (fanout_keeps_flags_mirrored "1" example_system
           example_system_mirrored eq_refl).
Defined.

Lemma example_system_online_mirrored : System.mirrored example_system_online.
Proof.
  intros i Hi. vm_compute in Hi.
  destruct Hi as [<- | [<- | [<- | []]]]; eexists; split; reflexivity.
Qed.

Lemma device_unavailable_resets_every_entity_witness :
  Manager._available (System.manager example_system_online) = true /\
  (forall i, In i (Manager._entities (System.manager example_system_online)) ->
     exists e',
       nth_error
         (System.store
            (System.drain (System.connectivity_message "0" example_system_online))) i
         = Some e' /\
       System.offline_and_reset e').
Proof.
  split; [reflexivity|].
  apply (device_unavailable_resets_every_entity "0" example_system_online).
  - exact example_system_online_mirrored.
  - reflexivity.
  - reflexivity.
  - intros Habs. discriminate Habs.
Defined.

(** ** Further scenarios of the specification *)

(** X4. Selecting fan speed auto while the displayed mode is fan-only is
    rejected: one log line, no publish, the entity unchanged. *)
Lemma fan_auto_rejected_in_fan_only (e : Climate.t) :
  Climate._attr_hvac_mode e = HVACMode.FAN_ONLY ->
  exists l message,
    Climate.async_set_fan_mode Const.FAN_AUTO e = (Returned tt, e, [Log l message]).
Proof.
  intros Hm.
  destruct e as [[dev entry avail ready subs eid] mode fan swing cur tgt act prev need].
  cbn in Hm. subst mode. destruct avail; do 2 eexists; reflexivity.
Qed.

Lemma fan_auto_rejected_in_fan_only_witness :
  exists l message,
    Climate.async_set_fan_mode Const.FAN_AUTO
      (example_climate true HVACMode.FAN_ONLY "low")
    = (Returned tt, example_climate true HVACMode.FAN_ONLY "low", [Log l message]).
Proof.
  exact (fan_auto_rejected_in_fan_only
           (example_climate true HVACMode.FAN_ONLY "low") eq_refl).
Defined.

(** X5. An inbound mode message that the table knows sets the displayed
    mode and the action that goes with it. *)
Lemma mode_received_sets_mode_and_action (e : Climate.t) payload mode :
  Base.available e = true ->
  Dict.get Climate.MQTT_TO_HVAC_MODE payload = Some mode ->
  let e' := Eff.state_of (Climate.mode_received payload e) in
  Climate._attr_hvac_mode e' = mode /\
  Climate._current_hvac_action e' = action_of_mode mode.
Proof.
  intros Ha Hget.
  pose proof (get_In _ _ _ Hget) as Hin.
  destruct e as [[dev entry avail ready subs eid] m0 fan swing cur tgt act prev need].
  cbn in Ha. subst avail.
  cbn in Hin.
  repeat (destruct Hin as [[= <- <-] | Hin];
          [destruct m0, (String.eqb fan Const.FAN_AUTO) eqn:Ef, need, ready, eid;
             cbn; rewrite ?Ef; cbn; split; reflexivity|]).
  destruct Hin.
Qed.

Lemma mode_received_sets_mode_and_action_witness :
  let e' := Eff.state_of (Climate.mode_received "3"
                            (example_climate true HVACMode.COOL "high")) in
  Climate._attr_hvac_mode e' = HVACMode.DRY /\
  Climate._current_hvac_action e' = action_of_mode HVACMode.DRY.
Proof.
  exact (mode_received_sets_mode_and_action
           (example_climate true HVACMode.COOL "high") "3" HVACMode.DRY
           eq_refl eq_refl).
Defined.

(* ===================================================================== *)
(** ** Loading an entry: the device id *)
(* ===================================================================== *)

(** ** Device ids *)

Lemma hex_not_space c : Re.hex_class c = true -> Py.is_space c = false.
Proof.
  destruct c as [[] [] [] [] [] [] [] []]; cbn; intros H; try reflexivity; discriminate H.
Qed.

Lemma hex_run_12 s rest :
  Re.hex_run 12 s = Some rest ->
  exists c1 c2 c3 c4 c5 c6 c7 c8 c9 c10 c11 c12,
    s = String c1 (String c2 (String c3 (String c4 (String c5 (String c6
        (String c7 (String c8 (String c9 (String c10 (String c11 (String c12 rest)))))))))))
    /\ Forall (fun c => Re.hex_class c = true) [c1;c2;c3;c4;c5;c6;c7;c8;c9;c10;c11;c12].
Proof.
  intros H.
  do 12 (destruct s as [|?c s]; [discriminate H|];
         cbn [Re.hex_run] in H;
         match type of H with (if ?b then _ else _) = _ => destruct b eqn:?; [|discriminate H] end).
  cbn in H. injection H as <-.
  do 12 eexists. split; [reflexivity|].
  repeat constructor; assumption.
Qed.

(** After the length check the pattern accepts exactly the texts of
    twelve hexadecimal digits: [$] has no newline to stop before. *)
Lemma pattern_after_length_check (s : string) :
  twelve_hex_digits s <->
  (s =? "")%string = false /\ (String.length s =? 12)%nat = true /\
  Re.hex12_match s = true.
Proof.
  unfold twelve_hex_digits, Re.hex12_match. split.
  - intros [Hlen Hall].
    do 12 (destruct s as [|?c s]; [discriminate Hlen|]).
    destruct s; [|discriminate Hlen].
    repeat split.
    cbn [Re.hex_run].
    rewrite !Hall by (cbn; tauto). reflexivity.
  - intros (_ & Hlen & Hm). apply Nat.eqb_eq in Hlen.
    destruct (Re.hex_run 12 s) as [rest|] eqn:Hrun; [|discriminate Hm].
    destruct (hex_run_12 _ _ Hrun) as (c1&c2&c3&c4&c5&c6&c7&c8&c9&c10&c11&c12&->&Hall).
    split; [exact Hlen|].
    destruct rest; [|discriminate Hlen].
    intros c Hc. rewrite Forall_forall in Hall. apply Hall.
    cbn in Hc |- *. tauto.
Qed.

(** Such a text has no blank at either end. *)
Lemma strip_twelve_hex_digits (s : string) : twelve_hex_digits s -> Py.strip s = s.
Proof.
  intros [Hlen Hall].
  do 12 (destruct s as [|?c s]; [discriminate Hlen|]).
  destruct s; [|discriminate Hlen].
  unfold Py.strip. cbn [Py.lstrip].
  rewrite (hex_not_space c) by (apply Hall; cbn; tauto).
  cbn [Py.rev_string Py.lstrip].
  rewrite (hex_not_space c10) by (apply Hall; cbn; tauto).
  reflexivity.
Qed.

Lemma setup_entry_checks entry_id entry_data data :
  let device_id := Py.strip (Dict.get_default entry_data Const.CONF_DEVICE_ID "") in
  if ((device_id =? "")%string
      || negb (String.length device_id =? 12)%nat
      || negb (Re.hex12_match device_id))%bool
  then exists message log,
         Integration.async_setup_entry entry_id entry_data data
         = Integration.Raised_ConfigEntryNotReady message log
  else exists sys,
         Integration.async_setup_entry entry_id entry_data data
         = Integration.Returned_True
             (Some (Dict.set (match data with Some d => d | None => [] end) entry_id
                             (Integration.mk_record entry_data device_id)))
             sys
         /\ Manager.device_id (System.manager sys) = device_id
         /\ Manager.entry_id (System.manager sys) = entry_id.
Proof.
  cbv zeta. unfold Integration.async_setup_entry, Integration.DEVICE_ID_PATTERN_match.
  cbv zeta.
  set (device_id := Py.strip _).
  destruct (device_id =? "")%string; [do 2 eexists; reflexivity|].
  destruct (String.length device_id =? 12)%nat; [|do 2 eexists; reflexivity].
  destruct (Re.hex12_match device_id); [|do 2 eexists; reflexivity].
  cbn [orb negb]. eexists. split; [reflexivity|].
  split; reflexivity.
Qed.


Example pattern_stops_before_a_final_newline :
  Re.hex12_match "1cdbd4cbcc74" = true /\
  Re.hex12_match (String.append "1cdbd4cbcc74" (String "010" "")) = true /\
  Re.hex12_match "1cdbd4cbcc74 " = false /\
  Re.hex12_match "1cdbd4cbcc7" = false /\
  Re.hex12_match "1cdbd4cbcc7g" = false /\
  Re.hex12_match "1CDBD4CBCC74" = true.
Proof. repeat split; reflexivity. Qed.

(** What the user step answers, check by check. *)
Lemma user_step_cases current check user_input :
  let device_id := Py.strip (Dict.get_default user_input Const.CONF_DEVICE_ID "") in
  let result := ConfigFlow.async_step_user current check (Some user_input) in
  if (device_id =? "")%string then
    result = ConfigFlow.ShowForm "user" [(Const.CONF_DEVICE_ID, "device_id_required")]
  else if negb (String.length device_id =? 12)%nat then
    result = ConfigFlow.ShowForm "user" [(Const.CONF_DEVICE_ID, "device_id_length")]
  else if negb (Re.hex12_match device_id) then
    result = ConfigFlow.ShowForm "user" [(Const.CONF_DEVICE_ID, "device_id_format")]
  else if ConfigFlow._is_device_id_already_configured current device_id then
    result = ConfigFlow.ShowForm "user"
               [(Const.CONF_DEVICE_ID, "device_id_already_configured")]
  else if negb (check device_id) then
    result = ConfigFlow.ShowForm "user" [("base", "mqtt_topic_not_found")]
  else if ConfigFlow.unique_id_configured current device_id then
    result = ConfigFlow.AbortFlow "already_configured"
  else
    result = ConfigFlow.CreateEntry
               ("Кондиционер GoldStar GSAC/GSACI (" ++ device_id ++ ")")%string
               device_id (ConfigFlow.entry_data device_id).
Proof.
  cbv zeta. unfold ConfigFlow.async_step_user, ConfigFlow.DEVICE_ID_PATTERN_match.
  cbv zeta.
  set (device_id := Py.strip _).
  destruct (device_id =? "")%string; [reflexivity|].
  destruct (String.length device_id =? 12)%nat; [|reflexivity].
  destruct (Re.hex12_match device_id); [|reflexivity].
  destruct (ConfigFlow._is_device_id_already_configured current device_id); [reflexivity|].
  destruct (check device_id); [|reflexivity].
  cbn [negb].
  destruct (ConfigFlow.unique_id_configured current device_id); reflexivity.
Qed.

Lemma entry_data_device_id (device_id : string) :
  Dict.get (ConfigFlow.entry_data device_id) Const.CONF_DEVICE_ID = Some device_id.
Proof. reflexivity. Qed.

Lemma entry_data_topics (device_id key : string) :
  In key (map fst Const.MQTT_TOPICS) ->
  Dict.get (ConfigFlow.entry_data device_id) key = Some (Const.topic device_id key).
Proof.
  intros Hin. cbn in Hin.
  repeat (destruct Hin as [<- | Hin]; [reflexivity|]).
  destruct Hin.
Qed.

(** X7. Whenever the user step of the configuration flow creates an
    entry, the entry's unique id is twelve hexadecimal digits, no existing
    entry was configured for that device, the broker check had succeeded
    for it, the entry's data holds the device id under [device_id] and,
    under each of the ten keys of [MQTT_TOPICS], that device's topic; and
    [async_setup_entry] on this data returns [True] with a manager for the
    same device id, which is also the id the platforms read. *)
Theorem created_entry_loads :
  forall (current : list ConfigFlow.config_entry) (check : string -> bool)
         (user_input : option (Dict.dict string))
         (title unique_id entry_id : string) (entry_data : Dict.dict string)
         (data : Integration.hass_data),
    ConfigFlow.async_step_user current check user_input
    = ConfigFlow.CreateEntry title unique_id entry_data ->
    twelve_hex_digits unique_id /\
    ConfigFlow._is_device_id_already_configured current unique_id = false /\
    check unique_id = true /\
    Dict.get entry_data Const.CONF_DEVICE_ID = Some unique_id /\
    (forall key, In key (map fst Const.MQTT_TOPICS) ->
       Dict.get entry_data key = Some (Const.topic unique_id key)) /\
    exists data' sys,
      Integration.async_setup_entry entry_id entry_data data
      = Integration.Returned_True data' sys /\
      Manager.device_id (System.manager sys) = unique_id /\
      Integration.platform_device_id entry_data = unique_id.
Proof.
  intros current check user_input title uid entry_id entry_data data Hflow.
  destruct user_input as [user_input|]; [|discriminate Hflow].
  pose proof (user_step_cases current check user_input) as Hc. cbv zeta in Hc.
  set (device_id := Py.strip _) in Hc.
  destruct (device_id =? "")%string eqn:Hne;
    [rewrite Hc in Hflow; discriminate Hflow|].
  destruct (String.length device_id =? 12)%nat eqn:Hlen;
    [|rewrite Hc in Hflow; discriminate Hflow].
  destruct (Re.hex12_match device_id) eqn:Hm;
    [|rewrite Hc in Hflow; discriminate Hflow].
  destruct (ConfigFlow._is_device_id_already_configured current device_id) eqn:Hdup;
    [rewrite Hc in Hflow; discriminate Hflow|].
  destruct (check device_id) eqn:Hcheck;
    [|rewrite Hc in Hflow; discriminate Hflow].
  cbn [negb] in Hc.
  destruct (ConfigFlow.unique_id_configured current device_id);
    rewrite Hc in Hflow; [discriminate Hflow|].
  injection Hflow as _ <- <-.
  assert (twelve_hex_digits device_id) as Hhex
    by (apply pattern_after_length_check; auto).
  split; [exact Hhex|]. split; [exact Hdup|]. split; [exact Hcheck|].
  split; [apply entry_data_device_id|]. split; [apply entry_data_topics|].
  pose proof (setup_entry_checks entry_id (ConfigFlow.entry_data device_id) data) as Hs.
  cbv zeta in Hs.
  assert (Dict.get_default (ConfigFlow.entry_data device_id) Const.CONF_DEVICE_ID ""
          = device_id) as Hget by reflexivity.
  rewrite Hget, (strip_twelve_hex_digits _ Hhex), Hne, Hlen, Hm in Hs.
  cbn [orb negb] in Hs. destruct Hs as (sys & Hs & Hdev & _).
  do 2 eexists. split; [exact Hs|]. split; [exact Hdev | reflexivity].
Qed.

Lemma created_entry_loads_witness :
  let user_input := Some [("device_id", "  1CDBd4cbcc74 ")] in
  let entry_data := ConfigFlow.entry_data "1CDBd4cbcc74" in
  ConfigFlow.async_step_user [] (fun _ => true) user_input
  = ConfigFlow.CreateEntry "Кондиционер GoldStar GSAC/GSACI (1CDBd4cbcc74)"
                           "1CDBd4cbcc74" entry_data /\
  twelve_hex_digits "1CDBd4cbcc74" /\
  Dict.get entry_data "mode_in" = Some "1CDBd4cbcc74/mode/in" /\
  exists data' sys,
    Integration.async_setup_entry "entry" entry_data None
    = Integration.Returned_True data' sys /\
    Manager.device_id (System.manager sys) = "1CDBd4cbcc74" /\
    Integration.platform_device_id entry_data = "1CDBd4cbcc74".
Proof.
  destruct (created_entry_loads [] (fun _ => true)
              (Some [("device_id", "  1CDBd4cbcc74 ")])
              "Кондиционер GoldStar GSAC/GSACI (1CDBd4cbcc74)" "1CDBd4cbcc74" "entry"
              (ConfigFlow.entry_data "1CDBd4cbcc74") None eq_refl)
    as (Hhex & _ & _ & _ & Htopics & Hload).
  split; [reflexivity|]. split; [exact Hhex|].
  split; [apply Htopics; cbn; tauto | exact Hload].
Defined.

(* ===================================================================== *)
(** ** The topics of a device *)
(* ===================================================================== *)

Lemma append_cancel (s a b : string) : (s ++ a = s ++ b)%string -> a = b.
Proof. induction s as [|c s IH]; cbn; intros H; [exact H | injection H as H; auto]. Qed.

Lemma prefix_append (s a b : string) :
  String.prefix (s ++ a) (s ++ b) = String.prefix a b.
Proof.
  induction s as [|c s IH]; cbn; [reflexivity|].
  destruct (Ascii.ascii_dec c c) as [_|Hne]; [exact IH | contradiction].
Qed.

Lemma rev_string_append (a b acc : string) :
  Py.rev_string (a ++ b) acc = Py.rev_string b (Py.rev_string a acc).
Proof. revert acc. induction a as [|c a IH]; intros acc; cbn; [reflexivity | apply IH]. Qed.

Lemma NoDup_map_append (s : string) (l : list string) :
  NoDup l -> NoDup (map (String.append s) l).
Proof.
  induction 1 as [|x l Hx Hl IH]; cbn; constructor; [|exact IH].
  intros Hin. apply in_map_iff in Hin as (y & Hy & Hin).
  apply append_cancel in Hy. subst y. contradiction.
Qed.

(** X8. For every device id, the topic dictionary that the platforms
    build has the ten keys of [MQTT_TOPICS] in the table's order, its ten
    topics are pairwise distinct, each is the device id followed by the
    template's suffix, and each is accepted by the discovery callback of
    the configuration flow for that device. *)
Theorem device_topics_distinct_and_prefixed :
  forall device_id : string,
    map fst (Const.topics_for device_id) = map fst Const.MQTT_TOPICS /\
    NoDup (map snd (Const.topics_for device_id)) /\
    (forall key, In key (map fst Const.MQTT_TOPICS) ->
       exists suffix,
         Dict.get Const.MQTT_TOPICS key = Some ("{device_id}" ++ suffix)%string /\
         Dict.get (Const.topics_for device_id) key = Some (device_id ++ suffix)%string /\
         Const.topic device_id key = (device_id ++ suffix)%string /\
         ConfigFlow.on_message_received device_id (device_id ++ suffix) = true).
Proof.
  intros device_id. split; [reflexivity|]. split.
  - change (map snd (Const.topics_for device_id))
      with (map (String.append device_id)
                ["/mode/in"; "/mode/out"; "/sensor/temperature/out";
                 "/temperature_comfort/out"; "/temperature_comfort/in";
                 "/power/out"; "/power/in"; "/backlight_auto/out";
                 "/backlight_auto/in"; "/connected/out"]).
    apply NoDup_map_append. apply string_list_nodup. reflexivity.
  - intros key Hin. cbn in Hin.
    repeat (destruct Hin as [<- | Hin];
            [eexists; split; [reflexivity|]; split; [reflexivity|];
             split; [reflexivity|];
             unfold ConfigFlow.on_message_received, ConfigFlow.endswith;
             rewrite prefix_append, !rev_string_append; reflexivity|]).
    destruct Hin.
Qed.

(* ===================================================================== *)
(** ** What every method keeps *)
(* ===================================================================== *)

Section Keeps.
Context {S : Type} (I : S -> Prop) (Q : effect -> Prop).
Local Open Scope monad_scope.

Lemma keeps_ret {A} (a : A) : keeps I Q (ret a).
Proof. intros s Hs. split; [exact Hs | constructor]. Qed.

Lemma keeps_get : keeps I Q get.
Proof. intros s Hs. split; [exact Hs | constructor]. Qed.

Lemma keeps_raise {A} (e : Py.exn) : keeps I Q (@raise S A e).
Proof. intros s Hs. split; [exact Hs | constructor]. Qed.

Lemma keeps_modify (f : S -> S) : (forall s, I s -> I (f s)) -> keeps I Q (modify f).
Proof. intros Hf s Hs. split; [now apply Hf | constructor]. Qed.

Lemma keeps_emit (e : effect) : Q e -> keeps I Q (emit e).
Proof. intros He s Hs. split; [exact Hs | now repeat constructor]. Qed.

Lemma keeps_emit_all (es : list effect) : Forall Q es -> keeps I Q (emit_all es).
Proof. intros He s Hs. split; [exact Hs | exact He]. Qed.

Lemma keeps_bind {A B} (m : M S A) (k : A -> M S B) :
  keeps I Q m -> (forall a, keeps I Q (k a)) -> keeps I Q (bind m k).
Proof.
  intros Hm Hk s Hs. unfold bind.
  destruct (Hm s Hs) as [H1 T1]. destruct (m s) as [[[a|e] s1] t1]; cbn in *.
  - destruct (Hk a s1 H1) as [H2 T2]. destruct (k a s1) as [[r2 s2] t2]; cbn in *.
    split; [exact H2 | now apply Forall_app].
  - now split.
Qed.

Lemma keeps_try_except_value_type {A} (body : M S A) (handler : Py.exn -> M S A) :
  keeps I Q body -> (forall e, keeps I Q (handler e)) ->
  keeps I Q (try_except_value_type body handler).
Proof.
  intros Hm Hk s Hs. unfold try_except_value_type.
  destruct (Hm s Hs) as [H1 T1]. destruct (body s) as [[[a|e] s1] t1]; cbn in *.
  - now split.
  - destruct e; cbn; try now split.
    + destruct (Hk Py.ValueError s1 H1) as [H2 T2].
      destruct (handler Py.ValueError s1) as [[r2 s2] t2]; cbn in *.
      split; [exact H2 | now apply Forall_app].
    + destruct (Hk Py.TypeError s1 H1) as [H2 T2].
      destruct (handler Py.TypeError s1) as [[r2 s2] t2]; cbn in *.
      split; [exact H2 | now apply Forall_app].
Qed.

Lemma keeps_try_except_value {A} (body handler : M S A) :
  keeps I Q body -> keeps I Q handler -> keeps I Q (try_except_value body handler).
Proof.
  intros Hm Hk s Hs. unfold try_except_value.
  destruct (Hm s Hs) as [H1 T1]. destruct (body s) as [[[a|e] s1] t1]; cbn in *.
  - now split.
  - destruct e; cbn; try now split.
    destruct (Hk s1 H1) as [H2 T2].
    destruct (handler s1) as [[r2 s2] t2]; cbn in *.
    split; [exact H2 | now apply Forall_app].
Qed.

Lemma keeps_try_except_reraise {A} (body : M S A) (handler : M S unit) :
  keeps I Q body -> keeps I Q handler -> keeps I Q (try_except_reraise body handler).
Proof.
  intros Hm Hk s Hs. unfold try_except_reraise.
  destruct (Hm s Hs) as [H1 T1]. destruct (body s) as [[[a|e] s1] t1]; cbn in *.
  - now split.
  - destruct (Hk s1 H1) as [H2 T2].
    destruct (handler s1) as [[r2 s2] t2]; cbn in *.
    split; [exact H2 | now apply Forall_app].
Qed.

End Keeps.

Section KeepsBase.
Context {E : Type} `{Base.HasBase E} (I : E -> Prop) (Q : effect -> Prop).

Lemma keeps_safe_async_write_ha_state :
  (forall s, I s -> Q (write_effect (Base.base s))) ->
  keeps I Q Base.safe_async_write_ha_state.
Proof.
  intros Hq s Hs. specialize (Hq s Hs). unfold write_effect in Hq.
  unfold Base.safe_async_write_ha_state, bind, get, emit, log.
  destruct (Base._entity_ready (Base.base s)
            && match Base.entity_id (Base.base s) with Some _ => true | None => false end);
    cbn; split; try exact Hs; now repeat constructor.
Qed.

End KeepsBase.

(** The proof of a [keeps] goal follows the text of the method. *)
Ltac keeps_step :=
  lazymatch goal with
  | |- keeps _ _ (bind _ _) => apply keeps_bind; [|intros ?]
  | |- keeps _ _ (ret _) => apply keeps_ret
  | |- keeps _ _ get => apply keeps_get
  | |- keeps _ _ (raise _) => apply keeps_raise
  | |- keeps _ _ (modify _) => apply keeps_modify
  | |- keeps _ _ (Base.modify_base _) => apply keeps_modify
  | |- keeps _ _ (log _ _) => apply keeps_emit
  | |- keeps _ _ (emit _) => apply keeps_emit
  | |- keeps _ _ (emit_all _) => apply keeps_emit_all
  | |- keeps _ _ (async_publish _ _ _ _) => apply keeps_emit
  | |- keeps _ _ (when ?c _) => unfold when; destruct c eqn:?
  | |- keeps _ _ (try_except_value_type _ _) =>
      apply keeps_try_except_value_type; [|intros ?]
  | |- keeps _ _ (try_except_value _ _) => apply keeps_try_except_value
  | |- keeps _ _ (try_except_reraise _ _) => apply keeps_try_except_reraise
  | |- keeps _ _ Base.safe_async_write_ha_state => apply keeps_safe_async_write_ha_state
  | |- keeps _ _ (if ?c then _ else _) => destruct c eqn:?
  | |- keeps _ _ (Base.subscribe _ _) =>
      unfold Base.subscribe, Base._add_mqtt_subscription
  | |- keeps _ _ Base._unsubscribe_mqtt => unfold Base._unsubscribe_mqtt
  | |- keeps _ _ (Climate.async_set_fan_mode _) => unfold Climate.async_set_fan_mode
  | |- keeps _ _ (Switch._publish_state _) => unfold Switch._publish_state
  | |- keeps _ _ (match ?x with _ => _ end) => destruct x eqn:?
  end.

Ltac unfold_methods :=
  unfold Climate.mode_received, Climate.temperature_received,
    Climate.target_temperature_received, Climate.fan_speed_received,
    Climate.swing_received, Climate.async_set_hvac_mode,
    Climate.async_set_temperature, Climate.async_set_swing_mode,
    Climate._correct_fan_speed_for_mode,
    Number.message_received, Number.async_set_native_value,
    Sensor.message_received,
    ModeSelect.message_received, ModeSelect.async_select_option,
    FanSpeedSelect.message_received, FanSpeedSelect.async_select_option,
    Switch.message_received, Switch.async_turn_on, Switch.async_turn_off,
    Switch._publish_state,
    Base.on_availability_changed, Base.async_added_to_hass,
    Base.async_will_remove_from_hass, Base._unsubscribe_mqtt, Base.subscribe,
    Base._add_mqtt_subscription,
    Base._setup_mqtt_subscriptions, Base._reset_state,
    Climate.entity, Number.entity, Sensor.entity, ModeSelect.entity,
    FanSpeedSelect.entity, Switch.entity,
    Climate._setup_mqtt_subscriptions_, Climate._reset_state_,
    Number._setup_mqtt_subscriptions_, Number._reset_state_,
    Sensor._setup_mqtt_subscriptions_, Sensor._reset_state_,
    ModeSelect._setup_mqtt_subscriptions_, ModeSelect._reset_state_,
    FanSpeedSelect._setup_mqtt_subscriptions_, FanSpeedSelect._reset_state_,
    Switch._setup_mqtt_subscriptions_, Switch._reset_state_.

Ltac keeps_auto := unfold_methods; repeat keeps_step.

Lemma inject_state {E : Type} (wrap : E -> System.entity)
  (r : outcome unit * E * list effect) :
  state_of (System.inject wrap r) = wrap (state_of r).
Proof. destruct r as [[o e] t]. reflexivity. Qed.

Lemma inject_trace {E : Type} (wrap : E -> System.entity)
  (r : outcome unit * E * list effect) :
  trace_of (System.inject wrap r) = trace_of r.
Proof. destruct r as [[o e] t]. reflexivity. Qed.

Lemma inject_outcome {E : Type} (wrap : E -> System.entity)
  (r : outcome unit * E * list effect) :
  outcome_of (System.inject wrap r) = outcome_of r.
Proof. destruct r as [[o e] t]. reflexivity. Qed.

Lemma some_eq {A} (a b : A) : Some a = Some b -> a = b.
Proof. now intros [= ->]. Qed.

Ltac open_call H :=
  match type of H with
  | Call.invoke ?c ?e = Some _ =>
      destruct e as [s|s|s|s|s|s]; destruct c;
      cbn [Call.invoke Call.of_climate Call.of_number Call.of_sensor
           Call.of_mode_select Call.of_fan_speed_select Call.of_switch
           Call.inherited option_map] in H;
      try discriminate H; apply some_eq in H; subst;
      rewrite ?inject_state, ?inject_trace, ?inject_outcome
  end.

Lemma not_write_effect (b : Base.t) :
  Base._entity_ready b = false \/ Base.entity_id b = None ->
  write_effect b <> WriteHAState.
Proof.
  unfold write_effect. intros [-> | ->]; [discriminate|].
  rewrite andb_false_r. discriminate.
Qed.

Section NeverWrites.
Context {E : Type} `{Base.HasBase E}.

Lemma never_writes_of_keeps {A} (h : M E A) (s : E) :
  keeps cannot_write (fun ef => ef <> WriteHAState) h ->
  cannot_write s -> ~ In WriteHAState (trace_of (h s)).
Proof.
  intros K Hs Hin. destruct (K s Hs) as [_ Hall].
  rewrite Forall_forall in Hall. now apply (Hall _ Hin).
Qed.

Lemma never_writes_of_keeps_id {A} (h : M E A) (s : E) :
  keeps (fun x => Base.entity_id (Base.base x) = None) (fun ef => ef <> WriteHAState) h ->
  Base.entity_id (Base.base s) = None -> ~ In WriteHAState (trace_of (h s)).
Proof.
  intros K Hs Hin. destruct (K s Hs) as [_ Hall].
  rewrite Forall_forall in Hall. now apply (Hall _ Hin).
Qed.

Lemma never_writes_at_all {A} (h : M E A) (s : E) :
  keeps (fun _ => True) (fun ef => ef <> WriteHAState) h ->
  ~ In WriteHAState (trace_of (h s)).
Proof.
  intros K Hin. destruct (K s I) as [_ Hall].
  rewrite Forall_forall in Hall. now apply (Hall _ Hin).
Qed.

End NeverWrites.

Ltac fin_never_writes :=
  try discriminate;
  try (intros ? Hs; exact I);
  try (intros ? Hs; cbn; exact Hs);
  try (intros ? [Hs | Hs]; cbn; auto; fail);
  try (intros ? Hs; apply not_write_effect; exact Hs);
  try (apply Forall_forall; intros ? Hin; apply in_map_iff in Hin as (? & <- & _);
       discriminate).

(** X9. An entity that Home Assistant has not added yet
    ([_entity_ready] false) or that has no entity id never writes its
    state: whatever method is called on it (an MQTT callback, a command,
    the scheduled fan correction, an availability change or a lifecycle
    method) with whatever argument, the trace has no [async_write_ha_state]. *)
Theorem not_ready_never_writes :
  forall (builtins : Builtins) (c : Call.t) (e : System.entity) r,
    Base._entity_ready (System.base_of e) = false \/
    Base.entity_id (System.base_of e) = None ->
    Call.invoke c e = Some r ->
    ~ In WriteHAState (trace_of r).
Proof.
  intros builtins c e r Hready Hcall.
  open_call Hcall; cbn [System.base_of] in Hready.
  all: try solve [apply never_writes_of_keeps;
                  [keeps_auto; fin_never_writes | exact Hready]].
  all: apply never_writes_at_all; keeps_auto; fin_never_writes.
Qed.

Ltac fold_base :=
  change Climate.base with (Base.base (E := Climate.t)) in *;
  change Number.base with (Base.base (E := Number.t)) in *;
  change Sensor.base with (Base.base (E := Sensor.t)) in *;
  change ModeSelect.base with (Base.base (E := ModeSelect.t)) in *;
  change FanSpeedSelect.base with (Base.base (E := FanSpeedSelect.t)) in *;
  change Switch.base with (Base.base (E := Switch.t)) in *.

Section KeepToPart.
Context {E : Type} `{Base.HasBase E}.

Lemma part_of_keeps {A} (k : call_kind) (h : M E A) (s : E) :
  keeps (fun x => Base.base x = Base.base s) (fun ef => allowed_effect k ef = true) h ->
  Forall (fun ef => allowed_effect k ef = true) (trace_of (h s)) /\
  (k <> Lifecycle -> Base.base (state_of (h s)) = Base.base s).
Proof. intros K. destruct (K s eq_refl) as [Hb Ht]. now split. Qed.

Lemma effects_of_keeps {A} (h : M E A) (s : E) :
  keeps (fun _ => True) (fun ef => allowed_effect Lifecycle ef = true) h ->
  Forall (fun ef => allowed_effect Lifecycle ef = true) (trace_of (h s)) /\
  (Lifecycle <> Lifecycle -> Base.base (state_of (h s)) = Base.base s).
Proof. intros K. destruct (K s I) as [_ Ht]. split; [exact Ht | now intros []]. Qed.

End KeepToPart.

Ltac fin_part :=
  try reflexivity;
  try (intros ? Hs; exact I);
  try (intros ? Hs; cbn; exact Hs);
  try (intros ? Hs;
       match goal with
       | |- context [write_effect ?b] =>
           destruct (write_effect_cases b) as [-> | ->]; reflexivity
       end);
  try (apply Forall_forall; intros ? Hin; apply in_map_iff in Hin as (? & <- & _);
       reflexivity).

(** X10. Each method emits only the effects of its kind of caller, and
    only the lifecycle methods touch the base fields.  An MQTT callback
    logs, writes the state and schedules the fan correction, and never
    publishes or subscribes; a command and the scheduled correction log,
    write the state and publish without the retain flag, and never
    subscribe; only [on_availability_changed], [async_added_to_hass] and
    [async_will_remove_from_hass] subscribe and unsubscribe, and they
    never publish.  A callback, a command and the correction leave the
    availability flag, the readiness flag, the recorded subscriptions and
    the identifiers as they were. *)
Theorem methods_keep_to_their_part :
  forall (builtins : Builtins) (c : Call.t) (e : System.entity) r,
    Call.invoke c e = Some r ->
    Forall (fun ef => allowed_effect (kind_of_call c) ef = true) (trace_of r) /\
    (kind_of_call c <> Lifecycle ->
     System.base_of (state_of r) = System.base_of e).
Proof.
  intros builtins c e r Hcall.
  open_call Hcall; cbn [System.base_of kind_of_call]; fold_base.
  all: try solve [apply part_of_keeps; keeps_auto; fin_part].
  all: apply effects_of_keeps; keeps_auto; fin_part.
Qed.

Section Frame.
Context {E : Type} `{Base.HasBase E}.

Lemma base_of_keeps {A} (h : M E A) (s : E) :
  keeps (fun x => Base.base x = Base.base s) (fun _ => True) h ->
  Base.base (state_of (h s)) = Base.base s.
Proof. intros K. now destruct (K s eq_refl) as [Hb _]. Qed.

End Frame.

Ltac fin_frame :=
  try exact I;
  try (intros ? Hs; cbn; exact Hs);
  try (intros ? Hs; exact I);
  try (apply Forall_forall; intros ? _; exact I).

Ltac open_entity s :=
  match type of s with
  | Climate.t =>
      destruct s as [[dev entry avail ready subs eid] mode fan swing cur tgt act prev need]
  | Number.t => destruct s as [[dev entry avail ready subs eid] tr tw v]
  | Sensor.t => destruct s as [[dev entry avail ready subs eid] topic kind is_target value]
  | ModeSelect.t => destruct s as [[dev entry avail ready subs eid] tr tw icon opt code]
  | FanSpeedSelect.t => destruct s as [[dev entry avail ready subs eid] tr tw icon opt code]
  | Switch.t => destruct s as [[dev entry avail ready subs eid] tin tout st]
  end.

(** X11. That an unavailable entity holds no MQTT subscription is an
    invariant of every method: if it holds before a call (any method, any
    argument, any entity), it holds after it. *)
Theorem unavailable_entity_holds_no_subscription :
  forall (builtins : Builtins) (c : Call.t) (e : System.entity) r,
    Call.invoke c e = Some r ->
    idle_when_unavailable e = true ->
    idle_when_unavailable (state_of r) = true.
Proof.
  intros builtins c e r Hcall Hidle.
  unfold idle_when_unavailable, System.available in *.
  open_call Hcall; cbn [System.base_of] in *; fold_base.
  all: try solve [rewrite base_of_keeps; [exact Hidle | keeps_auto; fin_frame]].
  all: open_entity s; cbn in Hidle.
  all: try (destruct available); destruct avail, ready, eid; cbn; auto.
Qed.

Section Valid.

Lemma valid_of_keeps {E A : Type} (wrap : E -> System.entity) (h : M E A) (s : E) :
  keeps (fun x => displays_valid (wrap x) = true) (fun _ => True) h ->
  displays_valid (wrap s) = true ->
  displays_valid (wrap (state_of (h s))) = true.
Proof. intros K Hs. now destruct (K s Hs) as [Hv _]. Qed.

Lemma decoded_mode_is_supported payload mode :
  Dict.get Climate.MQTT_TO_HVAC_MODE payload = Some mode ->
  Climate.mode_in mode Climate._attr_hvac_modes = true.
Proof.
  intros Hget. apply get_In in Hget. cbn in Hget.
  repeat (destruct Hget as [[= <- <-] | Hget]; [reflexivity|]).
  destruct Hget.
Qed.

Lemma decoded_fan_is_a_fan_speed payload fan :
  Dict.get Const.MQTT_TO_HA_FAN payload = Some fan ->
  Climate.str_in fan [Const.FAN_AUTO; Const.FAN_LOW; Const.FAN_MEDIUM; Const.FAN_HIGH]
  = true.
Proof.
  intros Hget. apply get_In in Hget. cbn in Hget.
  repeat (destruct Hget as [[= <- <-] | Hget]; [reflexivity|]).
  destruct Hget.
Qed.

Lemma decoded_swing_is_a_swing_mode payload swing :
  Dict.get Const.MQTT_TO_HA_SWING payload = Some swing ->
  Climate.str_in swing Climate._attr_swing_modes = true.
Proof.
  intros Hget. apply get_In in Hget. cbn in Hget.
  repeat (destruct Hget as [[= <- <-] | Hget]; [reflexivity|]).
  destruct Hget.
Qed.

Lemma str_in_In x l : Climate.str_in x l = true <-> In x l.
Proof.
  unfold Climate.str_in. rewrite existsb_exists. split.
  - intros (y & Hy & Heq). apply String.eqb_eq in Heq. now subst.
  - intros Hin. exists x. split; [exact Hin | apply String.eqb_refl].
Qed.

Lemma offered_fan_is_a_fan_speed (self : Climate.t) fan :
  negb (Climate.str_in fan (Climate.fan_modes self)) = false ->
  Climate.str_in fan [Const.FAN_AUTO; Const.FAN_LOW; Const.FAN_MEDIUM; Const.FAN_HIGH]
  = true.
Proof.
  intros Hin. apply negb_false_iff in Hin. apply str_in_In in Hin. apply str_in_In.
  unfold Climate.fan_modes in Hin.
  destruct (negb (Base.available self)); [destruct Hin|].
  destruct (HVACMode.eqb _ _); cbn in *; tauto.
Qed.

End Valid.

Ltac fin_valid :=
  try exact I;
  try (apply Forall_forall; intros ? _; exact I);
  try (intros [? ? ? ? ? ? ? ? ?] Hs; cbn in Hs |- *; exact Hs);
  try (intros [? ? ? ? ? ? ? ? ?] Hs; cbn in Hs |- *;
       apply andb_true_iff in Hs as [Hs Hsw]; apply andb_true_iff in Hs as [Hm Hf];
       repeat (apply andb_true_iff; split); auto;
       first [ eapply decoded_mode_is_supported; eassumption
             | eapply decoded_fan_is_a_fan_speed; eassumption
             | eapply decoded_swing_is_a_swing_mode; eassumption
             | eapply offered_fan_is_a_fan_speed; eassumption
             | match goal with
               | H : negb ?b = false |- ?b = true => now apply negb_false_iff in H
               end
             | reflexivity ]).

Lemma mode_label_has_its_code (label code : string) :
  first_key_of (Dict.items Const.MODE_SELECT_OPTIONS) label = Some code ->
  Dict.get Const.MODE_SELECT_OPTIONS code = Some label.
Proof.
  let table := eval vm_compute in (Dict.items Const.MODE_SELECT_OPTIONS) in
  change (Dict.items Const.MODE_SELECT_OPTIONS) with table.
  cbn [first_key_of].
  repeat match goal with
         | |- context [String.eqb ?name label] =>
             destruct (String.eqb_spec name label) as [<- | _];
             [intros [= <-]; reflexivity|]
         end.
  intros Hnone. discriminate Hnone.
Qed.

Lemma fan_label_has_its_code (label code : string) :
  first_key_of (Dict.items Const.FAN_SELECT_OPTIONS) label = Some code ->
  Dict.get Const.FAN_SELECT_OPTIONS code = Some label.
Proof.
  let table := eval vm_compute in (Dict.items Const.FAN_SELECT_OPTIONS) in
  change (Dict.items Const.FAN_SELECT_OPTIONS) with table.
  cbn [first_key_of].
  repeat match goal with
         | |- context [String.eqb ?name label] =>
             destruct (String.eqb_spec name label) as [<- | _];
             [intros [= <-]; reflexivity|]
         end.
  intros Hnone. discriminate Hnone.
Qed.

Lemma mode_select_stays_valid (h : M ModeSelect.t unit) (s : ModeSelect.t) :
  (exists payload, h = ModeSelect.message_received payload) \/
  (exists label, h = ModeSelect.async_select_option label) \/
  (exists available, h = Base.on_availability_changed available) \/
  h = Base.async_added_to_hass \/ h = Base.async_will_remove_from_hass ->
  displays_valid (System.OfModeSelect s) = true ->
  displays_valid (System.OfModeSelect (state_of (h s))) = true.
Proof.
  intros Hh Hvalid. open_entity s. cbn in Hvalid.
  destruct Hh as [[payload ->] | [[label ->] | [[available ->] | [-> | ->]]]].
  - unfold ModeSelect.message_received, bind, get. cbv beta iota zeta.
    destruct avail; cbn -[Dict.get Const.MODE_SELECT_OPTIONS]; [|exact Hvalid].
    destruct (Dict.get Const.MODE_SELECT_OPTIONS payload) as [l|] eqn:Hget;
      [|exact Hvalid].
    destruct ready, eid; cbn -[Dict.get Const.MODE_SELECT_OPTIONS];
      rewrite Hget; apply String.eqb_refl.
  - unfold ModeSelect.async_select_option, bind, get. cbv beta iota zeta.
    destruct avail; cbn -[Dict.get first_key_of Const.MODE_SELECT_OPTIONS];
      [|exact Hvalid].
    destruct (first_key_of _ label) as [v|] eqn:Hkey; [|exact Hvalid].
    apply mode_label_has_its_code in Hkey.
    destruct ready, eid; cbn -[Dict.get Const.MODE_SELECT_OPTIONS];
      rewrite Hkey; apply String.eqb_refl.
  - destruct available, avail, ready, eid; cbn; auto.
  - destruct avail; cbn; exact Hvalid.
  - exact Hvalid.
Qed.

Lemma fan_select_stays_valid (h : M FanSpeedSelect.t unit) (s : FanSpeedSelect.t) :
  (exists payload, h = FanSpeedSelect.message_received payload) \/
  (exists label, h = FanSpeedSelect.async_select_option label) \/
  (exists available, h = Base.on_availability_changed available) \/
  h = Base.async_added_to_hass \/ h = Base.async_will_remove_from_hass ->
  displays_valid (System.OfFanSpeedSelect s) = true ->
  displays_valid (System.OfFanSpeedSelect (state_of (h s))) = true.
Proof.
  intros Hh Hvalid. open_entity s. cbn in Hvalid.
  destruct Hh as [[payload ->] | [[label ->] | [[available ->] | [-> | ->]]]].
  - unfold FanSpeedSelect.message_received, bind, get. cbv beta iota zeta.
    destruct avail; cbn -[Dict.get Const.FAN_SELECT_OPTIONS]; [|exact Hvalid].
    destruct (Dict.get Const.FAN_SELECT_OPTIONS payload) as [l|] eqn:Hget;
      [|exact Hvalid].
    destruct ready, eid; cbn -[Dict.get Const.FAN_SELECT_OPTIONS];
      rewrite Hget; apply String.eqb_refl.
  - unfold FanSpeedSelect.async_select_option, bind, get. cbv beta iota zeta.
    destruct avail; cbn -[Dict.get first_key_of Const.FAN_SELECT_OPTIONS];
      [|exact Hvalid].
    destruct (first_key_of _ label) as [v|] eqn:Hkey; [|exact Hvalid].
    apply fan_label_has_its_code in Hkey.
    destruct ready, eid; cbn -[Dict.get Const.FAN_SELECT_OPTIONS];
      rewrite Hkey; apply String.eqb_refl.
  - destruct available, avail, ready, eid; cbn; auto.
  - destruct avail; cbn; exact Hvalid.
  - exact Hvalid.
Qed.

Lemma sensor_stays_valid (builtins : Builtins) (h : M Sensor.t unit) (s : Sensor.t) :
  (exists payload, h = Sensor.message_received payload) \/
  (exists available, h = Base.on_availability_changed available) \/
  h = Base.async_added_to_hass \/ h = Base.async_will_remove_from_hass ->
  displays_valid (System.OfSensor s) = true ->
  displays_valid (System.OfSensor (state_of (h s))) = true.
Proof.
  intros Hh Hvalid. open_entity s. cbn in Hvalid.
  destruct Hh as [[payload ->] | [[available ->] | [-> | ->]]].
  - unfold Sensor.message_received, bind, get, try_except_value_type.
    cbv beta iota zeta.
    destruct avail; cbn; [|exact Hvalid].
    destruct (float payload) as [[q| | |]|]; destruct is_target, ready, eid; cbn;
      auto.
  - destruct available, avail, is_target, ready, eid; cbn; auto.
  - destruct avail; cbn; exact Hvalid.
  - exact Hvalid.
Qed.

Lemma number_stays_valid (builtins : Builtins) (h : M Number.t unit) (s : Number.t) :
  (exists payload, h = Number.message_received payload) \/
  (exists value, h = Number.async_set_native_value value) \/
  (exists available, h = Base.on_availability_changed available) \/
  h = Base.async_added_to_hass \/ h = Base.async_will_remove_from_hass ->
  displays_valid (System.OfNumber s) = true ->
  displays_valid (System.OfNumber (state_of (h s))) = true.
Proof.
  intros Hh Hvalid. cbn [displays_valid] in *.
  apply andb_true_iff in Hvalid as [Hlo Hhi]. apply Z.leb_le in Hlo, Hhi.
  assert (forall n : Number.t,
             Const.TEMP_MIN <= Number._attr_native_value n <= Const.TEMP_MAX ->
             (Const.TEMP_MIN <=? Number._attr_native_value n)
             && (Number._attr_native_value n <=? Const.TEMP_MAX) = true) as Hback.
  { intros n [H1 H2]. apply andb_true_iff. split; now apply Z.leb_le. }
  destruct Hh as [[payload ->] | [[value ->] | [[available ->] | [-> | ->]]]].
  - apply Hback. now apply number_message_received_in_range.
  - apply Hback. now apply number_set_native_value_in_range.
  - apply Hback. open_entity s. cbn in Hlo, Hhi.
    destruct available, avail, ready, eid; cbn; try lia; split; discriminate.
  - apply Hback. open_entity s. cbn in Hlo, Hhi. destruct avail; cbn; lia.
  - apply Hback. split; assumption.
Qed.

(** X12. What an entity displays stays a value of its domain under every
    method call: the climate entity shows a supported mode, one of the
    four fan speeds and a louvre state; the number an integer of
    [16, 30]; the target-temperature sensor an integer or unknown; a
    selector the label of the wire code it holds. *)
Theorem displayed_values_stay_valid :
  forall (builtins : Builtins) (c : Call.t) (e : System.entity) r,
    Call.invoke c e = Some r ->
    displays_valid e = true ->
    displays_valid (state_of r) = true.
Proof.
  intros builtins c e r Hcall Hvalid.
  open_call Hcall.
  all: try reflexivity.
  all: try solve [apply valid_of_keeps; [keeps_auto; fin_valid | exact Hvalid]].
  all: try solve [apply (number_stays_valid builtins); eauto 8].
  all: try solve [apply (sensor_stays_valid builtins); eauto 8].
  all: try solve [apply mode_select_stays_valid; eauto 8].
  all: try solve [apply fan_select_stays_valid; eauto 8].
Qed.

Lemma not_ready_never_writes_witness :
  let w := Switch.mk (Base.mk example_device "entry" true false [] None)
                     (Const.topic example_device "backlight_in")
                     (Const.topic example_device "backlight_out") false in
  exists r,
    Call.invoke (builtins := reference_builtins) Call.TurnOn (System.OfSwitch w) = Some r /\
    ~ In WriteHAState (trace_of r).
Proof.
  cbv zeta. eexists. split; [reflexivity|].
  apply (not_ready_never_writes reference_builtins Call.TurnOn
           (System.OfSwitch
              (Switch.mk (Base.mk example_device "entry" true false [] None)
                         (Const.topic example_device "backlight_in")
                         (Const.topic example_device "backlight_out") false))).
  - left. reflexivity.
  - reflexivity.
Defined.

Lemma methods_keep_to_their_part_witness :
  let e := System.OfClimate (example_climate true HVACMode.COOL "auto") in
  exists r,
    Call.invoke (builtins := reference_builtins) (Call.ModeReceived "5") e = Some r /\
    Forall (fun ef => allowed_effect Callback ef = true) (trace_of r) /\
    (Callback <> Lifecycle -> System.base_of (state_of r) = System.base_of e).
Proof.
  cbv zeta. eexists. split; [reflexivity|].
  apply (methods_keep_to_their_part reference_builtins (Call.ModeReceived "5")
           (System.OfClimate (example_climate true HVACMode.COOL "auto"))).
  reflexivity.
Defined.

Lemma unavailable_entity_holds_no_subscription_witness :
  let e := System.OfFanSpeedSelect (example_fan_select true) in
  exists r,
    Call.invoke (builtins := reference_builtins) (Call.AvailabilityChanged false) e
    = Some r /\
    idle_when_unavailable e = true /\
    idle_when_unavailable (state_of r) = true.
Proof.
  cbv zeta. eexists. split; [reflexivity|]. split; [reflexivity|].
  apply (unavailable_entity_holds_no_subscription reference_builtins
           (Call.AvailabilityChanged false)
           (System.OfFanSpeedSelect (example_fan_select true))).
  - reflexivity.
  - reflexivity.
Defined.

Lemma displayed_values_stay_valid_witness :
  let e := System.OfNumber (example_number true) in
  exists r,
    Call.invoke (builtins := reference_builtins) (Call.MessageReceived "35") e = Some r /\
    displays_valid e = true /\
    displays_valid (state_of r) = true.
Proof.
  cbv zeta. eexists. split; [reflexivity|]. split; [reflexivity|].
  apply (displayed_values_stay_valid reference_builtins (Call.MessageReceived "35")
           (System.OfNumber (example_number true))).
  - reflexivity.
  - reflexivity.
Defined.

(* ===================================================================== *)
(** ** Subscriptions, the manager's list, loading and unloading *)
(* ===================================================================== *)

(** X13. An unavailable entity without subscriptions that is told the
    device is available subscribes to exactly the topics of its class (the
    climate entity to its five [*_out] topics at QoS 0, the number, the
    sensor and the selectors to their read topic at QoS 1, the switch to
    its [out] topic at QoS 0), cancels nothing, and records each
    subscription; told next that the device is unavailable, it cancels
    exactly these subscriptions, in the same order, subscribes to nothing
    and records none. *)
Theorem subscriptions_are_taken_and_cancelled_together :
  forall e : System.entity,
    System.available e = false ->
    Base._mqtt_subscriptions (System.base_of e) = [] ->
    let online := System.on_availability_changed true e in
    let offline := System.on_availability_changed false (state_of online) in
    subscribed (trace_of online) =
      match e with
      | System.OfClimate c =>
          map (fun key => (Climate.topics c key, 0))
              ["mode_out"; "temp_out"; "temp_comfort_out"; "fan_speed_out";
               "backlight_out"]
      | System.OfNumber n => [(Number._topic_read n, 1)]
      | System.OfSensor s => [(Sensor._topic s, 1)]
      | System.OfModeSelect m => [(ModeSelect._topic_read m, 1)]
      | System.OfFanSpeedSelect f => [(FanSpeedSelect._topic_read f, 1)]
      | System.OfSwitch w => [(Switch._topic_out w, 0)]
      end /\
    unsubscribed (trace_of online) = [] /\
    System.available (state_of online) = true /\
    Base._mqtt_subscriptions (System.base_of (state_of online))
    = map fst (subscribed (trace_of online)) /\
    unsubscribed (trace_of offline) = map fst (subscribed (trace_of online)) /\
    subscribed (trace_of offline) = [] /\
    System.available (state_of offline) = false /\
    Base._mqtt_subscriptions (System.base_of (state_of offline)) = [].
Proof.
  intros e Hoff Hsubs. cbv zeta.
  destruct e as [s|s|s|s|s|s]; open_entity s;
    cbn in Hoff, Hsubs; subst avail subs;
    destruct ready, eid; cbn -[Const.topic]; repeat split.
Qed.

Lemma subscriptions_are_taken_and_cancelled_together_witness :
  let e := System.OfSwitch (Switch.setup_entry "1cdbd4cbcc74" "entry") in
  let online := System.on_availability_changed true e in
  let offline := System.on_availability_changed false (state_of online) in
  System.available e = false /\
  subscribed (trace_of online) = [("1cdbd4cbcc74/backlight_auto/out", 0)] /\
  unsubscribed (trace_of offline) = ["1cdbd4cbcc74/backlight_auto/out"] /\
  Base._mqtt_subscriptions (System.base_of (state_of offline)) = [].
Proof.
  destruct (subscriptions_are_taken_and_cancelled_together
              (System.OfSwitch (Switch.setup_entry "1cdbd4cbcc74" "entry"))
              eq_refl eq_refl)
    as (Hsub & _ & _ & _ & Hunsub & _ & _ & Hnone).
  split; [reflexivity|]. split; [exact Hsub|]. split; [exact Hunsub | exact Hnone].
Defined.

(** ** Registration with the manager *)

Lemma remove_first_In x y l : In y (Manager.remove_first x l) -> In y l.
Proof.
  induction l as [|z l IH]; cbn; [tauto|].
  destruct (Nat.eqb_spec z x); cbn; tauto.
Qed.

Lemma remove_first_other x y l : y <> x -> In y l -> In y (Manager.remove_first x l).
Proof.
  intros Hne. induction l as [|z l IH]; cbn; [tauto|].
  destruct (Nat.eqb_spec z x) as [-> | Hzx]; cbn; intros [Heq | Hin]; auto.
  congruence.
Qed.

Lemma remove_first_NoDup x l :
  NoDup l -> NoDup (Manager.remove_first x l) /\ ~ In x (Manager.remove_first x l).
Proof.
  induction 1 as [|z l Hz Hl IH]; cbn; [split; [constructor | tauto]|].
  destruct (Nat.eqb_spec z x) as [-> | Hzx]; [now split|].
  destruct IH as [IH1 IH2]. split.
  - constructor; [|exact IH1]. intros Hin. apply Hz. now apply remove_first_In in Hin.
  - cbn. intros [Heq | Hin]; [congruence | contradiction].
Qed.

Lemma remove_entity_entities (i : nat) (m : Manager.t) :
  Manager._entities (Manager.remove_entity i m) = Manager.remove_first i (Manager._entities m).
Proof.
  unfold Manager.remove_entity.
  destruct (existsb (Nat.eqb i) (Manager._entities m)) eqn:Hex; [reflexivity|].
  induction (Manager._entities m) as [|z l IH]; [reflexivity|].
  cbn in Hex |- *. apply orb_false_iff in Hex as [Hz Hl].
  rewrite Nat.eqb_sym, Hz. f_equal. now apply IH.
Qed.

Lemma length_replace i e l : length (System.replace i e l) = length l.
Proof.
  revert i. induction l as [|x l IH]; intros [|i]; cbn; try reflexivity.
  now rewrite IH.
Qed.

Lemma registered_once_fresh (device_id entry_id : string) :
  registered_once (System.mk (Manager.init device_id entry_id) [] [] []).
Proof. split; [constructor | intros i []]. Qed.

Lemma registered_once_register (e : System.entity) (sys : System.t) :
  registered_once sys -> registered_once (System.register e sys).
Proof.
  intros [Hnd Hlt]. unfold registered_once, System.register.
  cbn [System.manager System.store Manager.add_entity Manager.with_entities
       Manager._entities].
  rewrite length_app. cbn [length]. split.
  - apply NoDup_app; [exact Hnd | repeat constructor; intros [] |].
    intros i Hi [<- | []]. apply Hlt in Hi. lia.
  - intros i Hi. apply in_app_or in Hi as [Hi | [<- | []]]; [apply Hlt in Hi|]; lia.
Qed.

Lemma registered_once_connectivity (payload : string) (sys : System.t) :
  registered_once sys -> registered_once (System.connectivity_message payload sys).
Proof.
  intros Hreg. unfold registered_once, System.connectivity_message.
  rewrite availability_received_step. cbv zeta.
  destruct (Bool.eqb _ _); exact Hreg.
Qed.

Lemma registered_once_run_next (sys : System.t) :
  registered_once sys -> registered_once (System.run_next sys).
Proof.
  intros Hreg. unfold System.run_next.
  destruct (System.pending sys) as [|[i b] rest]; [exact Hreg|].
  destruct (nth_error (System.store sys) i) as [e|]; [|exact Hreg].
  destruct (System.on_availability_changed b e) as [[o e'] tr].
  unfold registered_once. cbn [System.manager System.store].
  rewrite length_replace. exact Hreg.
Qed.

Lemma registered_once_add (i : nat) (entity_id : string) (sys : System.t) :
  registered_once sys -> registered_once (Hass.add_entity i entity_id sys).
Proof.
  intros Hreg. unfold Hass.add_entity.
  destruct (nth_error (System.store sys) i) as [e|]; [|exact Hreg].
  destruct (Hass.async_added_to_hass _) as [[o e'] tr].
  unfold registered_once. cbn [System.manager System.store].
  rewrite length_replace. exact Hreg.
Qed.

Lemma registered_once_remove (i : nat) (sys : System.t) :
  registered_once sys -> registered_once (Hass.remove_entity i sys).
Proof.
  intros [Hnd Hlt]. unfold Hass.remove_entity.
  destruct (nth_error (System.store sys) i) as [e|]; [|now split].
  destruct (Hass.async_will_remove_from_hass e) as [[o e'] tr].
  unfold registered_once. cbn [System.manager System.store].
  rewrite length_replace, remove_entity_entities. split.
  - now apply remove_first_NoDup.
  - intros j Hj. apply Hlt. now apply remove_first_In in Hj.
Qed.

(** X14. The manager's list names each entity once and names only
    entities that exist: this holds for a fresh manager and is kept by
    registering an entity, by a connectivity message, by running a queued
    notification, and by Home Assistant adding or removing an entity.
    Hence a connectivity message that changes the flag queues at most one
    notification per entity. *)
Theorem every_entity_is_registered_once :
  forall (device_id entry_id : string) (sys : System.t),
    registered_once (System.mk (Manager.init device_id entry_id) [] [] []) /\
    (registered_once sys ->
     (forall e, registered_once (System.register e sys)) /\
     (forall payload, registered_once (System.connectivity_message payload sys)) /\
     registered_once (System.run_next sys) /\
     (forall i entity_id, registered_once (Hass.add_entity i entity_id sys)) /\
     (forall i, registered_once (Hass.remove_entity i sys)) /\
     (forall payload,
        System.pending sys = [] ->
        NoDup (System.pending (System.connectivity_message payload sys)))).
Proof.
  intros device_id entry_id sys. split; [apply registered_once_fresh|].
  intros Hreg.
  split; [intros e; now apply registered_once_register|].
  split; [intros payload; now apply registered_once_connectivity|].
  split; [now apply registered_once_run_next|].
  split; [intros i entity_id; now apply registered_once_add|].
  split; [intros i; now apply registered_once_remove|].
  intros payload Hpend.
  destruct (connectivity_message_step payload sys Hpend) as [_ Hcase].
  cbv zeta in Hcase.
  destruct (Bool.eqb _ _); destruct Hcase as [_ ->]; [constructor|].
  destruct Hreg as [Hnd _].
  induction Hnd as [|x l Hx Hl IH]; cbn; constructor; [|exact IH].
  intros Hin. apply in_map_iff in Hin as (y & [= ->] & Hin). contradiction.
Qed.

(** X15. When Home Assistant removes a registered entity, the entity
    cancels every subscription it recorded (and nothing else), ends not
    ready and without subscriptions, leaves the manager's list while the
    other entities stay in it, and no later connectivity message queues a
    notification for it. *)
Theorem removed_entity_is_no_longer_notified :
  forall (i : nat) (payload : string) (sys : System.t),
    registered_once sys ->
    In i (Manager._entities (System.manager sys)) ->
    System.pending sys = [] ->
    let sys' := Hass.remove_entity i sys in
    ~ In i (Manager._entities (System.manager sys')) /\
    (forall j, j <> i ->
       In j (Manager._entities (System.manager sys)) ->
       In j (Manager._entities (System.manager sys'))) /\
    (exists e e',
        nth_error (System.store sys) i = Some e /\
        nth_error (System.store sys') i = Some e' /\
        unsubscribed (System.history sys')
        = unsubscribed (System.history sys)
          ++ Base._mqtt_subscriptions (System.base_of e) /\
        Base._mqtt_subscriptions (System.base_of e') = [] /\
        Base._entity_ready (System.base_of e') = false) /\
    (forall available,
        ~ In (i, available)
             (System.pending (System.connectivity_message payload sys'))).
Proof.
  intros i payload sys [Hnd Hlt] Hi Hpend. cbv zeta.
  destruct (nth_error (System.store sys) i) as [e|] eqn:He;
    [|apply nth_error_None in He; apply Hlt in Hi; lia].
  assert (~ In i (Manager._entities (System.manager (Hass.remove_entity i sys)))
          /\ (forall j, j <> i ->
                In j (Manager._entities (System.manager sys)) ->
                In j (Manager._entities (System.manager (Hass.remove_entity i sys))))
          /\ System.pending (Hass.remove_entity i sys) = [])
    as (Hgone & Hkept & Hpend').
  { unfold Hass.remove_entity. rewrite He.
    destruct (Hass.async_will_remove_from_hass e) as [[o e'] tr].
    cbn [System.manager System.pending]. rewrite remove_entity_entities.
    split; [now apply remove_first_NoDup|]. split; [|exact Hpend].
    intros j Hne Hj. now apply remove_first_other. }
  split; [exact Hgone|]. split; [exact Hkept|]. split.
  - exists e. unfold Hass.remove_entity. rewrite He.
    assert (exists e',
               Hass.async_will_remove_from_hass e
               = (Returned tt, e',
                  map Unsubscribe (Base._mqtt_subscriptions (System.base_of e)) ++ [])
               /\ Base._mqtt_subscriptions (System.base_of e') = []
               /\ Base._entity_ready (System.base_of e') = false)
      as (e' & -> & Hs & Hr).
    { destruct e as [s|s|s|s|s|s]; open_entity s; eexists;
        (split; [reflexivity|]); split; reflexivity. }
    exists e'. cbn [System.store System.history].
    split; [reflexivity|]. split; [now apply nth_error_replace_same with (x := e)|].
    split; [|now split].
    rewrite app_nil_r.
    assert (forall t1 t2, unsubscribed (t1 ++ t2) = unsubscribed t1 ++ unsubscribed t2)
      as Happ.
    { induction t1 as [|[] t1 IH]; intros t2; cbn; rewrite ?IH; reflexivity. }
    rewrite !Happ. cbn. rewrite app_nil_r. f_equal.
    induction (Base._mqtt_subscriptions (System.base_of e)) as [|x l IH];
      [reflexivity|]. cbn. now rewrite IH.
  - intros available Hin.
    destruct (connectivity_message_step payload _ Hpend') as [_ Hcase].
    cbv zeta in Hcase.
    destruct (Bool.eqb _ _); destruct Hcase as [_ Hp]; rewrite Hp in Hin;
      [destruct Hin|].
    apply in_map_iff in Hin as (j & [= -> _] & Hj). contradiction.
Qed.

(** ** Loading and unloading an entry *)

Lemma pop_set_fresh {V : Type} (d : Dict.dict V) (k : string) (v : V) :
  Dict.get d k = None -> Dict.pop (Dict.set d k v) k = d.
Proof.
  induction d as [|[k' v'] d IH]; cbn; intros Hget.
  - now rewrite String.eqb_refl.
  - destruct (k' =? k)%string eqn:Hk; [discriminate Hget|].
    cbn. rewrite Hk. f_equal. now apply IH.
Qed.

Lemma set_not_empty {V : Type} (d : Dict.dict V) (k : string) (v : V) :
  Dict.set d k v <> [].
Proof.
  destruct d as [|[k' v'] d]; cbn; [discriminate|].
  destruct (k' =? k)%string; discriminate.
Qed.

(** The system that a successful [async_setup_entry] leaves. *)
Lemma setup_entry_system entry_id entry_data data data' sys :
  Integration.async_setup_entry entry_id entry_data data
  = Integration.Returned_True data' sys ->
  exists raw,
    Dict.get entry_data Const.CONF_DEVICE_ID = Some raw /\
    twelve_hex_digits (Py.strip raw) /\
    data' = Some (Dict.set (match data with Some d => d | None => [] end) entry_id
                           (Integration.mk_record entry_data (Py.strip raw))) /\
    sys =
      (let s := Integration.manager_setup
                  (Integration.async_forward_entry_setups entry_id entry_data
                     (System.mk (Manager.init (Py.strip raw) entry_id) [] [] [])) in
       System.mk (System.manager s) (System.store s) (System.pending s)
         (System.history s
          ++ [Log INFO "Интеграция '%s' успешно загружена для устройства %s"])).
Proof.
  unfold Integration.async_setup_entry, Integration.DEVICE_ID_PATTERN_match.
  cbv zeta. unfold Dict.get_default.
  destruct (Dict.get entry_data Const.CONF_DEVICE_ID) as [raw|] eqn:Hraw;
    [|intros H; discriminate H].
  destruct (Py.strip raw =? "")%string eqn:Hne; [intros H; discriminate H|].
  destruct (String.length (Py.strip raw) =? 12)%nat eqn:Hlen;
    [|intros H; discriminate H].
  destruct (Re.hex12_match (Py.strip raw)) eqn:Hm; [|intros H; discriminate H].
  cbn [negb]. intros [= <- <-]. exists raw.
  split; [reflexivity|]. split; [|split; reflexivity].
  apply pattern_after_length_check. auto.
Qed.


(** X17. [async_setup_entry] stores the entry's record (its data and the
    stripped device id) under the entry id in [hass.data], and
    [async_unload_entry] undoes it: if the entry id was not stored before,
    a successful unload gives back the [hass.data] from before the
    setup, the domain key included when the entry was the only one; a
    failed platform unload leaves [hass.data] as it is; unloading when
    the domain is not in [hass.data] raises [KeyError]. *)
Theorem unload_undoes_setup_in_hass_data :
  forall (entry_id : string) (entry_data : Dict.dict string)
         (data data' : Integration.hass_data) (sys : System.t),
    Integration.async_setup_entry entry_id entry_data data
    = Integration.Returned_True data' sys ->
    data <> Some [] ->
    match data with Some d => Dict.get d entry_id = None | None => True end ->
    (exists d',
        data' = Some d' /\ d' <> [] /\
        Dict.get d' entry_id
        = Some (Integration.mk_record
                  entry_data
                  (Py.strip (Integration.platform_device_id entry_data)))) /\
    (exists log,
        Integration.async_unload_entry entry_id true data'
        = Integration.Returned_bool true data log) /\
    (exists log,
        Integration.async_unload_entry entry_id false data'
        = Integration.Returned_bool false data' log) /\
    Integration.async_unload_entry entry_id true None = Integration.Raised_KeyError.
Proof.
  intros entry_id entry_data data data' sys Hsetup Hnonempty Hfresh.
  destruct (setup_entry_system _ _ _ _ _ Hsetup) as (raw & Hraw & _ & -> & _).
  unfold Integration.platform_device_id. rewrite Hraw.
  split; [|split; [|split; [eexists; reflexivity | reflexivity]]].
  - eexists. split; [reflexivity|]. split; [apply set_not_empty | apply get_set_same].
  - unfold Integration.async_unload_entry.
    destruct data as [d|].
    + rewrite pop_set_fresh by exact Hfresh.
      destruct d as [|kv d]; [now contradiction Hnonempty|].
      eexists; reflexivity.
    + cbn. rewrite String.eqb_refl. eexists; reflexivity.
Qed.

Lemma unload_undoes_setup_in_hass_data_witness :
  let entry_data := ConfigFlow.entry_data "1cdbd4cbcc74" in
  (exists data' sys,
      Integration.async_setup_entry "entry" entry_data None
      = Integration.Returned_True data' sys /\
      (exists log,
          Integration.async_unload_entry "entry" true data'
          = Integration.Returned_bool true None log)).
Proof.
  cbv zeta.
  destruct (setup_entry_checks "entry" (ConfigFlow.entry_data "1cdbd4cbcc74") None)
    as (sys & Hsetup & _).
  do 2 eexists. split; [exact Hsetup|].
  destruct (unload_undoes_setup_in_hass_data
              "entry" (ConfigFlow.entry_data "1cdbd4cbcc74") None _ sys Hsetup)
    as (_ & Hunload & _).
  - discriminate.
  - exact I.
  - exact Hunload.
Defined.

Lemma removed_entity_is_no_longer_notified_witness :
  let sys' := Hass.remove_entity 1 example_system in
  ~ In 1%nat (Manager._entities (System.manager sys')) /\
  (forall available,
      ~ In (1%nat, available) (System.pending (System.connectivity_message "1" sys'))).
Proof.
  cbv zeta.
  assert (registered_once example_system) as Hreg.
  { split.
    - repeat constructor; cbn; intuition discriminate.
    - cbn. intros i [<- | [<- | [<- | []]]]; lia. }
  destruct (removed_entity_is_no_longer_notified 1 "1" example_system Hreg)
    as (Hgone & _ & _ & Hquiet).
  - cbn. auto.
  - reflexivity.
  - split; [exact Hgone | exact Hquiet].
Defined.


(* ===================================================================== *)
(** ** Commands and their echoes *)
(* ===================================================================== *)

(** X18. [async_set_fan_mode] of an available climate entity accepts
    exactly the speeds that its [fan_modes] property offers in the
    current mode (so [auto] is refused in fan-only mode).  An accepted
    speed is published on [fan_speed_in] with a wire code that decodes
    back to it, displayed, and remembered as the previous speed unless it
    is [auto]; a refused one logs an error and changes nothing. *)
Theorem set_fan_mode_accepts_what_fan_modes_offers :
  forall (e : Climate.t) (fan_mode : string),
    Base.available e = true ->
    let r := Climate.async_set_fan_mode fan_mode e in
    if Climate.str_in fan_mode (Climate.fan_modes e)
    then exists code,
           Dict.get Const.HA_TO_MQTT_FAN fan_mode = Some code /\
           Dict.get Const.MQTT_TO_HA_FAN code = Some fan_mode /\
           r = (Returned tt,
                Climate.with_fan_mode fan_mode
                  (if (fan_mode =? Const.FAN_AUTO)%string then e
                   else Climate.with_previous_fan_mode fan_mode e),
                [Publish (Climate.topics e "fan_speed_in") code 0 false;
                 write_effect (Climate.base e);
                 Log INFO "Установлена скорость вентилятора: %s (MQTT: %s)"])
    else r = (Returned tt, e, [Log ERROR "Неподдерживаемая скорость: %s"]).
Proof.
  intros e fan_mode Ha. cbv zeta.
  destruct (Climate.str_in fan_mode (Climate.fan_modes e)) eqn:Hin.
  - apply str_in_In in Hin. unfold Climate.fan_modes in Hin. rewrite Ha in Hin.
    cbn [negb] in Hin. unfold Climate.hvac_mode in Hin.
    open_entity e. cbn in Ha. subst avail. cbn [Climate._attr_hvac_mode] in Hin.
    destruct mode; cbn in Hin;
      repeat (destruct Hin as [<- | Hin];
              [eexists; split; [reflexivity|]; split; [reflexivity|];
               destruct ready, eid; reflexivity|]);
      destruct Hin.
  - unfold Climate.async_set_fan_mode, bind, get. cbv beta iota zeta.
    rewrite Ha, Hin. reflexivity.
Qed.

Lemma set_fan_mode_accepts_what_fan_modes_offers_witness :
  let e := example_climate true HVACMode.FAN_ONLY "low" in
  Climate.fan_modes e = ["low"; "medium"; "high"] /\
  (exists code,
      Dict.get Const.HA_TO_MQTT_FAN "high" = Some code /\
      Dict.get Const.MQTT_TO_HA_FAN code = Some "high" /\
      Climate.async_set_fan_mode "high" e
      = (Returned tt,
         Climate.with_fan_mode "high" (Climate.with_previous_fan_mode "high" e),
         [Publish (Climate.topics e "fan_speed_in") code 0 false;
          write_effect (Climate.base e);
          Log INFO "Установлена скорость вентилятора: %s (MQTT: %s)"])) /\
  Climate.async_set_fan_mode "auto" e
  = (Returned tt, e, [Log ERROR "Неподдерживаемая скорость: %s"]) /\
  Climate.async_set_fan_mode "turbo" e
  = (Returned tt, e, [Log ERROR "Неподдерживаемая скорость: %s"]).
Proof.
  split; [reflexivity|].
  split; [exact (set_fan_mode_accepts_what_fan_modes_offers
                   (example_climate true HVACMode.FAN_ONLY "low") "high" eq_refl)|].
  split; [exact (set_fan_mode_accepts_what_fan_modes_offers
                   (example_climate true HVACMode.FAN_ONLY "low") "auto" eq_refl)|].
  exact (set_fan_mode_accepts_what_fan_modes_offers
           (example_climate true HVACMode.FAN_ONLY "low") "turbo" eq_refl).
Defined.

Lemma safe_write_eq {E : Type} `{Base.HasBase E} (s : E) :
  Base.safe_async_write_ha_state s = (Returned tt, s, [write_effect (Base.base s)]).
Proof.
  unfold Base.safe_async_write_ha_state, write_effect, bind, get, emit, log.
  destruct (Base._entity_ready (Base.base s)
            && match Base.entity_id (Base.base s) with Some _ => true | None => false end);
    reflexivity.
Qed.




(** ** The target temperature, echoed *)

Lemma float_of_str_in_range (k : Z) :
  Const.TEMP_MIN <= k <= Const.TEMP_MAX ->
  Py.py_float (Py.str k) = Some (Py.Finite (inject_Z k)) /\
  Py.round_half_even (inject_Z k) = k.
Proof.
  unfold Const.TEMP_MIN, Const.TEMP_MAX. intros Hk.
  assert (k = 16 \/ k = 17 \/ k = 18 \/ k = 19 \/ k = 20 \/ k = 21 \/ k = 22 \/ k = 23
          \/ k = 24 \/ k = 25 \/ k = 26 \/ k = 27 \/ k = 28 \/ k = 29 \/ k = 30)
    as Hcases by lia.
  repeat (destruct Hcases as [-> | Hcases]; [split; reflexivity|]).
  subst k. split; reflexivity.
Qed.

Lemma set_temperature_publishes (c : Climate.t) (requested : Py.pynum) :
  Base.available c = true ->
  exists k : Z,
    Const.TEMP_MIN <= k <= Const.TEMP_MAX /\
    Climate.async_set_temperature (Some requested) c
    = (Returned tt,
       Climate.with_target_temperature (Py.PInt k) c,
       [Publish (Climate.topics c "temp_comfort_in") (Py.str k) 0 false;
        write_effect (Climate.base c);
        Log INFO "Установлена целевая температура: %s°C"]).
Proof.
  intros Ha.
  destruct (Py.to_float requested) as [q| | |] eqn:Hq.
  - destruct (clamp_round requested q Hq) as (k & Hround & _ & Hrange).
    exists k. split; [exact Hrange|]. now apply set_temperature_step.
  - destruct requested as [z|f]; [discriminate|]. cbn in Hq. subst f.
    exists 30. split; [unfold Const.TEMP_MIN, Const.TEMP_MAX; lia|].
    now apply set_temperature_step.
  - destruct requested as [z|f]; [discriminate|]. cbn in Hq. subst f.
    exists 16. split; [unfold Const.TEMP_MIN, Const.TEMP_MAX; lia|].
    now apply set_temperature_step.
  - destruct requested as [z|f]; [discriminate|]. cbn in Hq. subst f.
    exists 30. split; [unfold Const.TEMP_MIN, Const.TEMP_MAX; lia|].
    now apply set_temperature_step.
Qed.

(** X20. [async_set_temperature] with any number returns normally,
    publishes the decimal text of an integer of [16, 30] on
    [temp_comfort_in] and displays it; when that text comes back on
    [temp_comfort_out], the climate entity's display is unchanged, and the
    number and the target-temperature sensor display the same integer. *)
Theorem target_temperature_echo_agrees :
  forall (c : Climate.t) (n : Number.t) (s : Sensor.t) (requested : Py.pynum),
    Base.available c = true ->
    Base.available n = true ->
    Base.available s = true ->
    Sensor._is_target_temp s = true ->
    exists k : Z,
      let r := Climate.async_set_temperature (Some requested) c in
      let echo := Py.str k in
      Const.TEMP_MIN <= k <= Const.TEMP_MAX /\
      outcome_of r = Returned tt /\
      published (trace_of r) = [(Climate.topics c "temp_comfort_in", echo)] /\
      Climate._attr_target_temperature (state_of r) = Py.PInt k /\
      displayed_settings
        (state_of (Climate.target_temperature_received
                     (builtins := reference_builtins) echo (state_of r)))
      = displayed_settings (state_of r) /\
      Number._attr_native_value
        (state_of (Number.message_received (builtins := reference_builtins) echo n))
      = k /\
      Sensor._attr_native_value
        (state_of (Sensor.message_received (builtins := reference_builtins) echo s))
      = Some (Py.PInt k).
Proof.
  intros c n s requested Hc Hn Hs Htarget.
  destruct (set_temperature_publishes c requested Hc) as (k & Hk & Hr).
  destruct (float_of_str_in_range k Hk) as [Hfloat Hround].
  exists k. cbv zeta. rewrite Hr. cbn [outcome_of state_of trace_of fst snd].
  split; [exact Hk|]. split; [reflexivity|].
  split; [destruct (write_effect_cases (Climate.base c)) as [-> | ->]; reflexivity|].
  split; [reflexivity|].
  assert ((Const.TEMP_MIN <=? k) = true /\ (k <=? Const.TEMP_MAX) = true) as [Hlo Hhi]
    by (split; apply Z.leb_le; lia).
  split; [|split].
  - unfold Climate.target_temperature_received, bind, get, try_except_value.
    cbv beta iota zeta.
    open_entity c. cbn in Hc. subst avail. cbn [float reference_builtins].
    cbn -[Py.py_float Py.str]. rewrite Hfloat.
    destruct ready, eid; reflexivity.
  - unfold Number.message_received, bind, get, try_except_value_type.
    cbv beta iota zeta. rewrite Hn. cbn [negb float reference_builtins].
    cbn -[Py.py_float Py.str Py.round_half_even Z.leb].
    rewrite Hfloat. cbn -[Py.py_float Py.str Py.round_half_even Z.leb].
    rewrite Hround, Hlo, Hhi.
    open_entity n. destruct ready, eid; reflexivity.
  - unfold Sensor.message_received, bind, get, try_except_value_type.
    cbv beta iota zeta. rewrite Hs, Htarget. cbn [negb float reference_builtins].
    cbn -[Py.py_float Py.str Py.round_half_even].
    rewrite Hfloat. cbn -[Py.py_float Py.str Py.round_half_even].
    rewrite Hround.
    open_entity s. destruct ready, eid; reflexivity.
Qed.

Lemma target_temperature_echo_agrees_witness :
  let c := example_climate true HVACMode.COOL "auto" in
  let r := Climate.async_set_temperature (Some (Py.PFloat (Py.Finite (43 # 2)))) c in
  exists k : Z,
    Const.TEMP_MIN <= k <= Const.TEMP_MAX /\
    published (trace_of r) = [(Climate.topics c "temp_comfort_in", Py.str k)] /\
    Number._attr_native_value
      (state_of (Number.message_received (builtins := reference_builtins) (Py.str k)
                   (example_number true)))
    = k /\
    Sensor._attr_native_value
      (state_of (Sensor.message_received (builtins := reference_builtins) (Py.str k)
                   (example_sensor true true)))
    = Some (Py.PInt k).
Proof.
  destruct (target_temperature_echo_agrees
              (example_climate true HVACMode.COOL "auto") (example_number true)
              (example_sensor true true) (Py.PFloat (Py.Finite (43 # 2)))
              eq_refl eq_refl eq_refl eq_refl)
    as (k & Hk & _ & Hpub & _ & _ & Hn & Hs).
  exists k. split; [exact Hk|]. split; [exact Hpub|]. split; [exact Hn | exact Hs].
Defined.

(** ** The selectors *)

Lemma first_key_of_none (items : list (string * string)) (label : string) :
  first_key_of items label = None -> ~ In label (map snd items).
Proof.
  induction items as [|[k v] items IH]; cbn; [tauto|].
  destruct (String.eqb_spec v label) as [-> | Hne]; [discriminate|].
  intros Hnone [Heq | Hin]; [contradiction | now apply IH].
Qed.

(** X21. [async_select_option] of an available selector accepts exactly
    the labels of its options.  For an accepted label it publishes, at
    QoS 1 and not retained, the first wire code of the table with that
    label, a code whose label is the option, and ends in the state that
    the inbound callback reaches on that code; any other text logs an
    error and changes nothing. *)
Theorem select_option_publishes_the_code_of_the_label :
  forall (m : ModeSelect.t) (f : FanSpeedSelect.t) (option' : string),
    Base.available m = true ->
    Base.available f = true ->
    match first_key_of (Dict.items Const.MODE_SELECT_OPTIONS) option' with
    | Some code =>
        let r := ModeSelect.async_select_option option' m in
        In option' ModeSelect._attr_options /\
        Dict.get Const.MODE_SELECT_OPTIONS code = Some option' /\
        outcome_of r = Returned tt /\
        trace_of r = [Publish (ModeSelect._topic_write m) code 1 false;
                      write_effect (ModeSelect.base m);
                      Log INFO "Установлен режим: %s (MQTT: %s)"] /\
        state_of r = state_of (ModeSelect.message_received code m)
    | None =>
        ~ In option' ModeSelect._attr_options /\
        ModeSelect.async_select_option option' m
        = (Returned tt, m, [Log ERROR "Некорректный режим: %s"])
    end /\
    match first_key_of (Dict.items Const.FAN_SELECT_OPTIONS) option' with
    | Some code =>
        let r := FanSpeedSelect.async_select_option option' f in
        In option' FanSpeedSelect._attr_options /\
        Dict.get Const.FAN_SELECT_OPTIONS code = Some option' /\
        outcome_of r = Returned tt /\
        trace_of r = [Publish (FanSpeedSelect._topic_write f) code 1 false;
                      write_effect (FanSpeedSelect.base f);
                      Log INFO "Установлена скорость: %s (MQTT: %s)"] /\
        state_of r = state_of (FanSpeedSelect.message_received code f)
    | None =>
        ~ In option' FanSpeedSelect._attr_options /\
        FanSpeedSelect.async_select_option option' f
        = (Returned tt, f, [Log ERROR "Некорректная скорость: %s"])
    end.
Proof.
  intros m f label Hm Hf. split.
  - destruct (first_key_of _ label) as [wire|] eqn:Hkey.
    + pose proof (mode_label_has_its_code _ _ Hkey) as Hget. cbv zeta.
      split; [apply get_In in Hget; now apply (in_map snd) in Hget|].
      split; [exact Hget|].
      unfold ModeSelect.async_select_option, ModeSelect.message_received, bind, get.
      cbv beta iota zeta. rewrite Hm, Hkey, Hget. cbn [negb].
      open_entity m. destruct ready, eid; repeat split; reflexivity.
    + split; [now apply first_key_of_none|].
      unfold ModeSelect.async_select_option, bind, get. cbv beta iota zeta.
      rewrite Hm, Hkey. reflexivity.
  - destruct (first_key_of _ label) as [wire|] eqn:Hkey.
    + pose proof (fan_label_has_its_code _ _ Hkey) as Hget. cbv zeta.
      split; [apply get_In in Hget; now apply (in_map snd) in Hget|].
      split; [exact Hget|].
      unfold FanSpeedSelect.async_select_option, FanSpeedSelect.message_received,
        bind, get.
      cbv beta iota zeta. rewrite Hf, Hkey, Hget. cbn [negb].
      open_entity f. destruct ready, eid; repeat split; reflexivity.
    + split; [now apply first_key_of_none|].
      unfold FanSpeedSelect.async_select_option, bind, get. cbv beta iota zeta.
      rewrite Hf, Hkey. reflexivity.
Qed.

Lemma select_option_publishes_the_code_of_the_label_witness :
  let m := example_mode_select true in
  let f := example_fan_select true in
  (In "Тепло" ModeSelect._attr_options /\
   Dict.get Const.MODE_SELECT_OPTIONS "4" = Some "Тепло" /\
   outcome_of (ModeSelect.async_select_option "Тепло" m) = Returned tt /\
   trace_of (ModeSelect.async_select_option "Тепло" m)
   = [Publish (ModeSelect._topic_write m) "4" 1 false;
      write_effect (ModeSelect.base m);
      Log INFO "Установлен режим: %s (MQTT: %s)"] /\
   state_of (ModeSelect.async_select_option "Тепло" m)
   = state_of (ModeSelect.message_received "4" m)) /\
  (~ In "Тепло" FanSpeedSelect._attr_options /\
   FanSpeedSelect.async_select_option "Тепло" f
   = (Returned tt, f, [Log ERROR "Некорректная скорость: %s"])).
Proof.
  exact (select_option_publishes_the_code_of_the_label
           (example_mode_select true) (example_fan_select true) "Тепло"
           eq_refl eq_refl).
Defined.

(** ** Entities that show the same attribute of the device *)

Lemma mode_tables_have_the_same_codes (payload : string) :
  match Dict.get Climate.MQTT_TO_HVAC_MODE payload,
        Dict.get Const.MODE_SELECT_OPTIONS payload with
  | Some mode, Some _ =>
      Dict.get Const.HA_TO_MQTT_MODES (HVACMode.value mode) = Some payload
  | None, None => True
  | _, _ => False
  end.
Proof.
  destruct (Dict.get Climate.MQTT_TO_HVAC_MODE payload) as [mode|] eqn:Hc.
  - apply get_In in Hc. cbn in Hc.
    repeat (destruct Hc as [[= <- <-] | Hc]; [reflexivity|]). destruct Hc.
  - destruct (Dict.get Const.MODE_SELECT_OPTIONS payload) as [label|] eqn:Hs;
      [|exact I].
    apply get_In in Hs.
    let table := eval vm_compute in Const.MODE_SELECT_OPTIONS in
    change Const.MODE_SELECT_OPTIONS with table in Hs.
    cbn in Hs.
    repeat (destruct Hs as [[= <- <-] | Hs]; [discriminate Hc|]). destruct Hs.
Qed.

Lemma fan_tables_have_the_same_codes (payload : string) :
  match Dict.get Const.MQTT_TO_HA_FAN payload,
        Dict.get Const.FAN_SELECT_OPTIONS payload with
  | Some fan, Some _ => Dict.get Const.HA_TO_MQTT_FAN fan = Some payload
  | None, None => True
  | _, _ => False
  end.
Proof.
  destruct (Dict.get Const.MQTT_TO_HA_FAN payload) as [fan|] eqn:Hc.
  - apply get_In in Hc.
    let table := eval vm_compute in Const.MQTT_TO_HA_FAN in
    change Const.MQTT_TO_HA_FAN with table in Hc.
    cbn in Hc.
    repeat (destruct Hc as [[= <- <-] | Hc]; [reflexivity|]). destruct Hc.
  - destruct (Dict.get Const.FAN_SELECT_OPTIONS payload) as [label|] eqn:Hs;
      [|exact I].
    apply get_In in Hs.
    let table := eval vm_compute in Const.FAN_SELECT_OPTIONS in
    change Const.FAN_SELECT_OPTIONS with table in Hs.
    cbn in Hs.
    repeat (destruct Hs as [[= <- <-] | Hs]; [discriminate Hc|]). destruct Hs.
Qed.

Lemma mode_received_display (c : Climate.t) (payload : string) :
  Base.available c = true ->
  let c' := state_of (Climate.mode_received payload c) in
  Climate._attr_hvac_mode c'
  = match Dict.get Climate.MQTT_TO_HVAC_MODE payload with
    | Some mode => mode
    | None => Climate._attr_hvac_mode c
    end /\
  Climate._attr_fan_mode c' = Climate._attr_fan_mode c /\
  Climate._attr_swing_mode c' = Climate._attr_swing_mode c.
Proof.
  intros Ha. cbv zeta.
  unfold Climate.mode_received, bind, get. cbv beta iota zeta. rewrite Ha.
  cbn [negb].
  destruct (Dict.get Climate.MQTT_TO_HVAC_MODE payload) as [new|];
    [|repeat split].
  open_entity c.
  cbn [Climate._attr_hvac_mode Climate._attr_fan_mode].
  destruct (HVACMode.eqb new HVACMode.FAN_ONLY
            && negb (HVACMode.eqb mode HVACMode.FAN_ONLY)),
           (fan =? Const.FAN_AUTO)%string, need, ready, eid;
    cbn; repeat split.
Qed.

Lemma fan_speed_received_display (c : Climate.t) (payload : string) :
  Base.available c = true ->
  let c' := state_of (Climate.fan_speed_received payload c) in
  Climate._attr_hvac_mode c' = Climate._attr_hvac_mode c /\
  Climate._attr_fan_mode c'
  = match Dict.get Const.MQTT_TO_HA_FAN payload with
    | Some fan => fan
    | None => Climate._attr_fan_mode c
    end /\
  Climate._attr_swing_mode c' = Climate._attr_swing_mode c.
Proof.
  intros Ha. cbv zeta.
  destruct (Dict.get Const.MQTT_TO_HA_FAN payload) as [new|] eqn:Hget.
  - rewrite (fan_speed_received_known c payload new Ha Hget).
    cbn [state_of fst snd].
    destruct (Climate._need_fan_auto_correction c && negb (new =? Const.FAN_AUTO)%string),
             (negb (Climate._attr_fan_mode c =? Const.FAN_AUTO)%string);
      repeat split.
  - unfold Climate.fan_speed_received, bind, get. cbv beta iota zeta.
    rewrite Ha, Hget. repeat split.
Qed.

Lemma swing_received_display (c : Climate.t) (payload : string) :
  Base.available c = true ->
  let c' := state_of (Climate.swing_received payload c) in
  Climate._attr_hvac_mode c' = Climate._attr_hvac_mode c /\
  Climate._attr_fan_mode c' = Climate._attr_fan_mode c /\
  Climate._attr_swing_mode c'
  = match Dict.get Const.MQTT_TO_HA_SWING payload with
    | Some swing => swing
    | None => Climate._attr_swing_mode c
    end.
Proof.
  intros Ha. cbv zeta.
  unfold Climate.swing_received, bind, get. cbv beta iota zeta. rewrite Ha.
  cbn [negb].
  destruct (Dict.get Const.MQTT_TO_HA_SWING payload) as [new|]; [|repeat split].
  open_entity c. destruct ready, eid; repeat split.
Qed.

(** X22. The climate entity and the mode selector subscribe to the same
    [mode_out] topic, the climate entity and the fan-speed selector to
    [fan_speed_out], the climate entity and the louvre switch to
    [backlight_out].  If the four entities are available and show the
    same device state, they still show the same state after each has
    handled the same payload on its topic, whatever the payload (known
    or not). *)
Theorem entities_fed_the_same_message_agree :
  forall (c : Climate.t) (m : ModeSelect.t) (f : FanSpeedSelect.t) (w : Switch.t)
         (payload : string),
    Base.available c = true ->
    Base.available m = true ->
    Base.available f = true ->
    Base.available w = true ->
    same_device_state c m f w ->
    same_device_state (state_of (Climate.mode_received payload c))
                      (state_of (ModeSelect.message_received payload m)) f w /\
    same_device_state (state_of (Climate.fan_speed_received payload c)) m
                      (state_of (FanSpeedSelect.message_received payload f)) w /\
    same_device_state (state_of (Climate.swing_received payload c)) m f
                      (state_of (Switch.message_received payload w)).
Proof.
  intros c m f w payload Hc Hm Hf Hw (Hmode & Hfan & Hswing).
  unfold same_device_state.
  split; [|split].
  - destruct (mode_received_display c payload Hc) as (-> & -> & ->).
    split; [|now split].
    pose proof (mode_tables_have_the_same_codes payload) as Htab.
    unfold ModeSelect.message_received, bind, get. cbv beta iota zeta.
    rewrite Hm. cbn [negb].
    destruct (Dict.get Climate.MQTT_TO_HVAC_MODE payload) as [new|],
             (Dict.get Const.MODE_SELECT_OPTIONS payload) as [label|];
      try contradiction.
    + rewrite Htab. open_entity m. destruct ready, eid; reflexivity.
    + exact Hmode.
  - destruct (fan_speed_received_display c payload Hc) as (-> & -> & ->).
    split; [exact Hmode|]. split; [|exact Hswing].
    pose proof (fan_tables_have_the_same_codes payload) as Htab.
    unfold FanSpeedSelect.message_received, bind, get. cbv beta iota zeta.
    rewrite Hf. cbn [negb].
    destruct (Dict.get Const.MQTT_TO_HA_FAN payload) as [new|],
             (Dict.get Const.FAN_SELECT_OPTIONS payload) as [label|];
      try contradiction.
    + rewrite Htab. open_entity f. destruct ready, eid; reflexivity.
    + exact Hfan.
  - destruct (swing_received_display c payload Hc) as (-> & -> & ->).
    split; [exact Hmode|]. split; [exact Hfan|].
    unfold Switch.message_received, Switch.is_on, bind, get. cbv beta iota zeta.
    rewrite Hw. cbn [negb].
    let table := eval vm_compute in Const.MQTT_TO_HA_SWING in
    change Const.MQTT_TO_HA_SWING with table.
    cbn [Dict.get].
    unfold Const.BLINDS_ON, Const.BLINDS_OFF.
    rewrite (String.eqb_sym payload "1"), (String.eqb_sym payload "0").
    open_entity w.
    destruct ("1" =? payload)%string, ("0" =? payload)%string, ready, eid;
      cbn; try reflexivity; exact Hswing.
Qed.

Lemma entities_fed_the_same_message_agree_witness :
  let c := example_climate true HVACMode.COOL "high" in
  let m := example_mode_select true in
  let f := example_fan_select true in
  let w := example_switch true in
  same_device_state c m f w /\
  same_device_state (state_of (Climate.mode_received "4" c))
                    (state_of (ModeSelect.message_received "4" m)) f w /\
  same_device_state (state_of (Climate.swing_received "0" c)) m f
                    (state_of (Switch.message_received "0" w)).
Proof.
  cbv zeta.
  assert (same_device_state (example_climate true HVACMode.COOL "high")
            (example_mode_select true) (example_fan_select true)
            (example_switch true)) as Hsame
    by (repeat split).
  split; [exact Hsame|].
  split.
  - exact (proj1 (entities_fed_the_same_message_agree
                    (example_climate true HVACMode.COOL "high")
                    (example_mode_select true) (example_fan_select true)
                    (example_switch true) "4" eq_refl eq_refl eq_refl eq_refl Hsame)).
  - exact (proj2 (proj2 (entities_fed_the_same_message_agree
                    (example_climate true HVACMode.COOL "high")
                    (example_mode_select true) (example_fan_select true)
                    (example_switch true) "0" eq_refl eq_refl eq_refl eq_refl Hsame))).
Defined.

(* ===================================================================== *)
(** ** Exceptions *)
(* ===================================================================== *)

Section RaisesOnly.
Context {S : Type} (P : Py.exn -> Prop).
Local Open Scope monad_scope.

Lemma raises_only_ret {A} (a : A) : raises_only P (@ret S A a).
Proof. intros s. exact I. Qed.

Lemma raises_only_get : raises_only P (@get S).
Proof. intros s. exact I. Qed.

Lemma raises_only_modify (f : S -> S) : raises_only P (modify f).
Proof. intros s. exact I. Qed.

Lemma raises_only_emit (e : effect) : raises_only P (@emit S e).
Proof. intros s. exact I. Qed.

Lemma raises_only_emit_all (es : list effect) : raises_only P (@emit_all S es).
Proof. intros s. exact I. Qed.

Lemma raises_only_raise {A} (e : Py.exn) : P e -> raises_only P (@raise S A e).
Proof. intros He s. exact He. Qed.

Lemma raises_only_bind {A B} (m : M S A) (k : A -> M S B) :
  raises_only P m -> (forall a, raises_only P (k a)) -> raises_only P (bind m k).
Proof.
  intros Hm Hk s. unfold bind. specialize (Hm s).
  destruct (m s) as [[[a|e] s1] t1]; cbn in *; [|exact Hm].
  specialize (Hk a s1). destruct (k a s1) as [[r2 s2] t2]. exact Hk.
Qed.

Lemma raises_only_try_except_value_type {A} (body : M S A) (handler : Py.exn -> M S A) :
  raises_only (fun e => e = Py.ValueError \/ e = Py.TypeError \/ P e) body ->
  (forall e, raises_only P (handler e)) ->
  raises_only P (try_except_value_type body handler).
Proof.
  intros Hm Hk s. unfold try_except_value_type. specialize (Hm s).
  destruct (body s) as [[[a|e] s1] t1]; cbn in *; [exact I|].
  destruct e.
  - specialize (Hk Py.ValueError s1).
    destruct (handler Py.ValueError s1) as [[r2 s2] t2]. exact Hk.
  - specialize (Hk Py.TypeError s1).
    destruct (handler Py.TypeError s1) as [[r2 s2] t2]. exact Hk.
  - cbn. destruct Hm as [Hm | [Hm | Hm]]; [discriminate Hm | discriminate Hm | exact Hm].
Qed.

Lemma raises_only_try_except_value {A} (body handler : M S A) :
  raises_only (fun e => e = Py.ValueError \/ P e) body ->
  raises_only P handler ->
  raises_only P (try_except_value body handler).
Proof.
  intros Hm Hk s. unfold try_except_value. specialize (Hm s).
  destruct (body s) as [[[a|e] s1] t1]; cbn in *; [exact I|].
  destruct e; cbn.
  - specialize (Hk s1). destruct (handler s1) as [[r2 s2] t2]. exact Hk.
  - destruct Hm as [Hm | Hm]; [discriminate Hm | exact Hm].
  - destruct Hm as [Hm | Hm]; [discriminate Hm | exact Hm].
Qed.

Lemma raises_only_try_except_reraise {A} (body : M S A) (handler : M S unit) :
  raises_only P body -> raises_only P (try_except_reraise body handler).
Proof.
  intros Hm s. unfold try_except_reraise. specialize (Hm s).
  destruct (body s) as [[[a|e] s1] t1]; cbn in *; [exact I|].
  destruct (handler s1) as [[r2 s2] t2]. exact Hm.
Qed.

End RaisesOnly.

Lemma raises_only_safe_async_write_ha_state {E : Type} `{Base.HasBase E}
  (P : Py.exn -> Prop) :
  raises_only P Base.safe_async_write_ha_state.
Proof.
  intros s. unfold Base.safe_async_write_ha_state, bind, get, emit, log.
  destruct (Base._entity_ready (Base.base s)
            && match Base.entity_id (Base.base s) with Some _ => true | None => false end);
    exact I.
Qed.

Ltac raises_step :=
  lazymatch goal with
  | |- raises_only _ (bind _ _) => apply raises_only_bind; [|intros ?]
  | |- raises_only _ (ret _) => apply raises_only_ret
  | |- raises_only _ get => apply raises_only_get
  | |- raises_only _ (raise _) => apply raises_only_raise
  | |- raises_only _ (modify _) => apply raises_only_modify
  | |- raises_only _ (Base.modify_base _) => apply raises_only_modify
  | |- raises_only _ (log _ _) => apply raises_only_emit
  | |- raises_only _ (emit _) => apply raises_only_emit
  | |- raises_only _ (emit_all _) => apply raises_only_emit_all
  | |- raises_only _ (async_publish _ _ _ _) => apply raises_only_emit
  | |- raises_only _ (when ?c _) => unfold when; destruct c eqn:?
  | |- raises_only _ (try_except_value_type _ _) =>
      apply raises_only_try_except_value_type; [|intros ?]
  | |- raises_only _ (try_except_value _ _) => apply raises_only_try_except_value
  | |- raises_only _ (try_except_reraise _ _) => apply raises_only_try_except_reraise
  | |- raises_only _ Base.safe_async_write_ha_state =>
      apply raises_only_safe_async_write_ha_state
  | |- raises_only _ (if ?c then _ else _) => destruct c eqn:?
  | |- raises_only _ (Base.subscribe _ _) =>
      unfold Base.subscribe, Base._add_mqtt_subscription
  | |- raises_only _ Base._unsubscribe_mqtt => unfold Base._unsubscribe_mqtt
  | |- raises_only _ (Climate.async_set_fan_mode _) => unfold Climate.async_set_fan_mode
  | |- raises_only _ (Switch._publish_state _) => unfold Switch._publish_state
  | |- raises_only _ (match ?x with _ => _ end) => destruct x eqn:?
  end.

Ltac raises_auto := unfold_methods; repeat raises_step.

Lemma clamped_number_rounds (x : Py.pynum) (a b : Z) (e : Py.exn) :
  Py.int_round (Py.max2 (Py.PInt a) (Py.min2 (Py.PInt b) x)) = inl e -> False.
Proof.
  destruct x as [z|[q| | |]]; unfold Py.max2, Py.min2; cbn;
    repeat match goal with
           | |- context [if ?c then _ else _] => destruct c; cbn
           end; discriminate.
Qed.

Ltac fin_raises :=
  try (left; reflexivity);
  try (exfalso; eapply clamped_number_rounds; eassumption).

Lemma returns_of_raises_only {S : Type} (h : M S unit) (s : S) :
  raises_only (fun _ => False) h -> outcome_of (h s) = Returned tt.
Proof.
  intros K. specialize (K s). destruct (outcome_of (h s)) as [[]|e];
    [reflexivity | contradiction].
Qed.

(** X23. No method raises, except when [int(round(...))] meets a
    number that is not finite (the transport being assumed to deliver).
    On an available number entity or target-temperature sensor, a payload
    that [float] reads as an infinity makes the callback raise
    [OverflowError], which its [except (ValueError, TypeError)] does not
    catch (a NaN is caught as a [ValueError]); on an available number
    entity, [async_set_native_value] with a NaN or an infinity logs the
    error and raises it again.  Every other call, on every entity and
    with every argument, returns normally.  A call that raises leaves
    the entity as it was, publishes nothing and writes no state. *)
Theorem only_rounding_a_non_finite_number_raises :
  forall (builtins : Builtins) (c : Call.t) (e : System.entity) r,
    Call.invoke c e = Some r ->
    outcome_of r
    = match uncaught_exception c e with
      | Some exception => Raised exception
      | None => Returned tt
      end /\
    (forall exception,
        outcome_of r = Raised exception ->
        state_of r = e /\ published (trace_of r) = [] /\
        ~ In WriteHAState (trace_of r)).
Proof.
  intros builtins c e r Hcall.
  open_call Hcall; unfold uncaught_exception;
    cbn [System.available System.base_of].
  all: try solve [
    match goal with
    | |- outcome_of ?call = _ /\ _ =>
        let Hret := fresh "Hret" in
        assert (outcome_of call = Returned tt) as Hret
          by (apply returns_of_raises_only; raises_auto; fin_raises);
        rewrite Hret; split;
        [ repeat match goal with
                 | |- context [if ?b then _ else _] => destruct b
                 end; reflexivity
        | intros ? Hraised; discriminate Hraised ]
    end ].
  all: open_entity s; destruct avail; cbn -[Const.TEMP_MIN Const.TEMP_MAX].
  all: try (split; [reflexivity | intros ? Hraised; discriminate Hraised]).
  all: unfold try_except_value_type, try_except_reraise.
  all: repeat match goal with
              | |- context [float ?p] => destruct (float p) as [[q| | |]|]
              | value : Py.pynum |- _ => destruct value as [z|[q| | |]]
              end.
  all: cbn -[Const.TEMP_MIN Const.TEMP_MAX].
  all: repeat (match goal with
               | |- context [if ?b then _ else _] => destruct b
               end; cbn -[Const.TEMP_MIN Const.TEMP_MAX]).
  all: split; [reflexivity|].
  all: intros ? Hraised; try discriminate Hraised.
  all: split; [reflexivity|]; split; [reflexivity|].
  all: intros [Hin | Hin]; [discriminate Hin | destruct Hin].
Qed.

Lemma only_rounding_a_non_finite_number_raises_witness :
  let n := System.OfNumber (example_number true) in
  exists r,
    Call.invoke (builtins := reference_builtins) (Call.MessageReceived "-inf") n
    = Some r /\
    outcome_of r = Raised Py.OverflowError /\
    state_of r = n /\
    exists r',
      Call.invoke (builtins := reference_builtins) (Call.MessageReceived "nan") n
      = Some r' /\
      outcome_of r' = Returned tt.
Proof.
  cbv zeta. eexists. split; [reflexivity|].
  destruct (only_rounding_a_non_finite_number_raises
              reference_builtins (Call.MessageReceived "-inf")
              (System.OfNumber (example_number true)) _ eq_refl) as [Hout Hkept].
  split; [exact Hout|]. split; [exact (proj1 (Hkept _ Hout))|].
  eexists. split; [reflexivity|].
  exact (proj1 (only_rounding_a_non_finite_number_raises
                  reference_builtins (Call.MessageReceived "nan")
                  (System.OfNumber (example_number true)) _ eq_refl)).
Defined.

(** X24. [async_turn_on] and [async_turn_off] of an available louvre
    switch return normally, publish ["1"] and ["0"] on the switch's [in]
    topic at QoS 0 without the retain flag, and display on and off; the
    code is the one the climate entity's table gives for the louvre modes
    [on] and [off], and its echo on the [out] topic changes nothing and
    publishes nothing. *)
Theorem switch_command_echo_changes_nothing :
  forall (w : Switch.t) (on : bool),
    Base.available w = true ->
    let r := (if on then Switch.async_turn_on else Switch.async_turn_off) w in
    let code := if on then Const.BLINDS_ON else Const.BLINDS_OFF in
    let echo := Switch.message_received code (state_of r) in
    outcome_of r = Returned tt /\
    published (trace_of r) = [(Switch._topic_in w, code)] /\
    Forall (fun ef => match ef with
                      | Publish _ _ qos retain => qos = 0 /\ retain = false
                      | _ => True
                      end) (trace_of r) /\
    Switch.is_on (state_of r) = on /\
    Dict.get Const.HA_TO_MQTT_SWING (if on then Const.SWING_ON else Const.SWING_OFF)
    = Some code /\
    Dict.get Const.MQTT_TO_HA_SWING code
    = Some (if on then Const.SWING_ON else Const.SWING_OFF) /\
    state_of echo = state_of r /\
    published (trace_of echo) = [].
Proof.
  intros w on Ha. cbv zeta.
  open_entity w. cbn in Ha. subst avail.
  destruct on, ready, eid; cbn; repeat split; repeat constructor.
Qed.

Lemma switch_command_echo_changes_nothing_witness :
  let w := example_switch true in
  published (trace_of (Switch.async_turn_off w))
  = [("1cdbd4cbcc74/backlight_auto/in", "0")] /\
  Switch.is_on (state_of (Switch.async_turn_off w)) = false /\
  state_of (Switch.message_received "0" (state_of (Switch.async_turn_off w)))
  = state_of (Switch.async_turn_off w).
Proof.
  destruct (switch_command_echo_changes_nothing (example_switch true) false eq_refl)
    as (_ & Hpub & _ & Hoff & _ & _ & Hecho & _).
  split; [exact Hpub|]. split; [exact Hoff | exact Hecho].
Defined.
